(** * Moodle app: upcoming calendar events, site plugins helper, e-mail signup page

    A shallow embedding of three classes of the app and the proofs of the
    properties stated about them:

    - [Calendar]: [AddonCalendarUpcomingEventsComponent]
      (upcoming-events.ts): merging of online and offline events, the
      handler of the "undeleted event" notification;
    - [SitePlugins]: [CoreSitePluginsHelperProvider]: fetching site
      plugins, downloading handler styles, registering handlers in the
      delegates;
    - [Signup]: [CoreLoginEmailSignupPage] (email-signup.page.ts): account
      creation and age verification.

    Event objects are shared between the arrays of the calendar component,
    so they live in a store and the arrays hold references.  Calls to
    services that are outside these classes (web services, file pool, DOM
    helpers) are recorded in a trace; what they answer is an input. *)

From Stdlib Require Import ZArith QArith Lqa String List Bool Lia Permutation Sorted.
From stdpp Require Import base option list strings gmap.

Open Scope string_scope.
Open Scope list_scope.
Open Scope Z_scope.

(** [l'] is [l] restricted to the elements that satisfy [P], in the order
    and with the repetitions of [l]. *)
Inductive selected {A} (P : A -> Prop) : list A -> list A -> Prop :=
| selected_nil : selected P [] []
| selected_keep x l l' : P x -> selected P l l' -> selected P (x :: l) (x :: l')
| selected_drop x l l' : ~ P x -> selected P l l' -> selected P (x :: l) l'.

(* ===================================================================== *)
(** * Upcoming calendar events *)
(* ===================================================================== *)

Module Calendar.

(** An event to display ([AddonCalendarEventToDisplay]): the fields the
    component reads or writes, [name] standing for the rest of the payload.
    [deleted] and [formattedtime] are optional in the source. *)
Record Event := mkEvent {
  id : Z;
  name : string;
  timestart : Z;
  timeduration : Z;
  deleted : option bool;
  formattedtime : option string;
}.

#[export] Instance Event_inhabited : Inhabited Event :=
  populate (mkEvent 0 "" 0 0 None None).

(** [event.deleted = b] and [event.formattedtime = t]. *)
Definition set_deleted (b : bool) (e : Event) : Event :=
  mkEvent (id e) (name e) (timestart e) (timeduration e) (Some b) (formattedtime e).

Definition set_formattedtime (t : string) (e : Event) : Event :=
  mkEvent (id e) (name e) (timestart e) (timeduration e) (deleted e) (Some t).

(** The store of event objects is a list; a reference is an index in it.
    New objects are appended. *)
Definition alloc (h : list Event) (es : list Event) : list nat * list Event :=
  (seq (length h) (length es), h ++ es).

(** The component.  [objects] is the store the arrays point into. *)
Record Component := mkComponent {
  objects : list Event;
  filteredEvents : list nat;
  loaded : bool;
  categoriesRetrieved : bool;
  currentSiteId : string;
  events : list nat;
  onlineEvents : list nat;
  offlineEvents : list nat;
  deletedEvents : list Z;
  lookAhead : Z;
  timeFormat : option string;
}.

Definition set_objects (h : list Event) (c : Component) : Component :=
  mkComponent h (filteredEvents c) (loaded c) (categoriesRetrieved c)
    (currentSiteId c) (events c) (onlineEvents c) (offlineEvents c)
    (deletedEvents c) (lookAhead c) (timeFormat c).

Definition set_filteredEvents (l : list nat) (c : Component) : Component :=
  mkComponent (objects c) l (loaded c) (categoriesRetrieved c)
    (currentSiteId c) (events c) (onlineEvents c) (offlineEvents c)
    (deletedEvents c) (lookAhead c) (timeFormat c).

Definition set_events (l : list nat) (c : Component) : Component :=
  mkComponent (objects c) (filteredEvents c) (loaded c) (categoriesRetrieved c)
    (currentSiteId c) l (onlineEvents c) (offlineEvents c)
    (deletedEvents c) (lookAhead c) (timeFormat c).

Definition set_onlineEvents (l : list nat) (c : Component) : Component :=
  mkComponent (objects c) (filteredEvents c) (loaded c) (categoriesRetrieved c)
    (currentSiteId c) (events c) l (offlineEvents c)
    (deletedEvents c) (lookAhead c) (timeFormat c).

Definition set_deletedEvents (l : list Z) (c : Component) : Component :=
  mkComponent (objects c) (filteredEvents c) (loaded c) (categoriesRetrieved c)
    (currentSiteId c) (events c) (onlineEvents c) (offlineEvents c)
    l (lookAhead c) (timeFormat c).

(** Modelled from the spec: [CoreConstants.SECONDS_DAY], whose file is not
    among the sources; the look-ahead window is counted in days, and a day
    has 86400 seconds. *)
Definition SECONDS_DAY : Z := 86400.

(** [this.deletedEvents.indexOf(id) != -1] *)
Definition includes (x : Z) (l : list Z) : bool := existsb (Z.eqb x) l.

(** [array.indexOf(x)]: the first index holding [x]; [None] for -1. *)
Fixpoint indexOf (x : Z) (l : list Z) : option nat :=
  match l with
  | [] => None
  | y :: l' => if y =? x then Some 0%nat else option_map S (indexOf x l')
  end.

(** [array.splice(i, 1)] *)
Definition splice1 (i : nat) (l : list Z) : list Z := take i l ++ drop (S i) l.

(** [event.deleted = this.deletedEvents.indexOf(event.id) != -1] *)
Definition mark_deleted (dl : list Z) (e : Event) : Event :=
  set_deleted (includes (id e) dl) e.

(** [result.forEach((event) => { event.deleted = ... })]: the objects are
    updated in the store, one reference after the other. *)
Definition mark_all (dl : list Z) (rs : list nat) (h : list Event) : list Event :=
  fold_left (fun h r => alter (mark_deleted dl) r h) rs h.

(** [start = Date.now() / 1000] and [end = start + SECONDS_DAY * lookAhead];
    [now] is [Date.now()], in milliseconds.  Rationals stand for the numbers
    of the source: the times of events and the look-ahead are whole
    numbers, and a comparison of a whole number with [start] or [end] comes
    out the same in both. *)
Definition window_start (now : Z) : Q := inject_Z now / 1000.
Definition window_end (now : Z) (lookAhead : Z) : Q :=
  window_start now + inject_Z (SECONDS_DAY * lookAhead).

(** [(event.timestart >= start || event.timestart + event.timeduration >= start)
      && event.timestart <= end] *)
Definition in_period (start end_ : Q) (e : Event) : bool :=
  (Qle_bool start (inject_Z (timestart e))
   || Qle_bool start (inject_Z (timestart e + timeduration e)))
  && Qle_bool (inject_Z (timestart e)) end_.

(** [!this.offlineEvents.find((ev) => ev.id == event.id)] *)
Definition not_in_offline (h : list Event) (offline : list nat) (r : nat) : bool :=
  match List.find (fun o => id (h !!! o) =? id (h !!! r)) offline with
  | Some _ => false
  | None => true
  end.

Section Sorting.

(** The calendar event sort order, as a boolean "comes no later than". *)
Variable ev_leb : Event -> Event -> bool.

(** The place of [r] in a sorted array: before the first event that does
    not come before it. *)
Fixpoint insert_event (h : list Event) (r : nat) (l : list nat) : list nat :=
  match l with
  | [] => [r]
  | x :: l' =>
      if ev_leb (h !!! r) (h !!! x) then r :: x :: l'
      else x :: insert_event h r l'
  end.

(** Modelled from the spec: [AddonCalendarHelper.sortEvents] is not among
    the sources; the spec names the sort order of the event lists.  It is
    a stable sort of the array for the calendar event order. *)
Definition sortEvents (h : list Event) (l : list nat) : list nat :=
  fold_right (insert_event h) [] l.

(** [mergeEvents()]: the merged array and the store after the call. *)
Definition mergeEvents (now : Z) (c : Component) : list nat * list Event :=
  if (length (offlineEvents c) =? 0)%nat && (length (deletedEvents c) =? 0)%nat then
    (* No offline events, nothing to merge. *)
    (onlineEvents c, objects c)
  else
    let start := window_start now in
    let end_ := window_end now (lookAhead c) in
    let result := onlineEvents c in
    let h :=
      if negb (length (deletedEvents c) =? 0)%nat
      then mark_all (deletedEvents c) result (objects c)
      else objects c in
    let result :=
      if negb (length (offlineEvents c) =? 0)%nat
      then List.filter (not_in_offline h (offlineEvents c)) result
      else result in
    let periodOfflineEvents :=
      List.filter (fun r => in_period start end_ (h !!! r)) (offlineEvents c) in
    (sortEvents h (result ++ periodOfflineEvents), h).

End Sorting.

Section Fetch.

Variable ev_leb : Event -> Event -> bool.

(** [AddonCalendarHelper.getFilteredEvents(this.events, this.filter,
    this.categories)], of the helper service: it selects among the events. *)
Variable getFilteredEvents : list Event -> list nat -> list nat.

(** [AddonCalendar.formatEventTime(event, this.timeFormat)], of the calendar
    service; [None] when the promise is rejected. *)
Variable formatEventTime : Event -> option string -> option string.

(** [.then((time) => { event.formattedtime = time })] for every event; the
    calls to [formatEventTime] are all made before the first assignment. *)
Definition format_times (tf : option string) (rs : list nat) (h0 : list Event)
  : list Event :=
  fold_left
    (fun h r =>
       match formatEventTime (h0 !!! r) tf with
       | Some t => alter (set_formattedtime t) r h
       | None => h
       end) rs h0.

(** [fetchEvents()].  [upcoming] is what [getUpcomingEvents] answered, each
    event already through [formatEventData] ([None]: the call failed);
    the boolean tells whether the promise is resolved.  Scheduling the
    notifications is a call to the calendar service that leaves the
    component as it is. *)
Definition fetchEvents (upcoming : option (list Event)) (now : Z) (c : Component)
  : Component * bool :=
  match upcoming with
  | None => (c, false)
  | Some evs =>
      let '(rs, h) := alloc (objects c) evs in
      let c := set_onlineEvents rs (set_objects h c) in
      let '(merged, h) := mergeEvents ev_leb now c in
      let c := set_events merged (set_objects h c) in
      let c := set_filteredEvents (getFilteredEvents (objects c) (events c)) c in
      let h := format_times (timeFormat c) (events c) (objects c) in
      (set_objects h c,
       forallb (fun r => bool_decide (is_Some (formatEventTime (objects c !!! r) (timeFormat c))))
         (events c))
  end.

End Fetch.

(** An instance of the calendar order: by start time, then by duration. *)
Definition start_then_duration (a b : Event) : bool :=
  (timestart a <? timestart b)
  || ((timestart a =? timestart b) && (timeduration a <=? timeduration b)).

(** The list [l] of references is sorted for [ev_leb], read in the store. *)
Definition sorted_events (ev_leb : Event -> Event -> bool) (h : list Event)
  (l : list nat) : Prop :=
  Sorted (fun r1 r2 => ev_leb (h !!! r1) (h !!! r2) = true) l.

(** In the words of the specification: the time span of the event,
    [timestart, timestart + timeduration], and the look-ahead window, from
    now to now plus [lookAhead] days, have an instant in common.  The times
    of events are in seconds, [now] is in milliseconds, and a day has 86400
    seconds: the window is [now / 1000, now / 1000 + 86400 * lookAhead]. *)
Definition span_meets_window (now lookAhead : Z) (e : Event) : Prop :=
  exists t : Q,
    (inject_Z (timestart e) <= t /\ t <= inject_Z (timestart e + timeduration e) /\
     inject_Z now / 1000 <= t /\ t <= inject_Z now / 1000 + inject_Z (86400 * lookAhead))%Q.

(** [undeleteEvent(eventId)] *)
Definition undeleteEvent (eventId : Z) (c : Component) : Component :=
  match List.find (fun r => id (objects c !!! r) =? eventId) (onlineEvents c) with
  | Some r => set_objects (alter (set_deleted false) r (objects c)) c
  | None => c
  end.

(** The payload of the notification ([AddonCalendarUpdatedEventEvent]); the
    observer also accepts a missing payload and a missing [eventId]. *)
Record UpdatedEventEvent := { eventId : option Z }.

(** A number is falsy when it is 0. *)
Definition truthy_id (x : option Z) : option Z :=
  match x with
  | Some 0 => None
  | _ => x
  end.

(** The observer of [UNDELETED_EVENT_EVENT]. *)
Definition undeleteEventObserver (data : option UpdatedEventEvent) (c : Component)
  : Component :=
  match data with
  | None => c
  | Some d =>
      match truthy_id (eventId d) with
      | None => c
      | Some eid =>
          let c := undeleteEvent eid c in
          match indexOf eid (deletedEvents c) with
          | Some index => set_deletedEvents (splice1 index (deletedEvents c)) c
          | None => c
          end
      end
  end.

(** ** A component to run the definitions on

    Two online events, the second of which was edited offline; the edited
    copy and a new offline event far beyond the look-ahead window; the first
    online event was deleted offline. *)
Definition example_objects : list Event :=
  [ mkEvent 1 "quiz" 100 0 None None;
    mkEvent 2 "lesson" 200 60 None None;
    mkEvent 2 "lesson (edited)" 300 60 None None;
    mkEvent (-1) "new" 90000000 0 None None ].

Definition example_component : Component :=
  mkComponent example_objects [] true true "site" [] [0; 1]%nat [2; 3]%nat [1] 1 None.

(** A component without offline data, and upcoming events that the server
    sends latest first. *)
Definition online_only_component : Component :=
  mkComponent [] [] true true "site" [] [] [] [] 1 None.


Definition latest_first : list Event :=
  [ mkEvent 2 "lesson" 200 60 None None; mkEvent 1 "quiz" 100 0 None None ].

End Calendar.

(* ===================================================================== *)
(** * Values of the host language *)
(* ===================================================================== *)

Module JS.

(** Data whose shape the code does not fix (parsed JSON, results of scripts).
    [VFun] is a function value, named by its source. *)
#[warnings="-register-all"]
Inductive JsVal :=
| VUndef
| VNull
| VBool (b : bool)
| VNum (n : Z)
| VStr (s : string)
| VArr (items : list JsVal)
| VObj (fields : list (string * JsVal))
| VFun (source : string).

(** The value in a condition: [if (v)], [!v], [v && w]. *)
Definition truthy (v : JsVal) : bool :=
  match v with
  | VUndef | VNull => false
  | VBool b => b
  | VNum n => negb (n =? 0)
  | VStr s => negb (String.eqb s "")
  | VArr _ | VObj _ | VFun _ => true
  end.

(** An optional string in a condition: absent and empty are falsy. *)
Definition truthy_str (s : option string) : bool :=
  match s with
  | Some s => negb (String.eqb s "")
  | None => false
  end.

Fixpoint lookup_field (k : string) (fs : list (string * JsVal)) : JsVal :=
  match fs with
  | [] => VUndef
  | (k', v) :: fs' => if String.eqb k' k then v else lookup_field k fs'
  end.

(** [v[k]] for a truthy [v] and a property name [k] that is neither an
    index nor ["length"]. *)
Definition prop (v : JsVal) (k : string) : JsVal :=
  match v with
  | VObj fs => lookup_field k fs
  | _ => VUndef
  end.

(** [Object.keys(v).length] for a truthy [v]: the properties of an object,
    the indices of an array or of a string. *)
Definition object_keys_length (v : JsVal) : nat :=
  match v with
  | VObj fs => length fs
  | VArr l => length l
  | VStr s => String.length s
  | _ => 0%nat
  end.

(** [typeof v == 'function'] *)
Definition is_function (v : JsVal) : bool :=
  match v with
  | VFun _ => true
  | _ => false
  end.

Fixpoint string_drop (n : nat) (s : string) : string :=
  match n, s with
  | O, _ => s
  | S n', String _ s' => string_drop n' s'
  | S _, EmptyString => EmptyString
  end.

(** [s.replace(pat, rep)] with a string pattern: the first occurrence only. *)
Fixpoint replace (pat rep s : string) : string :=
  if String.prefix pat s then rep +:+ string_drop (String.length pat) s
  else
    match s with
    | EmptyString => EmptyString
    | String c s' => String c (replace pat rep s')
    end.

End JS.

(* ===================================================================== *)
(** * Site plugins helper *)
(* ===================================================================== *)

Module SitePlugins.
Import JS.

(** ** Data *)

(** A plugin as the web service declares it, with the two fields the app
    adds to the object ([parsedHandlers], [parsedLang]). *)
Record Plugin := mkPlugin {
  component : string;
  addon : string;
  handlers : option string;
  lang : option string;
  parsedHandlers : JsVal;
  parsedLang : JsVal;
}.

Definition set_parsedHandlers (v : JsVal) (p : Plugin) : Plugin :=
  mkPlugin (component p) (addon p) (handlers p) (lang p) v (parsedLang p).

Record Styles := mkStyles {
  url : option string;
  version : option Z;
}.

Record DisplayData := mkDisplayData {
  title : string;
  icon : option string;
}.

(** The schema of a handler, an entry of [parsedHandlers]. *)
Record HandlerSchema := mkSchema {
  delegate : option string;
  displaydata : option DisplayData;
  offlinefunctions : JsVal;
  init : option string;
  method : option string;
  styles : option Styles;
  methodTemplates : JsVal;
  methodJSResult : JsVal;
}.

(** What [getContent] answers, with the result of its script once run. *)
Record ContentResult := mkContent {
  templates : JsVal;
  javascript : option string;
  otherdata : JsVal;
  jsResult : JsVal;
}.

(** [{}] *)
Definition emptyResult : ContentResult := mkContent VUndef None VUndef VUndef.

Definition set_jsResult (v : JsVal) (r : ContentResult) : ContentResult :=
  mkContent (templates r) (javascript r) (otherdata r) v.

(** [handlerSchema.methodTemplates = t; handlerSchema.methodJSResult = j] *)
Definition set_method_data (t j : JsVal) (s : HandlerSchema) : HandlerSchema :=
  mkSchema (delegate s) (displaydata s) (offlinefunctions s) (init s) (method s)
    (styles s) t j.

Record Site := mkSite {
  site_id : string;
  site_url : string;
}.

(** An entry of the file pool. *)
Record FileEntry := mkFile { file_url : string }.

(** What is stored for a registered handler. *)
Record HandlerData := mkHandlerData {
  hd_plugin : Plugin;
  hd_handlerName : string;
  hd_handlerSchema : HandlerSchema;
  hd_initResult : ContentResult;
}.

(** The delegates of the constructor. *)
Inductive Delegate :=
| MainMenuDelegate
| CourseModuleDelegate
| CourseModulePrefetchDelegate
| CourseOptionsDelegate
| CourseFormatDelegate
| UserDelegate
| UserProfileFieldDelegate.

#[export] Instance Delegate_eq_dec : EqDecision Delegate.
Proof. solve_decision. Defined.

(** The handler objects, by the class and the arguments of [new]; for the
    profile field handler, the methods overridden after construction. *)
Inductive Handler :=
| MainMenuHandler (name title : string) (plugin : Plugin)
    (handlerSchema : HandlerSchema) (initResult : ContentResult)
| ModuleHandler (name modName : string) (handlerSchema : HandlerSchema)
| ModulePrefetchHandler (component name modName : string)
    (handlerSchema : HandlerSchema)
| CourseOptionHandler (name title : string) (plugin : Plugin)
    (handlerSchema : HandlerSchema) (initResult : ContentResult)
| CourseFormatHandler (name formatName : string) (handlerSchema : HandlerSchema)
| UserProfileHandler (name title : string) (plugin : Plugin)
    (handlerSchema : HandlerSchema) (initResult : ContentResult)
| UserProfileFieldHandler (name fieldType : string)
    (overridden : list (string * JsVal)).

(** Calls to the services around the helper. *)
Inductive Effect :=
| Register (d : Delegate) (h : Handler)
| ReadWS (siteId wsName : string)
| RemoveFileByUrl (siteId fileUrl : string)
| DownloadUrl (siteId fileUrl componentId : string) (version : option Z)
| HttpGet (fileUrl : string)
| LoadStyles (uniqueName fileUrl cssCode : string) (version : option Z)
    (siteId : string)
| LogDebug (message : string)
| LogWarn (message : string)
| LogError (message : string).

(** The services whose code is outside the helper, by what they answer.
    For a promise, [None] is a rejection. *)
Record Env := mkEnv {
  (* CoreSitesProvider *)
  getCurrentSiteId : string;
  getSite : option string -> option Site;
  isFeatureDisabled : Site -> string -> bool;
  readPlugins : Site -> option (list Plugin);
  (* CoreSitePluginsProvider *)
  COMPONENT : string;
  isGetContentAvailable : Site -> bool;
  getHandlerUniqueName : Plugin -> string -> string;
  getContent : string -> string -> bool -> option ContentResult;
  (* CoreCompileProvider.executeJavascript on the data of the result *)
  executeJavascript : ContentResult -> string -> JsVal;
  (* CoreTextUtilsProvider, CoreUrlUtilsProvider *)
  parseJSON : string -> JsVal;
  isAbsoluteURL : string -> bool;
  concatenatePaths : string -> string -> string;
  (* CoreFilepoolProvider, Http *)
  getFilesByComponent : string -> string -> string -> option (list FileEntry);
  downloadUrl : string -> string -> string -> option Z -> option string;
  httpGetText : string -> option (option string);
  (* the function-valued properties of a CoreSitePluginsUserProfileFieldHandler *)
  profileFieldHandlerMethods : list string;
}.

(** ** State and effects *)

(** The state the helper works on: the trace of the calls made so far and
    the map of [CoreSitePluginsProvider] from names to handler data. *)
Record St := mkSt {
  trace : list Effect;
  sitePluginHandlers : gmap string HandlerData;
}.

Definition M (A : Type) : Type := St -> A * St.

Definition ret {A} (x : A) : M A := fun st => (x, st).

Definition bind {A B} (m : M A) (k : A -> M B) : M B :=
  fun st => let '(x, st') := m st in k x st'.

Notation "x <- m ;; k" := (bind m (fun x => k))
  (at level 100, m at next level, right associativity).
Notation "m ;; k" := (bind m (fun _ => k))
  (at level 100, right associativity).

Definition emit (e : Effect) : M unit :=
  fun st => (tt, mkSt (trace st ++ [e]) (sitePluginHandlers st)).

(** Modelled from the spec: [CoreSitePluginsProvider.setSitePluginHandler]
    is not among the sources; the registry stores the data of a handler in
    a map, keyed by the name it is given. *)
Definition setSitePluginHandler (name : string) (data : HandlerData) : M unit :=
  fun st => (tt, mkSt (trace st) (<[name := data]> (sitePluginHandlers st))).

Fixpoint forEach {A} (l : list A) (f : A -> M unit) : M unit :=
  match l with
  | [] => ret tt
  | x :: l' => f x ;; forEach l' f
  end.

Section Helper.

Variable E : Env.

(** ** Styles *)

(** [handlerSchema.styles && handlerSchema.styles.url] *)
Definition declared_url (handlerSchema : HandlerSchema) : option string :=
  match styles handlerSchema with
  | Some st => url st
  | None => None
  end.

(** [let url = handlerSchema.styles && handlerSchema.styles.url;
     if (url && !isAbsoluteURL(url)) url = concatenatePaths(site.getURL(), url)] *)
Definition styles_url (site : Site) (handlerSchema : HandlerSchema) : option string :=
  let url := declared_url handlerSchema in
  match url with
  | Some u =>
      if truthy_str url && negb (isAbsoluteURL E u)
      then Some (concatenatePaths E (site_url site) u)
      else url
  | None => None
  end.

(** [file.url != url] *)
Definition url_differs (fileUrl : string) (url : option string) : bool :=
  match url with
  | Some u => negb (String.eqb fileUrl u)
  | None => true
  end.

(** [handlerSchema.styles.version] *)
Definition styles_version (handlerSchema : HandlerSchema) : option Z :=
  match styles handlerSchema with
  | Some st => version st
  | None => None
  end.

(** [downloadStyles]: the promise resolves with the CSS code ([Some]) or is
    rejected ([None]).  The removal of the files that are not used any
    longer does not block the download, and its failures are ignored; the
    trace lists the removals first, whenever the file pool carries them
    out. *)
Definition downloadStyles (plugin : Plugin) (handlerName : string)
  (handlerSchema : HandlerSchema) (siteId : option string) : M (option string) :=
  match getSite E siteId with
  | None => ret None
  | Some site =>
      let url := styles_url site handlerSchema in
      let uniqueName := getHandlerUniqueName E plugin handlerName in
      let componentId := uniqueName +:+ "#main" in
      match getFilesByComponent E (site_id site) (COMPONENT E) componentId with
      | Some files =>
          forEach files (fun file =>
            if url_differs (file_url file) url
            then emit (RemoveFileByUrl (site_id site) (file_url file))
            else ret tt)
      | None => ret tt
      end ;;
      match url with
      | Some u =>
          if negb (truthy_str url) then ret (Some "")
          else
            emit (DownloadUrl (site_id site) u componentId (styles_version handlerSchema)) ;;
            match downloadUrl E (site_id site) u componentId (styles_version handlerSchema) with
            | None => ret None
            | Some localUrl =>
                emit (HttpGet localUrl) ;;
                match httpGetText E localUrl with
                | Some (Some text) => ret (Some text)
                | _ => ret None
                end
            end
      | None => ret (Some "")
      end
  end.

(** ** Init and content methods *)

(** [executeMethodAndJS(plugin, method, isInit)] *)
Definition executeMethodAndJS (plugin : Plugin) (method : string) (isInit : bool)
  : option ContentResult :=
  let siteId := getCurrentSiteId E in
  match getContent E (component plugin) method isInit with
  | None => None
  | Some result =>
      match javascript result with
      | Some js =>
          if negb (truthy_str (javascript result))
             || negb (String.eqb (getCurrentSiteId E) siteId)
          then Some result
          else Some (set_jsResult (executeJavascript E result js) result)
      | None => Some result
      end
  end.

(** [executeHandlerInit(plugin, handlerSchema)] *)
Definition executeHandlerInit (plugin : Plugin) (handlerSchema : HandlerSchema)
  : option ContentResult :=
  match init handlerSchema with
  | Some m =>
      if negb (truthy_str (init handlerSchema)) then Some emptyResult
      else executeMethodAndJS plugin m true
  | None => Some emptyResult
  end.

(** ** Fetching the plugins *)

Definition getPrefixForStrings (addon : string) : string :=
  if negb (String.eqb addon "") then "plugin." +:+ addon +:+ "." else "".

Definition getPrefixedString (addon key : string) : string :=
  getPrefixForStrings addon +:+ key.

(** [isSitePluginEnabled(plugin, site)]: the answer and the plugin object
    after the call. *)
Definition isSitePluginEnabled (plugin : Plugin) (site : Site) : bool * Plugin :=
  match handlers plugin with
  | Some json =>
      if negb (isFeatureDisabled E site
                 ("sitePlugin_" +:+ component plugin +:+ "_" +:+ addon plugin))
         && truthy_str (handlers plugin)
      then
        let plugin :=
          if negb (truthy (parsedHandlers plugin))
          then set_parsedHandlers (parseJSON E json) plugin
          else plugin in
        (truthy (parsedHandlers plugin)
         && negb (object_keys_length (parsedHandlers plugin) =? 0)%nat, plugin)
      else (false, plugin)
  | None => (false, plugin)
  end.

(** [data.plugins.forEach((plugin) => { if (enabled) plugins.push(plugin) })] *)
Fixpoint enabled_plugins (site : Site) (l : list Plugin) : list Plugin :=
  match l with
  | [] => []
  | plugin :: l' =>
      let '(enabled, plugin) := isSitePluginEnabled plugin site in
      if enabled then plugin :: enabled_plugins site l' else enabled_plugins site l'
  end.

(** [fetchSitePlugins(siteId)] *)
Definition fetchSitePlugins (siteId : option string) : M (option (list Plugin)) :=
  match getSite E siteId with
  | None => ret None
  | Some site =>
      if negb (isGetContentAvailable E site) then ret (Some [])
      else
        emit (ReadWS (site_id site) "tool_mobile_get_plugins_supporting_mobile") ;;
        match readPlugins E site with
        | None => ret None
        | Some plugins => ret (Some (enabled_plugins site plugins))
        end
  end.

(** ** Registration in the delegates

    Each function answers the string that identifies the handler, or nothing
    ([undefined]). *)

Definition registerCourseFormatHandler (plugin : Plugin) (handlerName : string)
  (handlerSchema : HandlerSchema) (initResult : ContentResult) : M (option string) :=
  emit (LogDebug "Register site plugin in course format delegate:") ;;
  let uniqueName := getHandlerUniqueName E plugin handlerName in
  let formatName := replace "format_" "" (component plugin) in
  emit (Register CourseFormatDelegate
          (CourseFormatHandler uniqueName formatName handlerSchema)) ;;
  ret (Some formatName).

Definition registerCourseOptionHandler (plugin : Plugin) (handlerName : string)
  (handlerSchema : HandlerSchema) (initResult : ContentResult) : M (option string) :=
  match displaydata handlerSchema with
  | None =>
      emit (LogWarn "Ignore site plugin because it doesn't provide displaydata") ;;
      ret None
  | Some dd =>
      emit (LogDebug "Register site plugin in course option delegate:") ;;
      let uniqueName := getHandlerUniqueName E plugin handlerName in
      let prefixedTitle := getPrefixedString (addon plugin) (title dd) in
      emit (Register CourseOptionsDelegate
              (CourseOptionHandler uniqueName prefixedTitle plugin handlerSchema initResult)) ;;
      ret (Some uniqueName)
  end.

Definition registerMainMenuHandler (plugin : Plugin) (handlerName : string)
  (handlerSchema : HandlerSchema) (initResult : ContentResult) : M (option string) :=
  match displaydata handlerSchema with
  | None =>
      emit (LogWarn "Ignore site plugin because it doesn't provide displaydata") ;;
      ret None
  | Some dd =>
      emit (LogDebug "Register site plugin in main menu delegate:") ;;
      let uniqueName := getHandlerUniqueName E plugin handlerName in
      let prefixedTitle := getPrefixedString (addon plugin) (title dd) in
      emit (Register MainMenuDelegate
              (MainMenuHandler uniqueName prefixedTitle plugin handlerSchema initResult)) ;;
      ret (Some uniqueName)
  end.

Definition registerModuleHandler (plugin : Plugin) (handlerName : string)
  (handlerSchema : HandlerSchema) (initResult : ContentResult) : M (option string) :=
  match displaydata handlerSchema with
  | None =>
      emit (LogWarn "Ignore site plugin because it doesn't provide displaydata") ;;
      ret None
  | Some _ =>
      emit (LogDebug "Register site plugin in module delegate:") ;;
      let uniqueName := getHandlerUniqueName E plugin handlerName in
      let modName := replace "mod_" "" (component plugin) in
      emit (Register CourseModuleDelegate
              (ModuleHandler uniqueName modName handlerSchema)) ;;
      (if truthy (offlinefunctions handlerSchema)
          && negb (object_keys_length (offlinefunctions handlerSchema) =? 0)%nat
       then emit (Register CourseModulePrefetchDelegate
                    (ModulePrefetchHandler (component plugin) uniqueName modName
                       handlerSchema))
       else ret tt) ;;
      ret (Some modName)
  end.

Definition registerUserProfileHandler (plugin : Plugin) (handlerName : string)
  (handlerSchema : HandlerSchema) (initResult : ContentResult) : M (option string) :=
  match displaydata handlerSchema with
  | None =>
      emit (LogWarn "Ignore site plugin because it doesn't provide displaydata") ;;
      ret None
  | Some dd =>
      emit (LogDebug "Register site plugin in user profile delegate:") ;;
      let uniqueName := getHandlerUniqueName E plugin handlerName in
      let prefixedTitle := getPrefixedString (addon plugin) (title dd) in
      emit (Register UserDelegate
              (UserProfileHandler uniqueName prefixedTitle plugin handlerSchema initResult)) ;;
      ret (Some uniqueName)
  end.

(** [for (const property in fieldHandler) { if (property != 'constructor' &&
    typeof fieldHandler[property] == 'function' &&
    typeof result.jsResult[property] == 'function') ... }] *)
Definition overridden_methods (jsResult : JsVal) : list (string * JsVal) :=
  map (fun property => (property, prop jsResult property))
    (List.filter
       (fun property =>
          negb (String.eqb property "constructor")
          && is_function (prop jsResult property))
       (profileFieldHandlerMethods E)).

(** [registerUserProfileFieldHandler]: the identifier (when the promise
    resolves with one) and the schema, to which the templates and the
    result of the script of the method are added. *)
Definition registerUserProfileFieldHandler (plugin : Plugin) (handlerName : string)
  (handlerSchema : HandlerSchema) (initResult : ContentResult)
  : M (option string * HandlerSchema) :=
  match method handlerSchema with
  | Some m =>
      if negb (truthy_str (method handlerSchema)) then
        emit (LogWarn "Ignore site plugin because it doesn't provide method") ;;
        ret (None, handlerSchema)
      else
        emit (LogDebug "Register site plugin in user profile field delegate:") ;;
        match executeMethodAndJS plugin m false with
        | Some result =>
            let uniqueName := getHandlerUniqueName E plugin handlerName in
            let fieldType := replace "profilefield_" "" (component plugin) in
            let handlerSchema :=
              set_method_data (templates result) (jsResult result) handlerSchema in
            let overridden :=
              if truthy (jsResult result) then overridden_methods (jsResult result)
              else [] in
            emit (Register UserProfileFieldDelegate
                    (UserProfileFieldHandler uniqueName fieldType overridden)) ;;
            ret (Some fieldType, handlerSchema)
        | None =>
            emit (LogError "Error executing main method") ;;
            ret (None, handlerSchema)
        end
  | None =>
      emit (LogWarn "Ignore site plugin because it doesn't provide method") ;;
      ret (None, handlerSchema)
  end.

(** [switch (handlerSchema.delegate)] *)
Definition dispatch (plugin : Plugin) (handlerName : string)
  (handlerSchema : HandlerSchema) (result : ContentResult)
  : M (option string * HandlerSchema) :=
  let same := fun (m : M (option string)) =>
                uniqueName <- m ;; ret (uniqueName, handlerSchema) in
  match delegate handlerSchema with
  | Some d =>
      if String.eqb d "CoreMainMenuDelegate" then
        same (registerMainMenuHandler plugin handlerName handlerSchema result)
      else if String.eqb d "CoreCourseModuleDelegate" then
        same (registerModuleHandler plugin handlerName handlerSchema result)
      else if String.eqb d "CoreUserDelegate" then
        same (registerUserProfileHandler plugin handlerName handlerSchema result)
      else if String.eqb d "CoreCourseOptionsDelegate" then
        same (registerCourseOptionHandler plugin handlerName handlerSchema result)
      else if String.eqb d "CoreCourseFormatDelegate" then
        same (registerCourseFormatHandler plugin handlerName handlerSchema result)
      else if String.eqb d "CoreUserProfileFieldDelegate" then
        registerUserProfileFieldHandler plugin handlerName handlerSchema result
      else ret (None, handlerSchema)
  | None => ret (None, handlerSchema)
  end.

(** [loadStyles]: the style element added to the document and the call to
    [treatCSSCode]. *)
Definition loadStyles (plugin : Plugin) (handlerName : string) (fileUrl cssCode : string)
  (version : option Z) (siteId : string) : M unit :=
  let uniqueName := getHandlerUniqueName E plugin handlerName in
  emit (LoadStyles uniqueName fileUrl cssCode version siteId).

(** [registerHandler(plugin, handlerName, handlerSchema)].  The two promises
    (styles, init) are started together; the trace lists the calls of the
    first before the calls made once both are settled. *)
Definition registerHandler (plugin : Plugin) (handlerName : string)
  (handlerSchema : HandlerSchema) : M unit :=
  let siteId := getCurrentSiteId E in
  code <- downloadStyles plugin handlerName handlerSchema (Some siteId) ;;
  cssCode <- match code with
             | Some c => ret (Some c)
             | None => emit (LogError "Error getting styles for plugin") ;; ret None
             end ;;
  match executeHandlerInit plugin handlerSchema with
  | None => emit (LogError "Error executing init method")
  | Some result =>
      (match cssCode, styles handlerSchema with
       | Some c, Some st =>
           if truthy_str cssCode
           then loadStyles plugin handlerName (default "" (url st)) c (version st) siteId
           else ret tt
       | _, _ => ret tt
       end) ;;
      registered <- dispatch plugin handlerName handlerSchema result ;;
      let '(uniqueName, handlerSchema) := registered in
      match uniqueName with
      | Some name =>
          if truthy_str uniqueName
          then setSitePluginHandler name
                 (mkHandlerData plugin handlerName handlerSchema result)
          else ret tt
      | None => ret tt
      end
  end.

End Helper.

(** ** Reading a trace *)

(** The registrations of a trace, in order. *)
Fixpoint registrations (tr : list Effect) : list (Delegate * Handler) :=
  match tr with
  | [] => []
  | Register d h :: tr' => (d, h) :: registrations tr'
  | _ :: tr' => registrations tr'
  end.

(** The six delegates of the specification; the seventh is the prefetch
    delegate. *)
Definition per_feature (d : Delegate) : bool :=
  match d with
  | CourseModulePrefetchDelegate => false
  | _ => true
  end.

(** The delegate that a value of [handlerSchema.delegate] names. *)
Definition named_delegate (d : option string) : option Delegate :=
  match d with
  | Some d =>
      if String.eqb d "CoreMainMenuDelegate" then Some MainMenuDelegate
      else if String.eqb d "CoreCourseModuleDelegate" then Some CourseModuleDelegate
      else if String.eqb d "CoreUserDelegate" then Some UserDelegate
      else if String.eqb d "CoreCourseOptionsDelegate" then Some CourseOptionsDelegate
      else if String.eqb d "CoreCourseFormatDelegate" then Some CourseFormatDelegate
      else if String.eqb d "CoreUserProfileFieldDelegate" then Some UserProfileFieldDelegate
      else None
  | None => None
  end.

(** The per-feature registrations among [regs]. *)
Definition per_feature_only (regs : list (Delegate * Handler)) : list (Delegate * Handler) :=
  List.filter (fun r => per_feature (fst r)) regs.

(** The requests to remove the files whose URL is not [url]. *)
Definition removals (siteId : string) (url : option string) (files : list FileEntry)
  : list Effect :=
  map (fun f => RemoveFileByUrl siteId (file_url f))
    (List.filter (fun f => url_differs (file_url f) url) files).

(** The effect downloads or reads a file. *)
Definition is_download (e : Effect) : bool :=
  match e with
  | DownloadUrl _ _ _ _ | HttpGet _ => true
  | _ => false
  end.

(** ** What the properties speak of *)

Section Properties.

Variable E : Env.

(** The plugin once its manifest is parsed, as [isSitePluginEnabled] leaves
    it. *)
Definition parsed_plugin (p : Plugin) : Plugin :=
  match handlers p with
  | Some json => set_parsedHandlers (parseJSON E json) p
  | None => p
  end.

(** The plugin is an enabled site plugin of the site: its feature is not
    disabled, it declares handlers, and the manifest parses into a value
    with at least one key. *)
Definition enabled_site_plugin (site : Site) (p : Plugin) : Prop :=
  isFeatureDisabled E site ("sitePlugin_" +:+ component p +:+ "_" +:+ addon p) = false
  /\ exists json, handlers p = Some json /\ json <> ""
                  /\ (0 < object_keys_length (parseJSON E json))%nat.

(** The data a delegate requires before a handler is registered in it:
    [displaydata] for the main menu, course module, user profile and course
    option handlers, nothing for a course format, a method that runs for a
    user profile field. *)
Definition required_data (plugin : Plugin) (handlerSchema : HandlerSchema)
  (d : Delegate) : bool :=
  match d with
  | MainMenuDelegate | CourseModuleDelegate | UserDelegate | CourseOptionsDelegate =>
      bool_decide (is_Some (displaydata handlerSchema))
  | CourseFormatDelegate => true
  | UserProfileFieldDelegate =>
      match method handlerSchema with
      | Some m => truthy_str (method handlerSchema)
                  && bool_decide (is_Some (executeMethodAndJS E plugin m false))
      | None => false
      end
  | CourseModulePrefetchDelegate => false
  end.

(** The string that identifies a handler registered in a delegate. *)
Definition handler_identifier (plugin : Plugin) (handlerName : string)
  (d : Delegate) : string :=
  match d with
  | MainMenuDelegate | UserDelegate | CourseOptionsDelegate
  | CourseModulePrefetchDelegate =>
      getHandlerUniqueName E plugin handlerName
  | CourseModuleDelegate => replace "mod_" "" (component plugin)
  | CourseFormatDelegate => replace "format_" "" (component plugin)
  | UserProfileFieldDelegate => replace "profilefield_" "" (component plugin)
  end.

(** What the switch of [registerHandler] did, given the registrations [regs]
    it made, the identifier [ident] it answered and the schema [schema']
    it left: nothing for a string that names no delegate or when the
    required data is missing; otherwise one per-feature registration, in the
    delegate named, and the identifier of the handler. *)
Definition dispatched (plugin : Plugin) (handlerName : string)
  (handlerSchema : HandlerSchema) (regs : list (Delegate * Handler))
  (ident : option string) (schema' : HandlerSchema) : Prop :=
  match named_delegate (delegate handlerSchema) with
  | None => regs = [] /\ ident = None /\ schema' = handlerSchema
  | Some D =>
      if required_data plugin handlerSchema D
      then (exists h, per_feature_only regs = [(D, h)])
           /\ ident = Some (handler_identifier plugin handlerName D)
           /\ (D <> UserProfileFieldDelegate -> schema' = handlerSchema)
      else regs = [] /\ ident = None /\ schema' = handlerSchema
  end.

(** [handlerSchema.offlinefunctions] is present and has at least one key. *)
Definition has_offline_functions (handlerSchema : HandlerSchema) : Prop :=
  truthy (offlinefunctions handlerSchema) = true
  /\ (0 < object_keys_length (offlinefunctions handlerSchema))%nat.

End Properties.

(** ** A site to run the definitions on *)

Definition dq : string := String (Ascii.ascii_of_nat 34) EmptyString.

(** The manifest [{"view":{}}], with its quotes. *)
Definition example_manifest : string :=
  "{" +:+ dq +:+ "view" +:+ dq +:+ ":{}}".

Definition example_site : Site := mkSite "site1" "https://school.example".

Definition certificate : Plugin :=
  mkPlugin "mod_certificate" "mod_certificate" (Some example_manifest) None VUndef VUndef.

Definition survey : Plugin :=
  mkPlugin "mod_survey" "mod_survey" (Some example_manifest) None VUndef VUndef.

Definition empty_manifest : Plugin :=
  mkPlugin "block_news" "block_news" (Some "{}") None VUndef VUndef.

Definition no_manifest : Plugin :=
  mkPlugin "local_tool" "local_tool" None None VUndef VUndef.

(** A site where the survey plugin is disabled; unique names are the add-on
    name and the handler name, joined by an underscore; the parser knows the
    two manifests of the example; one style file is in the file pool. *)
Definition example_env : Env :=
  {| getCurrentSiteId := "site1";
     getSite := fun _ => Some example_site;
     isFeatureDisabled := fun _ f => String.eqb f "sitePlugin_mod_survey_mod_survey";
     readPlugins := fun _ => Some [certificate; survey; empty_manifest; no_manifest];
     COMPONENT := "CoreSitePlugins";
     isGetContentAvailable := fun _ => true;
     getHandlerUniqueName := fun p n => addon p +:+ "_" +:+ n;
     getContent := fun _ _ _ => Some emptyResult;
     executeJavascript := fun _ _ => VUndef;
     parseJSON := fun s =>
       if String.eqb s example_manifest then VObj [("view", VObj [])]
       else if String.eqb s "{}" then VObj []
       else VNull;
     isAbsoluteURL := fun u => String.prefix "https://" u;
     concatenatePaths := fun a b => a +:+ "/" +:+ b;
     getFilesByComponent := fun _ _ _ =>
       Some [mkFile "https://school.example/old.css";
             mkFile "https://school.example/styles.css"];
     downloadUrl := fun _ u _ _ => Some ("file:///" +:+ u);
     httpGetText := fun _ => Some (Some "a { color: red }");
     profileFieldHandlerMethods := ["getComponent"];
  |}.

(** The same site without the get-content web service. *)
Definition old_site_env : Env :=
  {| getCurrentSiteId := "site1";
     getSite := fun _ => Some example_site;
     isFeatureDisabled := isFeatureDisabled example_env;
     readPlugins := readPlugins example_env;
     COMPONENT := COMPONENT example_env;
     isGetContentAvailable := fun _ => false;
     getHandlerUniqueName := getHandlerUniqueName example_env;
     getContent := getContent example_env;
     executeJavascript := executeJavascript example_env;
     parseJSON := parseJSON example_env;
     isAbsoluteURL := isAbsoluteURL example_env;
     concatenatePaths := concatenatePaths example_env;
     getFilesByComponent := getFilesByComponent example_env;
     downloadUrl := downloadUrl example_env;
     httpGetText := httpGetText example_env;
     profileFieldHandlerMethods := profileFieldHandlerMethods example_env;
  |}.

(** A course module handler with styles and offline functions, the same
    without [displaydata], and a main menu handler without [displaydata]. *)
Definition module_schema : HandlerSchema :=
  mkSchema (Some "CoreCourseModuleDelegate")
    (Some (mkDisplayData "pluginname" None))
    (VObj [("mod_certificate_view_certificate", VArr [])])
    None None (Some (mkStyles (Some "styles.css") (Some 3))) VUndef VUndef.

Definition module_schema_no_displaydata : HandlerSchema :=
  mkSchema (Some "CoreCourseModuleDelegate") None
    (VObj [("mod_certificate_view_certificate", VArr [])])
    None None None VUndef VUndef.

Definition menu_schema_no_displaydata : HandlerSchema :=
  mkSchema (Some "CoreMainMenuDelegate") None VUndef None None None VUndef VUndef.

Definition initial : St := mkSt [] ∅.

End SitePlugins.

(* ===================================================================== *)
(** * E-mail signup page *)
(* ===================================================================== *)

Module Signup.
Import JS.

(** ** Data *)

(** [signupForm.value] *)
Record SignupValue := mkSignupValue {
  username : string;
  password : string;
  firstname : string;
  lastname : string;
  email : string;
  city : string;
  country : string;
}.

(** The public configuration of the site and the signup settings: the
    fields that [create] and [verifyAge] read. *)
Record SiteConfig := mkSiteConfig { launchurl : option string }.

Record Settings := mkSettings { recaptchapublickey : option string }.

(** Result of [auth_email_signup_user], with the messages of its warnings. *)
Record SignupUserResult := mkSignupResult {
  success : bool;
  warnings : list string;
}.

(** The page.  A form is present by its [valid] flag and its value; a form
    control by its value.  [signUpCountryControl] exists once the form group
    was completed; it is then the control of [signupForm] named [country],
    whose value the form gives as the [country] of its value. *)
Record Page := mkPage {
  signupForm_valid : bool;
  signupForm_value : SignupValue;
  siteUrl : string;
  siteConfig : option SiteConfig;
  settings : option Settings;
  captcha_recaptcharesponse : string;
  ageVerificationForm_valid : bool;
  ageVerificationForm_age : JsVal;
  countryControl : string;
  signUpCountryControl : option string;
  isMinor : bool;
  ageDigitalConsentVerification : option bool;
}.

Definition set_age (v : JsVal) (p : Page) : Page :=
  mkPage (signupForm_valid p) (signupForm_value p) (siteUrl p) (siteConfig p)
    (settings p) (captcha_recaptcharesponse p) (ageVerificationForm_valid p)
    v (countryControl p) (signUpCountryControl p) (isMinor p)
    (ageDigitalConsentVerification p).

Definition set_country (v : string) (value : SignupValue) : SignupValue :=
  mkSignupValue (username value) (password value) (firstname value) (lastname value)
    (email value) (city value) v.

(** [this.signUpCountryControl.setValue(v)].  The control is the one that
    [completeFormGroup] added to [signupForm] under the name [country], so
    its value is also [signupForm.value.country]. *)
Definition set_signUpCountryControl (v : string) (p : Page) : Page :=
  mkPage (signupForm_valid p) (set_country v (signupForm_value p)) (siteUrl p)
    (siteConfig p) (settings p) (captcha_recaptcharesponse p)
    (ageVerificationForm_valid p) (ageVerificationForm_age p) (countryControl p)
    (Some v) (isMinor p) (ageDigitalConsentVerification p).

Definition set_isMinor (b : bool) (p : Page) : Page :=
  mkPage (signupForm_valid p) (signupForm_value p) (siteUrl p) (siteConfig p)
    (settings p) (captcha_recaptcharesponse p) (ageVerificationForm_valid p)
    (ageVerificationForm_age p) (countryControl p) (signUpCountryControl p) b
    (ageDigitalConsentVerification p).

Definition set_ageDigitalConsentVerification (b : bool) (p : Page) : Page :=
  mkPage (signupForm_valid p) (signupForm_value p) (siteUrl p) (siteConfig p)
    (settings p) (captcha_recaptcharesponse p) (ageVerificationForm_valid p)
    (ageVerificationForm_age p) (countryControl p) (signUpCountryControl p)
    (isMinor p) (Some b).

(** What the page does to the outside: the event, the DOM helpers, the
    web services, the navigation. *)
Inductive Effect :=
| PreventDefault
| StopPropagation
| ScrollToInputError (errorFound : bool)
| ShowErrorModal (message : string) (needsTranslate : bool)
| ShowErrorModalDefault (defaultMessage : string)
| ShowModalLoading (message : string)
| DismissModal
| CallAjax (wsName : string) (params : list (string * JsVal)) (site : string)
| TriggerFormSubmitted (form : string)
| ShowAlert (title message : string)
| NavPop.

(** The services, by what they answer.  For a web service, [None] is a
    failed call. *)
Record Env := mkEnv {
  scrollToInputError : bool;
  signupUser : list (string * JsVal) -> option SignupUserResult;
  isMinorStatus : list (string * JsVal) -> option bool;
  trim : string -> string;
  toLowerCase : string -> string;
  cleanTags : string -> string;
  determineService : string -> string;
  prepareForSSOLogin : string -> string -> string -> string;
  instant : string -> option string -> string;
  parseInt : JsVal -> JsVal;
}.

Section Page.

Variable E : Env.

(** [this.settings?.recaptchapublickey] in a condition *)
Definition recaptcha_declared (p : Page) : bool :=
  match settings p with
  | Some s => truthy_str (recaptchapublickey s)
  | None => false
  end.

(** [!this.signupForm.valid ||
     (this.settings?.recaptchapublickey && !this.captcha.recaptcharesponse)] *)
Definition form_rejected (p : Page) : bool :=
  negb (signupForm_valid p)
  || (recaptcha_declared p && negb (truthy (VStr (captcha_recaptcharesponse p)))).

(** The parameters of the signup request. *)
Definition signup_params (p : Page) : list (string * JsVal) :=
  let v := signupForm_value p in
  [ ("username", VStr (toLowerCase E (trim E (username v))));
    ("password", VStr (password v));
    ("firstname", VStr (cleanTags E (firstname v)));
    ("lastname", VStr (cleanTags E (lastname v)));
    ("email", VStr (trim E (email v)));
    ("city", VStr (cleanTags E (city v)));
    ("country", VStr (country v)) ]
  ++ match siteConfig p with
     | Some cfg =>
         match launchurl cfg with
         | Some l =>
             if truthy_str (launchurl cfg)
             then [("redirect",
                    VStr (prepareForSSOLogin E (siteUrl p)
                            (determineService E (siteUrl p)) l))]
             else []
         | None => []
         end
     | None => []
     end
  ++ (if recaptcha_declared p && truthy (VStr (captcha_recaptcharesponse p))
      then [("recaptcharesponse", VStr (captcha_recaptcharesponse p))]
      else []).

(** [create(e)]: the page itself is not changed. *)
Definition create (p : Page) : list Effect :=
  [PreventDefault; StopPropagation]
  ++ if form_rejected p then
       (* Form not valid. Scroll to the first element with errors. *)
       let errorFound := scrollToInputError E in
       ScrollToInputError errorFound
       :: (if negb errorFound then [ShowErrorModal "core.errorinvalidform" true] else [])
     else
       let params := signup_params p in
       [ShowModalLoading "core.sending";
        CallAjax "auth_email_signup_user" params (siteUrl p)]
       ++ match signupUser E params with
          | Some result =>
              if success result then
                [TriggerFormSubmitted "signupFormEl";
                 ShowAlert (instant E "core.success" None)
                   (instant E "core.login.emailconfirmsent"
                      (Some (trim E (email (signupForm_value p)))));
                 NavPop]
              else
                match warnings result with
                | w :: _ =>
                    let error :=
                      if String.eqb w "incorrect-captcha-sol"
                      then instant E "core.login.recaptchaincorrect" None
                      else w in
                    [ShowErrorModal error false]
                | [] => [ShowErrorModal "core.login.usernotaddederror" true]
                end
          | None => [ShowErrorModalDefault "core.login.usernotaddederror"]
          end
       ++ [DismissModal].

Definition age_error : string :=
  "There was an error verifying your age, please try again using the browser.".

(** [verifyAge(e)]: the page after the call and what was done. *)
Definition verifyAge (p : Page) : Page * list Effect :=
  if negb (ageVerificationForm_valid p) then
    (p, [PreventDefault; StopPropagation; ShowErrorModal "core.errorinvalidform" true])
  else
    (* params.age = parseInt(params.age, 10), on the value object of the form *)
    let p := set_age (parseInt E (ageVerificationForm_age p)) p in
    let params := [("age", ageVerificationForm_age p);
                   ("country", VStr (countryControl p))] in
    let before := [PreventDefault; StopPropagation; ShowModalLoading "core.sending";
                   CallAjax "core_auth_is_minor" params (siteUrl p)] in
    match isMinorStatus E params with
    | Some status =>
        if negb status then
          if truthy (VStr (countryControl p)) then
            match signUpCountryControl p with
            | Some _ =>
                (set_ageDigitalConsentVerification false
                   (set_signUpCountryControl (countryControl p) p),
                 before ++ [TriggerFormSubmitted "ageForm"; DismissModal])
            | None =>
                (* setValue on a control that does not exist yet: caught *)
                (p, before ++ [TriggerFormSubmitted "ageForm";
                               ShowErrorModal age_error false; DismissModal])
            end
          else
            (set_ageDigitalConsentVerification false p,
             before ++ [TriggerFormSubmitted "ageForm"; DismissModal])
        else
          (set_isMinor true p,
           before ++ [TriggerFormSubmitted "ageForm"; DismissModal])
    | None =>
        (p, before ++ [ShowErrorModal age_error false; DismissModal])
    end.

End Page.

(** ** Reading a trace *)

(** The effect puts an error in front of the user: the first input with an
    error is scrolled to, or an error modal is opened. *)
Definition shows_error (e : Effect) : bool :=
  match e with
  | ScrollToInputError found => found
  | ShowErrorModal _ _ | ShowErrorModalDefault _ => true
  | _ => false
  end.

(** The form may be submitted: it is valid and, when the settings declare a
    recaptcha public key, there is a captcha response. *)
Definition may_submit (p : Page) : Prop :=
  signupForm_valid p = true
  /\ (recaptcha_declared p = true -> captcha_recaptcharesponse p <> "").

(** ** A page to run the definitions on *)

(** Services of a site where the age check fails; the form has an input
    with an error to scroll to. *)
Definition example_env : Env :=
  {| scrollToInputError := true;
     signupUser := fun _ => Some (mkSignupResult true []);
     isMinorStatus := fun _ => None;
     trim := fun s => s;
     toLowerCase := fun s => s;
     cleanTags := fun s => s;
     determineService := fun _ => "moodle_mobile_app";
     prepareForSSOLogin := fun site _ launch => launch;
     instant := fun key _ => key;
     parseInt := fun v => match v with
                          | VStr "12" => VNum 12
                          | VStr _ => VNum 0
                          | _ => v
                          end;
  |}.

Definition example_page : Page :=
  mkPage true (mkSignupValue "ada" "secret" "Ada" "Lovelace" "ada@school.example" "London" "GB")
    "https://school.example" (Some (mkSiteConfig None))
    (Some (mkSettings (Some "6Lpublickey"))) ""
    true (VStr "12") "GB" (Some "GB") false (Some true).

(** The same page once the captcha is answered. *)
Definition answered_page : Page :=
  mkPage true (mkSignupValue "ada" "secret" "Ada" "Lovelace" "ada@school.example" "London" "GB")
    "https://school.example" (Some (mkSiteConfig None))
    (Some (mkSettings (Some "6Lpublickey"))) "03AGdBq2"
    true (VStr "12") "GB" (Some "GB") false (Some true).

End Signup.

(* ===================================================================== *)
(** * Site plugins helper: loading the plugins *)
(* ===================================================================== *)

Module SitePluginsLoad.
Import JS SitePlugins.

(** What the helper writes besides [SitePlugins.St]: the flag of
    [CoreSitePluginsProvider], the strings given to [CoreLangProvider]
    (language, strings, prefix), the events triggered and the reloads of
    the page. *)
Record Loaded := mkLoaded {
  helper : St;
  hasSitePluginsLoaded : bool;
  langStrings : list (string * JsVal * string);
  triggered : list (string * string);
  reloads : nat;
}.

Definition set_helper (st : St) (l : Loaded) : Loaded :=
  mkLoaded st (hasSitePluginsLoaded l) (langStrings l) (triggered l) (reloads l).

(** Decimal digits of an index, as [for..in] names the indices of an array
    or of a string. *)
Definition digit (n : nat) : string :=
  String (Ascii.ascii_of_nat (48 + n)) EmptyString.

Fixpoint decimal_fuel (fuel n : nat) (acc : string) : string :=
  match fuel with
  | O => acc
  | S fuel' =>
      let acc := digit (n mod 10) +:+ acc in
      if (n / 10 =? 0)%nat then acc else decimal_fuel fuel' (n / 10) acc
  end.

Definition decimal (n : nat) : string := decimal_fuel (S n) n "".

Fixpoint chars (s : string) : list JsVal :=
  match s with
  | EmptyString => []
  | String c s' => VStr (String c EmptyString) :: chars s'
  end.

(** [for (const name in v)] with [v[name]]: the properties of an object,
    the indices of an array or of a string, nothing for the other values. *)
Definition for_in (v : JsVal) : list (string * JsVal) :=
  match v with
  | VObj fs => fs
  | VArr l => imap (fun i x => (decimal i, x)) l
  | VStr s => imap (fun i x => (decimal i, x)) (chars s)
  | _ => []
  end.

Section Load.

Variable E : Env.

(** A value of the manifest read as the schema of a handler. *)
Variable schema_of : JsVal -> HandlerSchema.

(** What [parseJSON] answers when the plugin has no text to parse. *)
Variable parse_undefined : JsVal.

Definition parse_optional (json : option string) : JsVal :=
  match json with
  | Some j => parseJSON E j
  | None => parse_undefined
  end.

Definition set_parsedLang (v : JsVal) (p : Plugin) : Plugin :=
  mkPlugin (component p) (addon p) (handlers p) (lang p) (parsedHandlers p) v.

(** [loadLangStrings(plugin)] *)
Definition loadLangStrings (plugin : Plugin) (l : Loaded) : Loaded :=
  if negb (truthy (parsedLang plugin)) then l
  else
    mkLoaded (helper l) (hasSitePluginsLoaded l)
      (langStrings l
       ++ map (fun entry =>
                 (fst entry, snd entry, getPrefixForStrings (addon plugin)))
            (for_in (parsedLang plugin)))
      (triggered l) (reloads l).

(** [handlerSchema.init] on [null] or [undefined] throws a [TypeError]. *)
Definition is_nullish (v : JsVal) : bool :=
  match v with
  | VUndef | VNull => true
  | _ => false
  end.

(** [for (const name in plugin.parsedHandlers) registerHandler(...)]; the
    handlers are registered one after the other, in the order of the
    manifest.  The boolean tells whether the loop returned: on an entry
    that is [null], [registerHandler] throws in [executeHandlerInit], at
    [handlerSchema.init], after it started [downloadStyles]; the download
    fails on [handlerSchema.styles] and its error is logged; the entries
    that follow are not registered. *)
Fixpoint registerHandlers (plugin : Plugin) (entries : list (string * JsVal))
  : M bool :=
  match entries with
  | [] => ret true
  | (name, v) :: entries' =>
      if is_nullish v then
        bind (emit (LogError "Error getting styles for plugin")) (fun _ => ret false)
      else
        bind (registerHandler E plugin name (schema_of v))
          (fun _ => registerHandlers plugin entries')
  end.

(** [loadSitePlugin(plugin)]: the plugin object, the state after the
    promise is resolved, and whether the call returned (it throws when
    [registerHandler] does). *)
Definition loadSitePlugin (plugin : Plugin) (l : Loaded) : Plugin * Loaded * bool :=
  let plugin :=
    if negb (truthy (parsedHandlers plugin))
    then set_parsedHandlers (parse_optional (handlers plugin)) plugin
    else plugin in
  let plugin :=
    if negb (truthy (parsedLang plugin)) && truthy_str (lang plugin)
    then set_parsedLang (parse_optional (lang plugin)) plugin
    else plugin in
  let l := mkLoaded (helper l) true (langStrings l) (triggered l) (reloads l) in
  let l := loadLangStrings plugin l in
  let registered := registerHandlers plugin (for_in (parsedHandlers plugin)) (helper l) in
  (plugin, set_helper (snd registered) l, fst registered).

(** [loadSitePlugins(plugins)]: the state, and whether the call returned
    its promise; when [loadSitePlugin] throws for a plugin, the plugins
    that follow are not loaded. *)
Fixpoint loadSitePlugins (plugins : list Plugin) (l : Loaded) : Loaded * bool :=
  match plugins with
  | [] => (l, true)
  | plugin :: plugins' =>
      let '(_, l, returned) := loadSitePlugin plugin l in
      if returned then loadSitePlugins plugins' l else (l, false)
  end.

(** The observer of [CoreEventsProvider.LOGIN].  The current site is taken
    not to change while the plugins are fetched.  When [loadSitePlugins]
    throws, the promise of the observer is rejected and the event is not
    triggered. *)
Definition onLogin (l : Loaded) : Loaded :=
  let siteId := getCurrentSiteId E in
  let '(plugins, st) := fetchSitePlugins E (Some siteId) (helper l) in
  let l := set_helper st l in
  match plugins with
  | Some plugins =>
      if String.eqb siteId (getCurrentSiteId E) && negb (length plugins =? 0)%nat
      then
        let '(l, returned) := loadSitePlugins plugins l in
        if returned then
          mkLoaded (helper l) (hasSitePluginsLoaded l) (langStrings l)
            (triggered l ++ [("SITE_PLUGINS_LOADED", siteId)]) (reloads l)
        else l
      else l
  | None => l
  end.

(** The observer of [CoreEventsProvider.LOGOUT]: the page is reloaded to
    unload the plugins. *)
Definition onLogout (l : Loaded) : Loaded :=
  if hasSitePluginsLoaded l
  then mkLoaded (helper l) (hasSitePluginsLoaded l) (langStrings l) (triggered l)
         (S (reloads l))
  else l.

End Load.

(** The manifest of the plugin as [loadSitePlugin] reads it: what was parsed
    before, or else the handlers parsed now. *)
Definition manifest (E : Env) (parse_undefined : JsVal) (p : Plugin) : JsVal :=
  if negb (truthy (parsedHandlers p))
  then parse_optional E parse_undefined (handlers p)
  else parsedHandlers p.

(** No handler of the manifest is [null]: every entry can be read as a
    schema. *)
Definition well_formed (E : Env) (parse_undefined : JsVal) (p : Plugin) : Prop :=
  Forall (fun entry => snd entry <> VNull /\ snd entry <> VUndef)
    (for_in (manifest E parse_undefined p)).

(** The number of handlers that the manifests of the plugins declare, each
    manifest parsed as [loadSitePlugin] does. *)
Definition declared_handlers (E : Env) (parse_undefined : JsVal) (plugins : list Plugin)
  : nat :=
  list_sum
    (map (fun p =>
            length (for_in
                      (if negb (truthy (parsedHandlers p))
                       then parse_optional E parse_undefined (handlers p)
                       else parsedHandlers p)))
       plugins).

(** The effect is a registration in a delegate or a line of the log. *)
Definition is_registration_log (e : Effect) : bool :=
  match e with
  | Register _ _ | LogDebug _ | LogWarn _ | LogError _ => true
  | _ => false
  end.

(** The effect is a call to the file pool or a read of a file. *)
Definition is_file_pool (e : Effect) : bool :=
  match e with
  | RemoveFileByUrl _ _ | DownloadUrl _ _ _ _ | HttpGet _ => true
  | _ => false
  end.

(** Nothing loaded yet. *)
Definition nothing_loaded : Loaded := mkLoaded initial false [] [] 0.

(** The example site when the file pool and the downloads fail. *)
Definition no_styles_env : Env :=
  {| getCurrentSiteId := getCurrentSiteId example_env;
     getSite := fun _ => None;
     isFeatureDisabled := isFeatureDisabled example_env;
     readPlugins := readPlugins example_env;
     COMPONENT := COMPONENT example_env;
     isGetContentAvailable := isGetContentAvailable example_env;
     getHandlerUniqueName := getHandlerUniqueName example_env;
     getContent := getContent example_env;
     executeJavascript := executeJavascript example_env;
     parseJSON := parseJSON example_env;
     isAbsoluteURL := isAbsoluteURL example_env;
     concatenatePaths := concatenatePaths example_env;
     getFilesByComponent := fun _ _ _ => None;
     downloadUrl := fun _ _ _ _ => None;
     httpGetText := fun _ => None;
     profileFieldHandlerMethods := profileFieldHandlerMethods example_env;
  |}.

(** A site whose profile field method comes with a script; the script
    answers an object with two functions and a number. *)
Definition profile_env : Env :=
  {| getCurrentSiteId := getCurrentSiteId example_env;
     getSite := getSite example_env;
     isFeatureDisabled := isFeatureDisabled example_env;
     readPlugins := readPlugins example_env;
     COMPONENT := COMPONENT example_env;
     isGetContentAvailable := isGetContentAvailable example_env;
     getHandlerUniqueName := getHandlerUniqueName example_env;
     getContent := fun _ _ _ => Some (mkContent (VObj []) (Some "return x;") VUndef VUndef);
     executeJavascript := fun _ _ =>
       VObj [("getComponent", VFun "f"); ("constructor", VFun "g"); ("isEnabled", VNum 1)];
     parseJSON := parseJSON example_env;
     isAbsoluteURL := isAbsoluteURL example_env;
     concatenatePaths := concatenatePaths example_env;
     getFilesByComponent := getFilesByComponent example_env;
     downloadUrl := downloadUrl example_env;
     httpGetText := httpGetText example_env;
     profileFieldHandlerMethods := ["constructor"; "getComponent"; "isEnabled"; "getData"];
  |}.

Definition birthday : Plugin :=
  mkPlugin "profilefield_birthday" "profilefield_birthday" None None VUndef VUndef.

Definition birthday_schema : HandlerSchema :=
  mkSchema (Some "CoreUserProfileFieldDelegate") None VUndef None
    (Some "birthday_view") None VUndef VUndef.

(** The manifest [{"view":null}], with its quotes, and a plugin that
    declares it. *)
Definition broken_manifest : string :=
  "{" +:+ dq +:+ "view" +:+ dq +:+ ":null}".

Definition broken : Plugin :=
  mkPlugin "mod_broken" "mod_broken" (Some broken_manifest) None VUndef VUndef.

(** A site whose web service declares that plugin only. *)
Definition broken_env : Env :=
  {| getCurrentSiteId := getCurrentSiteId example_env;
     getSite := getSite example_env;
     isFeatureDisabled := isFeatureDisabled example_env;
     readPlugins := fun _ => Some [broken];
     COMPONENT := COMPONENT example_env;
     isGetContentAvailable := isGetContentAvailable example_env;
     getHandlerUniqueName := getHandlerUniqueName example_env;
     getContent := getContent example_env;
     executeJavascript := executeJavascript example_env;
     parseJSON := fun s =>
       if String.eqb s broken_manifest then VObj [("view", VNull)]
       else parseJSON example_env s;
     isAbsoluteURL := isAbsoluteURL example_env;
     concatenatePaths := concatenatePaths example_env;
     getFilesByComponent := getFilesByComponent example_env;
     downloadUrl := downloadUrl example_env;
     httpGetText := httpGetText example_env;
     profileFieldHandlerMethods := profileFieldHandlerMethods example_env;
  |}.

(** The schema of the example manifest: its one handler is a course module
    handler. *)
Definition example_schema_of (v : JsVal) : HandlerSchema := module_schema.

End SitePluginsLoad.

(* ===================================================================== *)
(** * The signup page: what a run leaves behind *)
(* ===================================================================== *)

Module SignupTraces.
Import JS Signup.

(** The effect shows or dismisses the loading modal. *)
Definition is_modal (e : Effect) : bool :=
  match e with
  | ShowModalLoading _ | DismissModal => true
  | _ => false
  end.

(** The effect is a call to a web service. *)
Definition is_request (e : Effect) : bool :=
  match e with
  | CallAjax _ _ _ => true
  | _ => false
  end.

(** The requests of the run are made under the loading modal: either the
    run makes no request and shows no modal, or the modal is shown once,
    with no request before it, and dismissing it is the last thing done. *)
Definition under_modal (t : list Effect) : Prop :=
  forallb (fun e => negb (is_modal e || is_request e)) t = true
  \/ exists before message during,
       t = before ++ ShowModalLoading message :: during ++ [DismissModal]
       /\ forallb (fun e => negb (is_modal e || is_request e)) before = true
       /\ forallb (fun e => negb (is_modal e)) during = true.

(** [params[key]], the parameters of a request being an object. *)
Definition param (key : string) (params : list (string * JsVal)) : option JsVal :=
  snd <$> List.find (fun kv => String.eqb (fst kv) key) params.

(** The answer of [auth_email_signup_user] says the user was created. *)
Definition created (r : option SignupUserResult) : bool :=
  match r with
  | Some result => success result
  | None => false
  end.

(** The services of a site that answers that the user is not a minor. *)
Definition adult_env : Env :=
  {| scrollToInputError := scrollToInputError example_env;
     signupUser := signupUser example_env;
     isMinorStatus := fun _ => Some false;
     trim := trim example_env;
     toLowerCase := toLowerCase example_env;
     cleanTags := cleanTags example_env;
     determineService := determineService example_env;
     prepareForSSOLogin := prepareForSSOLogin example_env;
     instant := instant example_env;
     parseInt := parseInt example_env;
  |}.

(** The answered page of a user who chose Spain in the signup form and then
    gives the United Kingdom for the age verification. *)
Definition spanish_page : Page :=
  mkPage true (mkSignupValue "ada" "secret" "Ada" "Lovelace" "ada@school.example" "London" "ES")
    "https://school.example" (Some (mkSiteConfig None))
    (Some (mkSettings (Some "6Lpublickey"))) "03AGdBq2"
    true (VStr "12") "GB" (Some "ES") false (Some true).

(** The example page before the form group was completed: the country
    control of the signup form does not exist yet. *)
Definition incomplete_page : Page :=
  mkPage true (signupForm_value example_page) "https://school.example"
    (Some (mkSiteConfig None)) None "" true (VStr "12") "GB" None false (Some true).

End SignupTraces.

(* ===================================================================== *)
(** * The signup page: loading the data *)
(* ===================================================================== *)

Module SignupLoad.
Import JS.

(** ** Data *)

(** The public configuration that [getSitePublicConfig] answers: the fields
    that the page reads. *)
Record PublicConfig := mkPublicConfig {
  registerauth : option string;
  sitename : string;
  authinstructions : option string;
  agedigitalconsentverification : option bool;
  supportname : option string;
  supportemail : option string;
  country : option string;
  httpswwwroot : string;
  launchurl : option string;
}.

(** The answer of [auth_email_get_signup_settings]
    ([AuthEmailSignupSettings]). *)
Record SignupSettings := mkSignupSettings {
  namefields : option (list string);
  recaptchapublickey : option string;
  settings_country : option string;
  defaultcity : option string;
  sitepolicy : option string;
  profilefields : JsVal;
}.

(** The validators given to the controls of the signup form. *)
Inductive Validator := NoValidator | Required | RequiredTrue.

(** The page while it loads: the fields that [fetchData] reads or writes.
    The forms hold what the user types; of them the page keeps here the
    value of its two country controls and the answer of the captcha. *)
Record Loading := mkLoading {
  siteUrl : string;
  siteConfig : option PublicConfig;
  siteName : option string;
  authInstructions : option string;
  settings : option SignupSettings;
  countries : option JsVal;
  categories : option JsVal;
  settingsLoaded : bool;
  allRequiredSupported : bool;
  signupUrl : option string;
  captcha_recaptcharesponse : string;
  countryControl : string;
  signUpCountryControl : option string;
  isMinor : bool;
  ageDigitalConsentVerification : option bool;
  supportName : option string;
  supportEmail : option string;
  namefieldsErrors : option (list (string * JsVal));
}.

(** What loading does to the outside: the effects of the page, the call for
    the public configuration and for the countries, the controls added to
    the signup form, the refresher told that it is complete. *)
Inductive Effect :=
| OfPage (e : Signup.Effect)
| GetSitePublicConfig (siteUrl : string)
| GetCountryListSorted
| AddControl (name : string) (value : JsVal) (validator : Validator)
| RefresherComplete.

(** The services.  A call that can fail answers the message of its error on
    the left; the age verification call has its errors ignored, [None]
    standing for the [undefined] that is left. *)
Record Env := mkEnv {
  getSitePublicConfig : string -> string + PublicConfig;
  concatenatePaths : string -> string -> string;
  isEmailSignupDisabled : PublicConfig -> bool;
  CONFIG_sitename : option string;
  isAgeVerificationEnabled : string -> option bool;
  getSignupSettingsWS : string -> string + SignupSettings;
  formatProfileFieldsForSignup : JsVal -> JsVal;
  getErrorMessages : string -> JsVal;
  getCountryListSorted : string + JsVal;
  instant : string -> option string -> string;
}.

(** The call did not fail. *)
Definition resolved {A : Type} (r : string + A) : bool :=
  match r with
  | inr _ => true
  | inl _ => false
  end.

(** [s || ''] for an optional string. *)
Definition or_empty (s : option string) : string :=
  match s with
  | Some s => s
  | None => ""
  end.

Section Load.

Variable E : Env.

(** [siteConfig.registerauth == 'email' && !isEmailSignupDisabled(siteConfig)] *)
Definition email_signup_offered (cfg : PublicConfig) : bool :=
  match registerauth cfg with
  | Some auth => String.eqb auth "email"
  | None => false
  end && negb (isEmailSignupDisabled E cfg).

(** [treatSiteConfig()]: what it returns, the page and what was done. *)
Definition treatSiteConfig (l : Loading) : bool * Loading * list Effect :=
  let disabled :=
    (false, l,
     [OfPage (Signup.ShowErrorModal
                (instant E "core.login.signupplugindisabled"
                   (Some (instant E "core.login.auth_email" None))) false);
      OfPage Signup.NavPop]) in
  match siteConfig l with
  | Some cfg =>
      if email_signup_offered cfg then
        (true,
         mkLoading (siteUrl l) (siteConfig l)
           (if truthy_str (CONFIG_sitename E) then CONFIG_sitename E
            else Some (sitename cfg))
           (authinstructions cfg) (settings l) (countries l) (categories l)
           (settingsLoaded l) (allRequiredSupported l) (signupUrl l)
           (captcha_recaptcharesponse l) (or_empty (country cfg))
           (signUpCountryControl l) (isMinor l) (agedigitalconsentverification cfg)
           (supportname cfg) (supportemail cfg) (namefieldsErrors l),
         [])
      else disabled
  | None => disabled
  end.

(** [getSignupSettings()]: the error thrown if any, the page and what was
    done. *)
Definition getSignupSettings (l : Loading) : option string * Loading * list Effect :=
  let call := OfPage (Signup.CallAjax "auth_email_get_signup_settings" [] (siteUrl l)) in
  match getSignupSettingsWS E (siteUrl l) with
  | inl error => (Some error, l, [call])
  | inr s =>
      let with_settings countries :=
        mkLoading (siteUrl l) (siteConfig l) (siteName l) (authInstructions l)
          (Some s) countries
          (Some (formatProfileFieldsForSignup E (profilefields s)))
          (settingsLoaded l) (allRequiredSupported l) (signupUrl l)
          (if truthy_str (recaptchapublickey s) then ""  (* Reset captcha. *)
           else captcha_recaptcharesponse l)
          (if negb (truthy (VStr (countryControl l)))
           then or_empty (settings_country s)
           else countryControl l)
          (signUpCountryControl l) (isMinor l) (ageDigitalConsentVerification l)
          (supportName l) (supportEmail l)
          (Some (match namefields s with
                 | Some fields =>
                     map (fun field =>
                            (field, getErrorMessages E ("core.login.missing" +:+ field)))
                       fields
                 | None => []
                 end)) in
      match getCountryListSorted E with
      | inl error => (Some error, with_settings (countries l), [call; GetCountryListSorted])
      | inr cs => (None, with_settings (Some cs), [call; GetCountryListSorted])
      end
  end.

(** The controls that [completeFormGroup] adds to the signup form, for the
    settings of the page. *)
Definition added_controls (s : option SignupSettings) : list Effect :=
  [AddControl "city" (VStr (or_empty (s ≫= defaultcity))) NoValidator;
   AddControl "country" (VStr (or_empty (s ≫= settings_country))) NoValidator]
  (* Add the name fields. *)
  ++ map (fun field => AddControl field (VStr "") Required)
       (default [] (s ≫= namefields))
  ++ (if truthy_str (s ≫= sitepolicy)
      then [AddControl "policyagreed" (VBool false) RequiredTrue]
      else []).

(** [completeFormGroup()] *)
Definition completeFormGroup (l : Loading) : Loading * list Effect :=
  (mkLoading (siteUrl l) (siteConfig l) (siteName l) (authInstructions l)
     (settings l) (countries l) (categories l) (settingsLoaded l)
     (allRequiredSupported l) (signupUrl l) (captcha_recaptcharesponse l)
     (countryControl l) (Some (or_empty (settings l ≫= settings_country)))
     (isMinor l) (ageDigitalConsentVerification l) (supportName l)
     (supportEmail l) (namefieldsErrors l),
   added_controls (settings l)).

(** [catch (error)] of [fetchData] *)
Definition caught (l : Loading) (error : string) : list Effect :=
  if allRequiredSupported l then [OfPage (Signup.ShowErrorModal error false)] else [].

(** [fetchData()]; the promise is always resolved. *)
Definition fetchData (l : Loading) : Loading * list Effect :=
  let get := GetSitePublicConfig (siteUrl l) in
  match getSitePublicConfig E (siteUrl l) with
  | inl error => (l, get :: caught l error)
  | inr cfg =>
      let l :=
        mkLoading (siteUrl l) (Some cfg) (siteName l) (authInstructions l)
          (settings l) (countries l) (categories l) (settingsLoaded l)
          (allRequiredSupported l)
          (Some (concatenatePaths E (httpswwwroot cfg) "login/signup.php"))
          (captcha_recaptcharesponse l) (countryControl l) (signUpCountryControl l)
          (isMinor l) (ageDigitalConsentVerification l) (supportName l)
          (supportEmail l) (namefieldsErrors l) in
      let '(treated, l, t1) := treatSiteConfig l in
      if treated then
        (* Check content verification. *)
        let '(l, t2) :=
          match ageDigitalConsentVerification l with
          | None =>
              (mkLoading (siteUrl l) (siteConfig l) (siteName l) (authInstructions l)
                 (settings l) (countries l) (categories l) (settingsLoaded l)
                 (allRequiredSupported l) (signupUrl l) (captcha_recaptcharesponse l)
                 (countryControl l) (signUpCountryControl l) (isMinor l)
                 (Some (default false (isAgeVerificationEnabled E (siteUrl l))))
                 (supportName l) (supportEmail l) (namefieldsErrors l),
               [OfPage (Signup.CallAjax
                          "core_auth_is_age_digital_consent_verification_enabled" []
                          (siteUrl l))])
          | Some _ => (l, [])
          end in
        let '(thrown, l, t3) := getSignupSettings l in
        match thrown with
        | Some error => (l, get :: t1 ++ t2 ++ t3 ++ caught l error)
        | None =>
            let '(l, t4) := completeFormGroup l in
            (l, get :: t1 ++ t2 ++ t3 ++ t4)
        end
      else
        let '(l, t4) := completeFormGroup l in
        (l, get :: t1 ++ t4)
  end.

(** [refreshSettings(event)], with the refresher of the event. *)
Definition refreshSettings (l : Loading) : Loading * list Effect :=
  let '(l, t) := fetchData l in
  (l, t ++ [RefresherComplete]).

(** [ngOnInit()], [siteUrl] being the parameter of the route. *)
Definition ngOnInit (url : string) (l : Loading) : Loading * list Effect :=
  let l :=
    mkLoading url (siteConfig l) (siteName l) (authInstructions l)
      (settings l) (countries l) (categories l) (settingsLoaded l)
      (allRequiredSupported l) (signupUrl l) (captcha_recaptcharesponse l)
      (countryControl l) (signUpCountryControl l) (isMinor l)
      (ageDigitalConsentVerification l) (supportName l) (supportEmail l)
      (namefieldsErrors l) in
  let '(l, t) := fetchData l in
  (mkLoading (siteUrl l) (siteConfig l) (siteName l) (authInstructions l)
     (settings l) (countries l) (categories l) true
     (allRequiredSupported l) (signupUrl l) (captcha_recaptcharesponse l)
     (countryControl l) (signUpCountryControl l) (isMinor l)
     (ageDigitalConsentVerification l) (supportName l) (supportEmail l)
     (namefieldsErrors l),
   t).

End Load.

(** The page as the constructor leaves it. *)
Definition constructed : Loading :=
  mkLoading "" None None None None None None false true None "" "" None false None
    None None None.

(** The page as [create] and [verifyAge] read it, once the user filled the
    signup form ([valid] and [value]) and the age of the age verification
    ([ageValid] and [age]). *)
Definition page_of (l : Loading) (valid : bool) (value : Signup.SignupValue)
  (ageValid : bool) (age : JsVal) : Signup.Page :=
  Signup.mkPage valid value (siteUrl l)
    (option_map (fun cfg => Signup.mkSiteConfig (launchurl cfg)) (siteConfig l))
    (option_map (fun s => Signup.mkSettings (recaptchapublickey s)) (settings l))
    (captcha_recaptcharesponse l) ageValid age (countryControl l)
    (signUpCountryControl l) (isMinor l) (ageDigitalConsentVerification l).

(** The site offers the signup by email. *)
Definition email_signup (E : Env) (cfg : PublicConfig) : Prop :=
  registerauth cfg = Some "email" /\ isEmailSignupDisabled E cfg = false.

(** The effect is the call of the web service [wsName]. *)
Definition calls (wsName : string) (e : Effect) : bool :=
  match e with
  | OfPage (Signup.CallAjax ws _ _) => String.eqb ws wsName
  | _ => false
  end.

(** The effect leaves the page for the previous one. *)
Definition goes_back (e : Effect) : bool :=
  match e with
  | OfPage Signup.NavPop => true
  | _ => false
  end.

(** The effect opens an error modal. *)
Definition is_error (e : Effect) : bool :=
  match e with
  | OfPage (Signup.ShowErrorModal _ _) | OfPage (Signup.ShowErrorModalDefault _) => true
  | _ => false
  end.

(** The effect adds a control to the signup form. *)
Definition is_control (e : Effect) : bool :=
  match e with
  | AddControl _ _ _ => true
  | _ => false
  end.

(** ** A site to run the definitions on *)

Definition school_config : PublicConfig :=
  mkPublicConfig (Some "email") "School" None None None None (Some "GB")
    "https://school.example" None.

Definition school_settings : SignupSettings :=
  mkSignupSettings (Some ["firstname"; "lastname"]) (Some "6Lpublickey") (Some "ES")
    None None VUndef.

Definition school_env : Env :=
  {| getSitePublicConfig := fun _ => inr school_config;
     concatenatePaths := fun a b => a +:+ "/" +:+ b;
     isEmailSignupDisabled := fun _ => false;
     CONFIG_sitename := None;
     isAgeVerificationEnabled := fun _ => Some true;
     getSignupSettingsWS := fun _ => inr school_settings;
     formatProfileFieldsForSignup := fun _ => VArr [];
     getErrorMessages := fun key => VObj [("required", VStr key)];
     getCountryListSorted := inr (VArr []);
     instant := fun key _ => key;
  |}.

(** The same site when the signup settings cannot be got. *)
Definition no_settings_env : Env :=
  {| getSitePublicConfig := getSitePublicConfig school_env;
     concatenatePaths := concatenatePaths school_env;
     isEmailSignupDisabled := isEmailSignupDisabled school_env;
     CONFIG_sitename := CONFIG_sitename school_env;
     isAgeVerificationEnabled := isAgeVerificationEnabled school_env;
     getSignupSettingsWS := fun _ => inl "Network error";
     formatProfileFieldsForSignup := formatProfileFieldsForSignup school_env;
     getErrorMessages := getErrorMessages school_env;
     getCountryListSorted := getCountryListSorted school_env;
     instant := instant school_env;
  |}.

(** The page of the school when the user comes to it, with an answer of
    the captcha left from before. *)
Definition school_page : Loading :=
  mkLoading "https://school.example" None None None None None None false true None
    "03AGdBq2" "" None false None None None None.

End SignupLoad.

(* ===================================================================== *)
(** * Upcoming calendar events: loading the data *)
(* ===================================================================== *)

Module CalendarLoad.
Import Calendar.

(** A course category ([CoreCategoryData]): its id, [name] standing for the
    rest. *)
Record Category := mkCategory {
  category_id : Z;
  category_name : string;
}.

(** The component with its index of the categories. *)
Record Loaded := mkLoaded {
  component : Component;
  categories : gmap Z Category;
}.

Definition set_loaded (b : bool) (c : Component) : Component :=
  mkComponent (objects c) (filteredEvents c) b (categoriesRetrieved c)
    (currentSiteId c) (events c) (onlineEvents c) (offlineEvents c)
    (deletedEvents c) (lookAhead c) (timeFormat c).

Definition set_categoriesRetrieved (b : bool) (c : Component) : Component :=
  mkComponent (objects c) (filteredEvents c) (loaded c) b
    (currentSiteId c) (events c) (onlineEvents c) (offlineEvents c)
    (deletedEvents c) (lookAhead c) (timeFormat c).

Definition set_offlineEvents (l : list nat) (c : Component) : Component :=
  mkComponent (objects c) (filteredEvents c) (loaded c) (categoriesRetrieved c)
    (currentSiteId c) (events c) (onlineEvents c) l
    (deletedEvents c) (lookAhead c) (timeFormat c).

Definition set_lookAhead (v : Z) (c : Component) : Component :=
  mkComponent (objects c) (filteredEvents c) (loaded c) (categoriesRetrieved c)
    (currentSiteId c) (events c) (onlineEvents c) (offlineEvents c)
    (deletedEvents c) v (timeFormat c).

Definition set_timeFormat (v : string) (c : Component) : Component :=
  mkComponent (objects c) (filteredEvents c) (loaded c) (categoriesRetrieved c)
    (currentSiteId c) (events c) (onlineEvents c) (offlineEvents c)
    (deletedEvents c) (lookAhead c) (Some v).

(** The calls to the services that matter here, and the error modal. *)
Inductive Effect :=
| GetCategories
| GetUpcomingEvents
| ShowErrorModalDefault (defaultMessage : string)
| InvalidateAllUpcomingEvents
| InvalidateCategories
| InvalidateLookAhead
| InvalidateTimeFormat.

(** The services, by what they answer; [None] and [false] are a promise
    that is rejected.  The offline events come through
    [formatOfflineEventData], the upcoming events through
    [formatEventData]; [now] is [Date.now()]. *)
Record Env := mkEnv {
  getCategories : option (list Category);
  getAllEditedEvents : option (list Event);
  getAllDeletedEventsIds : option (list Z);
  getCalendarLookAhead : option Z;
  getCalendarTimeFormat : option string;
  getUpcomingEvents : option (list Event);
  now : Z;
  invalidateAllUpcomingEvents : bool;
  invalidateCategories : bool;
  invalidateLookAhead : bool;
  invalidateTimeFormat : bool;
}.

(** [cats.forEach((category) => { this.categories[category.id] = category })]
    on an empty index. *)
Definition index_by_id (cats : list Category) : gmap Z Category :=
  fold_left (fun m category => <[category_id category := category]> m) cats ∅.

Section Load.

Variable ev_leb : Event -> Event -> bool.

(** [AddonCalendarHelper.getFilteredEvents(this.events, this.filter,
    this.categories)], for the filter of the component. *)
Variable getFilteredEvents : gmap Z Category -> list Event -> list nat -> list nat.

Variable formatEventTime : Event -> option string -> option string.

Variable E : Env.

(** [loadCategories()]; its promise is always resolved. *)
Definition loadCategories (l : Loaded) : Loaded * list Effect :=
  if categoriesRetrieved (component l) then
    (* Already retrieved, stop. *)
    (l, [])
  else
    match getCategories E with
    | Some cats =>
        (mkLoaded (set_categoriesRetrieved true (component l)) (index_by_id cats),
         [GetCategories])
    | None => (* Ignore errors. *) (l, [GetCategories])
    end.

(** [filterEvents()] *)
Definition filterEvents (l : Loaded) : Loaded :=
  mkLoaded
    (set_filteredEvents
       (getFilteredEvents (categories l) (objects (component l)) (events (component l)))
       (component l))
    (categories l).

(** The four other loads of [fetchData]: each stores what it got, whatever
    becomes of the others; the boolean tells whether all were got. *)
Definition load_offline (c : Component) : Component * bool :=
  let '(c, edited) :=
    match getAllEditedEvents E with
    | Some offlineEvents =>
        let '(rs, h) := alloc (objects c) offlineEvents in
        (set_offlineEvents (sortEvents ev_leb h rs) (set_objects h c), true)
    | None => (c, false)
    end in
  let '(c, deleted) :=
    match getAllDeletedEventsIds E with
    | Some ids => (set_deletedEvents ids c, true)
    | None => (c, false)
    end in
  let '(c, ahead) :=
    match getCalendarLookAhead E with
    | Some value => (set_lookAhead value c, true)
    | None => (c, false)
    end in
  let '(c, format) :=
    match getCalendarTimeFormat E with
    | Some value => (set_timeFormat value c, true)
    | None => (c, false)
    end in
  (c, edited && deleted && ahead && format).

(** [fetchData()]: the component once every promise is settled, and what was
    done.  [fetchEvents] is started without being awaited: when it fails,
    nothing catches its error. *)
Definition fetchData (l : Loaded) : Loaded * list Effect :=
  let '(l, t) := loadCategories l in
  let '(c, all) := load_offline (component l) in
  if all then
    let c :=
      fst (fetchEvents ev_leb (getFilteredEvents (categories l)) formatEventTime
             (getUpcomingEvents E) (now E) c) in
    (mkLoaded (set_loaded true c) (categories l), t ++ [GetUpcomingEvents])
  else
    (mkLoaded (set_loaded true c) (categories l),
     t ++ [ShowErrorModalDefault "addon.calendar.errorloadevents"]).

(** [refreshData(afterChange)]: the boolean tells whether the promise is
    resolved. *)
Definition refreshData (afterChange : bool) (l : Loaded) : Loaded * list Effect * bool :=
  let invalidations :=
    (* Don't invalidate upcoming events after a change. *)
    (if negb afterChange then [InvalidateAllUpcomingEvents] else [])
    ++ [InvalidateCategories; InvalidateLookAhead; InvalidateTimeFormat] in
  (* Get categories again. *)
  let l := mkLoaded (set_categoriesRetrieved false (component l)) (categories l) in
  if (afterChange || invalidateAllUpcomingEvents E)
     && invalidateCategories E && invalidateLookAhead E && invalidateTimeFormat E
  then
    let '(l, t) := fetchData l in
    (l, invalidations ++ t, true)
  else (l, invalidations, false).

End Load.

(** The four loads of [fetchData] besides the categories were all got. *)
Definition ready (E : Env) : Prop :=
  is_Some (getAllEditedEvents E) /\ is_Some (getAllDeletedEventsIds E)
  /\ is_Some (getCalendarLookAhead E) /\ is_Some (getCalendarTimeFormat E).

(** ** A site to run the definitions on *)

(** The device is offline for the calendar: the stored data are got, the
    upcoming events are not. *)
Definition offline_env : Env :=
  {| getCategories := Some [mkCategory 1 "Science"; mkCategory 2 "Arts";
                            mkCategory 1 "Sciences"];
     getAllEditedEvents := Some [];
     getAllDeletedEventsIds := Some [1];
     getCalendarLookAhead := Some 7;
     getCalendarTimeFormat := Some "%H:%M";
     getUpcomingEvents := None;
     now := 0;
     invalidateAllUpcomingEvents := true;
     invalidateCategories := true;
     invalidateLookAhead := true;
     invalidateTimeFormat := true;
  |}.

(** Every event passes the filter. *)
Definition no_filter (_ : gmap Z Category) (_ : list Event) (events : list nat)
  : list nat := events.

Definition example_loaded : Loaded := mkLoaded example_component ∅.

(** The same component when the categories are to be got again. *)
Definition stale_loaded : Loaded :=
  mkLoaded (set_categoriesRetrieved false example_component) ∅.

End CalendarLoad.

(* ===================================================================== *)
(** * Proofs: lists *)
(* ===================================================================== *)


(* ===================================================================== *)
(** * Proofs: upcoming calendar events *)
(* ===================================================================== *)

Module CalendarProofs.
Import Calendar.

(** ** The store *)

Lemma mark_deleted_idem dl e : mark_deleted dl (mark_deleted dl e) = mark_deleted dl e.
Proof. reflexivity. Qed.

Lemma mark_all_lookup dl rs (h : list Event) (r : nat) :
  mark_all dl rs h !! r =
  if bool_decide (r ∈ rs) then mark_deleted dl <$> h !! r else h !! r.
Proof.
  unfold mark_all. revert h.
  induction rs as [|x rs IH]; intros h; cbn [fold_left].
  - rewrite bool_decide_eq_false_2; [done | apply not_elem_of_nil].
  - rewrite IH. destruct (decide (x = r)) as [->|Hne].
    + rewrite list_lookup_alter_eq.
      rewrite (bool_decide_eq_true_2 (r ∈ r :: rs)); [|left].
      case_bool_decide; [|done].
      destruct (h !! r); simpl; [|done]. by rewrite mark_deleted_idem.
    + rewrite list_lookup_alter_ne; [|done].
      rewrite (bool_decide_ext (r ∈ x :: rs) (r ∈ rs)); [done|].
      rewrite elem_of_cons. split; [intros [?|?]; [congruence|done] | by right].
Qed.


(** Marking changes the [deleted] field only. *)
Lemma mark_all_total dl rs (h : list Event) (r : nat) :
  mark_all dl rs h !!! r = h !!! r \/ mark_all dl rs h !!! r = mark_deleted dl (h !!! r).
Proof.
  rewrite !list_lookup_total_alt, mark_all_lookup.
  case_bool_decide; [|by left]. destruct (h !! r); simpl; [by right | by left].
Qed.

Lemma mark_all_id dl rs (h : list Event) r : id (mark_all dl rs h !!! r) = id (h !!! r).
Proof. by destruct (mark_all_total dl rs h r) as [-> | ->]. Qed.

Lemma mark_all_timestart dl rs (h : list Event) r :
  timestart (mark_all dl rs h !!! r) = timestart (h !!! r).
Proof. by destruct (mark_all_total dl rs h r) as [-> | ->]. Qed.

Lemma mark_all_timeduration dl rs (h : list Event) r :
  timeduration (mark_all dl rs h !!! r) = timeduration (h !!! r).
Proof. by destruct (mark_all_total dl rs h r) as [-> | ->]. Qed.

(** ** Sorting *)

Section SortFacts.

Variable ev_leb : Event -> Event -> bool.

Lemma insert_event_perm h r l : Permutation (insert_event ev_leb h r l) (r :: l).
Proof.
  induction l as [|x l IH]; simpl; [done|].
  destruct (ev_leb _ _); [done|].
  rewrite IH. apply perm_swap.
Qed.

Lemma sortEvents_perm h l : Permutation (sortEvents ev_leb h l) l.
Proof.
  induction l as [|x l IH]; simpl; [done|].
  rewrite insert_event_perm. by constructor.
Qed.

Hypothesis ev_leb_total : forall a b, ev_leb a b = true \/ ev_leb b a = true.

Lemma insert_event_sorted h r l :
  sorted_events ev_leb h l -> sorted_events ev_leb h (insert_event ev_leb h r l).
Proof.
  unfold sorted_events.
  induction l as [|x l IH]; intros Hs; simpl.
  - repeat constructor.
  - destruct (ev_leb (h !!! r) (h !!! x)) eqn:E.
    + constructor; [done|]. by constructor.
    + apply Sorted_inv in Hs as [Hs Hhd].
      constructor; [by apply IH|].
      destruct l as [|y l]; simpl.
      * constructor. destruct (ev_leb_total (h !!! r) (h !!! x)); congruence.
      * destruct (ev_leb (h !!! r) (h !!! y)).
        -- constructor. destruct (ev_leb_total (h !!! r) (h !!! x)); congruence.
        -- constructor. by inversion Hhd.
Qed.

Lemma sortEvents_sorted h l : sorted_events ev_leb h (sortEvents ev_leb h l).
Proof.
  induction l as [|x l IH]; simpl; [constructor|].
  by apply insert_event_sorted.
Qed.

End SortFacts.

(** ** The period test and the filter of modified events *)


(** Why durations must not be negative: the test of the code keeps an event
    that starts in the window whatever its duration. *)
Remark in_period_negative_duration :
  in_period (window_start 150000) (window_end 150000 1)
    (mkEvent 7 "odd" 200 (-100) None None) = true
  /\ ~ span_meets_window 150000 1 (mkEvent 7 "odd" 200 (-100) None None).
Proof.
  split; [reflexivity|]. intros (t & H1 & H2 & _). simpl in *.
  assert (H : (inject_Z 200 <= inject_Z 100)%Q) by (by apply Qle_trans with t).
  rewrite <- Zle_Qle in H. lia.
Qed.

(** Why the look-ahead must not be negative: the window is then empty, and
    the test of the code keeps an event that starts before its end and
    ends after its start. *)
Remark in_period_negative_lookAhead :
  in_period (window_start 150000) (window_end 150000 (-1))
    (mkEvent 8 "long" (-90000) 100000 None None) = true
  /\ ~ span_meets_window 150000 (-1) (mkEvent 8 "long" (-90000) 100000 None None).
Proof.
  split; [reflexivity|]. intros (t & _ & _ & H3 & H4).
  assert (H : (inject_Z 150000 / 1000 <= inject_Z 150000 / 1000 + inject_Z (86400 * -1))%Q)
    by (by apply Qle_trans with t).
  revert H. vm_compute. intros H. by apply H.
Qed.

Lemma not_in_offline_spec (h : list Event) offline r :
  not_in_offline h offline r = true
  <-> forall o, In o offline -> id (h !!! o) <> id (h !!! r).
Proof.
  unfold not_in_offline.
  destruct (List.find _ offline) as [o|] eqn:E.
  - apply find_some in E as [Hin Heq]. apply Z.eqb_eq in Heq.
    split; [done|]. intros H. by destruct (H o Hin).
  - split; [|done]. intros _ o Hin.
    apply (find_none _ _ E) in Hin. by apply Z.eqb_neq in Hin.
Qed.

Lemma length_eqb_nil {A} (l : list A) : (length l =? 0)%nat = true <-> l = [].
Proof. destruct l; simpl; split; intros; congruence. Qed.

Lemma filter_ext_in' {A} (f g : A -> bool) l :
  (forall x, In x l -> f x = g x) -> List.filter f l = List.filter g l.
Proof.
  induction l as [|x l IH]; intros H; simpl; [done|].
  rewrite (H x) by (by left). rewrite IH; [done|]. intros; apply H; by right.
Qed.

Lemma find_ext' {A} (f g : A -> bool) l :
  (forall x, f x = g x) -> List.find f l = List.find g l.
Proof.
  intros H. induction l as [|x l IH]; simpl; [done|]. by rewrite H, IH.
Qed.

Lemma filter_all {A} (f : A -> bool) l :
  (forall x, In x l -> f x = true) -> List.filter f l = l.
Proof.
  induction l as [|x l IH]; intros H; simpl; [done|].
  rewrite (H x) by (by left). rewrite IH; [done|]. intros; apply H; by right.
Qed.

(** ** Merging *)

Section Merge.

Variable ev_leb : Event -> Event -> bool.

Lemma mergeEvents_unfold now c :
  let h := if negb (length (deletedEvents c) =? 0)%nat
           then mark_all (deletedEvents c) (onlineEvents c) (objects c)
           else objects c in
  Permutation (fst (mergeEvents ev_leb now c))
    (List.filter (not_in_offline (objects c) (offlineEvents c)) (onlineEvents c) ++
     List.filter
       (fun r => in_period (window_start now) (window_end now (lookAhead c)) (objects c !!! r))
       (offlineEvents c))
  /\ snd (mergeEvents ev_leb now c) = h.
Proof.
  intros h. subst h. unfold mergeEvents.
  destruct (length (offlineEvents c) =? 0)%nat eqn:Eo;
    destruct (length (deletedEvents c) =? 0)%nat eqn:Ed; cbn [andb negb fst snd].
  - apply length_eqb_nil in Eo. rewrite Eo. simpl. rewrite app_nil_r.
    split; [|done]. by rewrite filter_all.
  - apply length_eqb_nil in Eo. rewrite Eo. simpl. rewrite sortEvents_perm, !app_nil_r.
    split; [|done]. by rewrite filter_all.
  - rewrite sortEvents_perm. split; [|done]. done.
  - rewrite sortEvents_perm. split; [|done].
    apply Permutation_app.
    + erewrite filter_ext_in'; [done|]. intros r _. unfold not_in_offline.
      erewrite find_ext'; [done|]. intros o. by rewrite !mark_all_id.
    + erewrite filter_ext_in'; [done|]. intros r _. unfold in_period.
      by rewrite mark_all_timestart, mark_all_timeduration.
Qed.

Lemma includes_In x l : includes x l = true <-> In x l.
Proof.
  unfold includes. rewrite existsb_exists. split.
  - intros (y & Hin & Heq). apply Z.eqb_eq in Heq. by subst.
  - intros Hin. exists x. split; [done | apply Z.eqb_refl].
Qed.


End Merge.

Example mergeEvents_example :
  mergeEvents start_then_duration 0 example_component =
  ([0; 2]%nat,
   [ mkEvent 1 "quiz" 100 0 (Some true) None;
     mkEvent 2 "lesson" 200 60 (Some false) None;
     mkEvent 2 "lesson (edited)" 300 60 None None;
     mkEvent (-1) "new" 90000000 0 None None ]).
Proof. reflexivity. Qed.

(** The clock is in milliseconds: 150 seconds after the epoch the edited
    lesson, which starts at 300 seconds, is in the window of one day; 400
    seconds after it, the lesson is over and out of the window. *)
Example mergeEvents_clock_example :
  fst (mergeEvents start_then_duration 150000 example_component) = [0; 2]%nat
  /\ fst (mergeEvents start_then_duration 400000 example_component) = [0]%nat.
Proof. split; reflexivity. Qed.



(** ** Fetching *)

Lemma Sorted_map_store (R : Event -> Event -> Prop) (f : nat -> Event) l :
  Sorted (fun a b => R (f a) (f b)) l <-> Sorted R (map f l).
Proof.
  induction l as [|x l IH]; simpl; [split; constructor|].
  split; intros H; apply Sorted_inv in H as [Hs Hhd]; constructor;
    try (by apply IH); destruct l; simpl in *; constructor; by inversion Hhd.
Qed.

Lemma map_lookup_alloc (h es : list Event) :
  map (fun r => (h ++ es) !!! r) (seq (length h) (length es)) = es.
Proof.
  revert h. induction es as [|e es IH]; intros h; simpl; [done|]. f_equal.
  - rewrite list_lookup_total_alt, lookup_app_r, Nat.sub_diag; [done | lia].
  - specialize (IH (h ++ [e])). rewrite <- app_assoc, length_app in IH. simpl in IH.
    by rewrite Nat.add_1_r in IH.
Qed.

Section FetchFacts.

Variable ev_leb : Event -> Event -> bool.
Variable getFilteredEvents : list Event -> list nat -> list nat.
Variable formatEventTime : Event -> option string -> option string.

Hypothesis ev_leb_total : forall a b, ev_leb a b = true \/ ev_leb b a = true.

(** The order does not look at the formatted time, which [fetchEvents]
    recomputes after merging. *)
Hypothesis ev_leb_formattedtime : forall t a b,
  ev_leb (set_formattedtime t a) b = ev_leb a b
  /\ ev_leb a (set_formattedtime t b) = ev_leb a b.

Lemma format_times_total tf rs (h0 : list Event) r :
  format_times formatEventTime tf rs h0 !!! r = h0 !!! r
  \/ exists t, format_times formatEventTime tf rs h0 !!! r = set_formattedtime t (h0 !!! r).
Proof.
  unfold format_times.
  set (step := fun (h : list Event) (r : nat) => _).
  assert (H : forall h : list Event,
             (h !!! r = h0 !!! r \/ exists t, h !!! r = set_formattedtime t (h0 !!! r)) ->
             fold_left step rs h !!! r = h0 !!! r
             \/ exists t, fold_left step rs h !!! r = set_formattedtime t (h0 !!! r)).
  { induction rs as [|x rs IH]; intros h Hh; cbn [fold_left]; [done|].
    apply IH. unfold step. destruct (formatEventTime _ _) as [t|]; [|done].
    rewrite !list_lookup_total_alt, list_lookup_alter.
    rewrite !list_lookup_total_alt in Hh.
    case_decide; [|done]. subst x.
    destruct (h !! r) as [e|]; simpl in *; [|done].
    right. exists t. destruct Hh as [-> | [t' ->]]; done. }
  apply H. by left.
Qed.

Lemma format_times_leb tf rs (h0 : list Event) a b :
  ev_leb (format_times formatEventTime tf rs h0 !!! a)
         (format_times formatEventTime tf rs h0 !!! b)
  = ev_leb (h0 !!! a) (h0 !!! b).
Proof.
  destruct (format_times_total tf rs h0 a) as [-> | [t ->]];
    destruct (format_times_total tf rs h0 b) as [-> | [t' ->]];
    rewrite ?(proj1 (ev_leb_formattedtime _ _ _)), ?(proj2 (ev_leb_formattedtime _ _ _));
    done.
Qed.

Lemma format_times_sorted tf rs (h0 : list Event) l :
  sorted_events ev_leb (format_times formatEventTime tf rs h0) l
  <-> sorted_events ev_leb h0 l.
Proof.
  unfold sorted_events.
  induction l as [|x l IH]; [split; constructor|].
  split; intros H; apply Sorted_inv in H as [Hs Hhd]; constructor;
    try (by apply IH); destruct l; constructor; inversion Hhd; subst;
    by rewrite format_times_leb in *.
Qed.

Lemma fetchEvents_merged_sorted (evs : list Event) now (c : Component) :
  let c' := fst (fetchEvents ev_leb getFilteredEvents formatEventTime (Some evs) now c) in
  offlineEvents c <> [] \/ deletedEvents c <> [] ->
  sorted_events ev_leb (objects c') (events c').
Proof.
  intros c'. subst c'. unfold fetchEvents, alloc.
  set (c1 := set_onlineEvents _ _).
  destruct (mergeEvents ev_leb now c1) as [merged h1] eqn:Em. cbn [fst].
  cbn [events objects timeFormat set_objects set_events set_filteredEvents onlineEvents].
  intros Hne. apply format_times_sorted.
  unfold mergeEvents in Em. subst c1.
  cbn [offlineEvents deletedEvents set_onlineEvents set_objects] in Em.
  assert (E : (length (offlineEvents c) =? 0)%nat && (length (deletedEvents c) =? 0)%nat = false).
  { apply andb_false_iff. rewrite <- !not_true_iff_false, !length_eqb_nil. tauto. }
  rewrite E in Em. injection Em as <- <-. by apply sortEvents_sorted.
Qed.

Lemma fetchEvents_online_only (evs : list Event) now (c : Component) :
  let c' := fst (fetchEvents ev_leb getFilteredEvents formatEventTime (Some evs) now c) in
  offlineEvents c = [] -> deletedEvents c = [] ->
  events c' = onlineEvents c'
  /\ (sorted_events ev_leb (objects c') (events c')
      <-> Sorted (fun a b => ev_leb a b = true) evs).
Proof.
  intros c'. subst c'. unfold fetchEvents, alloc.
  set (c1 := set_onlineEvents _ _).
  destruct (mergeEvents ev_leb now c1) as [merged h1] eqn:Em. cbn [fst].
  cbn [events objects timeFormat set_objects set_events set_filteredEvents onlineEvents].
  intros Ho Hd. unfold mergeEvents in Em. subst c1.
  cbn [offlineEvents deletedEvents set_onlineEvents set_objects onlineEvents objects] in Em.
  rewrite Ho, Hd in Em. cbn [length Nat.eqb andb] in Em. injection Em as <- <-.
  split; [done|]. rewrite format_times_sorted. unfold sorted_events.
  rewrite (Sorted_map_store (fun a b => ev_leb a b = true)
             (fun r => (objects c ++ evs) !!! r)).
  by rewrite map_lookup_alloc.
Qed.

(** C6, as the code has it: when there are offline events or events deleted
    offline, the array that [fetchEvents] stores in [events] is sorted for
    the calendar event order; when there are none, [events] is the array of
    online events, in the order in which the web service sent them, and so
    it is sorted exactly when the answer of the web service is. *)
Theorem fetchEvents_sorted (evs : list Event) now (c : Component) :
  let c' := fst (fetchEvents ev_leb getFilteredEvents formatEventTime (Some evs) now c) in
  (offlineEvents c <> [] \/ deletedEvents c <> [] ->
     sorted_events ev_leb (objects c') (events c'))
  /\ (offlineEvents c = [] -> deletedEvents c = [] ->
      events c' = onlineEvents c'
      /\ (sorted_events ev_leb (objects c') (events c')
          <-> Sorted (fun a b => ev_leb a b = true) evs)).
Proof.
  split; [apply fetchEvents_merged_sorted | apply fetchEvents_online_only].
Qed.

End FetchFacts.

Lemma start_then_duration_total a b :
  start_then_duration a b = true \/ start_then_duration b a = true.
Proof.
  unfold start_then_duration.
  destruct (Z.lt_trichotomy (timestart a) (timestart b)) as [H | [H | H]].
  - left. apply orb_true_iff. left. by apply Z.ltb_lt.
  - destruct (Z.le_ge_cases (timeduration a) (timeduration b)); [left | right];
      apply orb_true_iff; right; apply andb_true_iff;
      (split; [apply Z.eqb_eq; congruence | by apply Z.leb_le]).
  - right. apply orb_true_iff. left. by apply Z.ltb_lt.
Qed.

Lemma fetchEvents_sorted_witness :
  (forall a b, start_then_duration a b = true \/ start_then_duration b a = true)
  /\ (forall t a b,
        start_then_duration (set_formattedtime t a) b = start_then_duration a b
        /\ start_then_duration a (set_formattedtime t b) = start_then_duration a b)
  /\ sorted_events start_then_duration
       (objects (fst (fetchEvents start_then_duration (fun _ l => l)
                        (fun _ _ => Some "10:00") (Some latest_first) 0 example_component)))
       (events (fst (fetchEvents start_then_duration (fun _ l => l)
                       (fun _ _ => Some "10:00") (Some latest_first) 0 example_component))).
Proof.
  assert (H2 : forall t a b,
             start_then_duration (set_formattedtime t a) b = start_then_duration a b
             /\ start_then_duration a (set_formattedtime t b) = start_then_duration a b)
    by (intros; split; reflexivity).
  split; [exact start_then_duration_total | split; [exact H2 |]].
  apply (proj1 (fetchEvents_sorted start_then_duration (fun _ l => l)
                  (fun _ _ => Some "10:00") start_then_duration_total H2
                  latest_first 0 example_component)).
  left. discriminate.
Defined.

(** C6, as stated, fails: without offline data the array of online events
    is stored as received, here latest first. *)
Lemma fetchEvents_unsorted :
  ~ sorted_events start_then_duration
      (objects (fst (fetchEvents start_then_duration (fun _ l => l)
                       (fun _ _ => Some "10:00") (Some latest_first) 0
                       online_only_component)))
      (events (fst (fetchEvents start_then_duration (fun _ l => l)
                      (fun _ _ => Some "10:00") (Some latest_first) 0
                      online_only_component))).
Proof.
  unfold sorted_events. intros H.
  apply Sorted_inv in H as [_ Hhd]. inversion Hhd as [|? ? Hle]. discriminate Hle.
Qed.

(** The same for any order: two events received in the wrong order stay in
    the wrong order. *)
Lemma fetchEvents_keeps_order ev_leb gf ft (a b : Event) now :
  ev_leb a b = false ->
  (forall t a b, ev_leb (set_formattedtime t a) b = ev_leb a b
                 /\ ev_leb a (set_formattedtime t b) = ev_leb a b) ->
  ~ sorted_events ev_leb
      (objects (fst (fetchEvents ev_leb gf ft (Some [a; b]) now online_only_component)))
      (events (fst (fetchEvents ev_leb gf ft (Some [a; b]) now online_only_component))).
Proof.
  intros Hab Hft H.
  apply (fetchEvents_online_only ev_leb gf ft Hft [a; b] now online_only_component) in H;
    [|done..].
  apply Sorted_inv in H as [_ Hhd]. inversion Hhd as [|? ? Hle]. congruence.
Qed.

(** ** The undeleted-event notification *)

Lemma indexOf_split x l i :
  indexOf x l = Some i ->
  exists l1 l2, l = l1 ++ x :: l2 /\ ~ In x l1 /\ splice1 i l = l1 ++ l2.
Proof.
  revert i. induction l as [|y l IH]; intros i; simpl; [done|].
  destruct (y =? x) eqn:E.
  - intros [= <-]. apply Z.eqb_eq in E as ->. exists [], l. repeat split; auto.
  - destruct (indexOf x l) as [j|]; simpl; [|done]. intros [= <-].
    destruct (IH j eq_refl) as (l1 & l2 & -> & Hnin & Hs).
    exists (y :: l1), l2. split; [done|]. split.
    + intros [-> | Hin]; [|done]. by rewrite Z.eqb_refl in E.
    + unfold splice1 in *. simpl. by rewrite Hs.
Qed.

Lemma indexOf_None x l : indexOf x l = None -> ~ In x l.
Proof.
  induction l as [|y l IH]; simpl; [tauto|].
  destruct (y =? x) eqn:E; [done|]. apply Z.eqb_neq in E.
  destruct (indexOf x l); simpl; [done|]. intros _ [? | ?]; [done | by apply IH].
Qed.

Lemma undeleteEvent_fields eid c :
  filteredEvents (undeleteEvent eid c) = filteredEvents c
  /\ loaded (undeleteEvent eid c) = loaded c
  /\ categoriesRetrieved (undeleteEvent eid c) = categoriesRetrieved c
  /\ currentSiteId (undeleteEvent eid c) = currentSiteId c
  /\ events (undeleteEvent eid c) = events c
  /\ onlineEvents (undeleteEvent eid c) = onlineEvents c
  /\ offlineEvents (undeleteEvent eid c) = offlineEvents c
  /\ deletedEvents (undeleteEvent eid c) = deletedEvents c
  /\ lookAhead (undeleteEvent eid c) = lookAhead c
  /\ timeFormat (undeleteEvent eid c) = timeFormat c.
Proof. unfold undeleteEvent. by destruct (List.find _ _). Qed.

Lemma undeleteEvent_objects eid c r e :
  objects c !! r = Some e ->
  objects (undeleteEvent eid c) !! r = Some e
  \/ (id e = eid /\ In r (onlineEvents c)
      /\ objects (undeleteEvent eid c) !! r = Some (set_deleted false e)).
Proof.
  intros Hr. unfold undeleteEvent.
  destruct (List.find _ _) as [r0|] eqn:E; [|by left]. simpl.
  apply find_some in E as [Hin Heq]. apply Z.eqb_eq in Heq.
  destruct (decide (r0 = r)) as [-> | Hne].
  - right. rewrite list_lookup_alter_eq, Hr. repeat split; try done.
    by rewrite (list_lookup_total_correct _ _ _ Hr) in Heq.
  - left. by rewrite list_lookup_alter_ne.
Qed.

Lemma undeleteEvent_first eid c r e :
  List.find (fun r => id (objects c !!! r) =? eid) (onlineEvents c) = Some r ->
  objects c !! r = Some e ->
  objects (undeleteEvent eid c) !! r = Some (set_deleted false e).
Proof.
  intros Hfind Hr. unfold undeleteEvent. rewrite Hfind. simpl.
  by rewrite list_lookup_alter_eq, Hr.
Qed.

(** C10: the observer of the undeleted-event notification changes nothing
    but the store of event objects and the list of deleted events.  In the
    store, an object is either unchanged or it is an online event whose id
    is the [eventId] of the notification and only its [deleted] flag was
    cleared; the first online event with that id, when there is one, is
    cleared.  The list of deleted events is either unchanged or lost one
    occurrence of [eventId], the first; it does lose it when it holds the
    id.  A notification without payload, without an [eventId] or with the
    id 0 changes nothing at all. *)
Theorem undeleteEventObserver_frame (data : option UpdatedEventEvent) (c : Component) :
  let c' := undeleteEventObserver data c in
  (filteredEvents c' = filteredEvents c
   /\ loaded c' = loaded c
   /\ categoriesRetrieved c' = categoriesRetrieved c
   /\ currentSiteId c' = currentSiteId c
   /\ events c' = events c
   /\ onlineEvents c' = onlineEvents c
   /\ offlineEvents c' = offlineEvents c
   /\ lookAhead c' = lookAhead c
   /\ timeFormat c' = timeFormat c)
  /\ length (objects c') = length (objects c)
  /\ (forall r e, objects c !! r = Some e ->
        objects c' !! r = Some e
        \/ (exists d, data = Some d /\ eventId d = Some (id e))
           /\ In r (onlineEvents c)
           /\ objects c' !! r = Some (set_deleted false e))
  /\ (deletedEvents c' = deletedEvents c
      \/ exists d eid l1 l2,
           data = Some d /\ eventId d = Some eid
           /\ deletedEvents c = l1 ++ eid :: l2 /\ ~ In eid l1
           /\ deletedEvents c' = l1 ++ l2)
  /\ (forall d eid, data = Some d -> eventId d = Some eid -> eid <> 0 ->
        (forall r e,
            List.find (fun r => id (objects c !!! r) =? eid) (onlineEvents c) = Some r ->
            objects c !! r = Some e ->
            objects c' !! r = Some (set_deleted false e))
        /\ (In eid (deletedEvents c) -> deletedEvents c' <> deletedEvents c))
  /\ ((data = None
       \/ exists d, data = Some d /\ (eventId d = None \/ eventId d = Some 0)) ->
      c' = c).
Proof.
  intros c'. subst c'. unfold undeleteEventObserver.
  destruct data as [d|]; [|repeat split; auto; intros; congruence].
  destruct (eventId d) as [eid|] eqn:Ed; [|repeat split; auto; intros; congruence].
  destruct (truthy_id (Some eid)) as [eid'|] eqn:Et.
  2: { assert (eid = 0) as -> by (destruct eid; simpl in Et; congruence).
       split; [done|]. split; [done|]. split; [by left|]. split; [by left|].
       split; [|done]. intros d' eid' [= <-] Heid Hnz. congruence. }
  assert (eid' = eid) as -> by (destruct eid; simpl in Et; congruence).
  assert (Hnz : eid <> 0) by (intros ->; discriminate Et).
  destruct (undeleteEvent_fields eid c)
    as (F1 & F2 & F3 & F4 & F5 & F6 & F7 & F8 & F9 & F10).
  assert (Hlen : length (objects (undeleteEvent eid c)) = length (objects c)).
  { unfold undeleteEvent. destruct (List.find _ _); [|done]. simpl. apply length_alter. }
  assert (Hobj : forall r e, objects c !! r = Some e ->
            objects (undeleteEvent eid c) !! r = Some e
            \/ (exists d0, Some d = Some d0 /\ eventId d0 = Some (id e))
               /\ In r (onlineEvents c)
               /\ objects (undeleteEvent eid c) !! r = Some (set_deleted false e)).
  { intros r e Hr. destruct (undeleteEvent_objects eid c r e Hr) as [? | (<- & ? & ?)];
      [by left | right]. split; [by exists d | done]. }
  assert (Hlast : (Some d = None
                   \/ exists d0, Some d = Some d0
                                 /\ (eventId d0 = None \/ eventId d0 = Some 0)) -> False).
  { intros [? | (d0 & [= <-] & [? | ?])]; congruence. }
  destruct (indexOf eid (deletedEvents (undeleteEvent eid c))) as [i|] eqn:Ei;
    cbn [filteredEvents loaded categoriesRetrieved currentSiteId events onlineEvents
         offlineEvents lookAhead timeFormat objects deletedEvents set_deletedEvents].
  - rewrite F8 in Ei. destruct (indexOf_split _ _ _ Ei) as (l1 & l2 & H1 & H2 & H3).
    rewrite F8.
    split; [done|]. split; [done|]. split; [done|].
    split; [right; by exists d, eid, l1, l2|].
    split; [|by intros H; destruct (Hlast H)].
    intros d' eid' [= <-] Heid _. assert (eid' = eid) as -> by congruence.
    split; [intros r e; apply undeleteEvent_first|].
    intros _. rewrite H3, H1. intros Heq.
    apply (f_equal length) in Heq. rewrite !length_app in Heq. simpl in Heq. lia.
  - rewrite F8 in Ei. apply indexOf_None in Ei.
    split; [done|]. split; [done|]. split; [done|]. split; [by left|].
    split; [|by intros H; destruct (Hlast H)].
    intros d' eid' [= <-] Heid _. assert (eid' = eid) as -> by congruence.
    split; [intros r e; apply undeleteEvent_first | done].
Qed.

(** What the observer does when there is something to do: the first online
    event with the id gets [deleted = false]. *)
Example undeleteEventObserver_example :
  let c := set_objects (snd (mergeEvents start_then_duration 0 example_component))
             example_component in
  deleted (objects c !!! 0%nat) = Some true
  /\ undeleteEventObserver (Some {| eventId := Some 1 |}) c
     = set_deletedEvents []
         (set_objects
            [ mkEvent 1 "quiz" 100 0 (Some false) None;
              mkEvent 2 "lesson" 200 60 (Some false) None;
              mkEvent 2 "lesson (edited)" 300 60 None None;
              mkEvent (-1) "new" 90000000 0 None None ] c).
Proof. split; reflexivity. Qed.

End CalendarProofs.

(* ===================================================================== *)
(** * Proofs: site plugins helper *)
(* ===================================================================== *)

Module SitePluginsProofs.
Import JS SitePlugins.

(** ** Traces *)

Lemma registrations_app tr1 tr2 :
  registrations (tr1 ++ tr2) = registrations tr1 ++ registrations tr2.
Proof.
  induction tr1 as [|e tr1 IH]; simpl; [done|].
  destruct e; simpl; by rewrite ?IH.
Qed.

Lemma registrations_removals sid url files : registrations (removals sid url files) = [].
Proof.
  unfold removals. induction files as [|f files IH]; simpl; [done|].
  by destruct (url_differs _ _).
Qed.

Lemma St_eta st : mkSt (trace st ++ []) (sitePluginHandlers st) = st.
Proof. destruct st. simpl. by rewrite app_nil_r. Qed.

Section HelperFacts.

Variable E : Env.

(** ** Styles *)

Lemma forEach_removals sid url files st :
  forEach files
    (fun file =>
       if url_differs (file_url file) url
       then emit (RemoveFileByUrl sid (file_url file))
       else ret tt) st
  = (tt, mkSt (trace st ++ removals sid url files) (sitePluginHandlers st)).
Proof.
  revert st. induction files as [|f files IH]; intros st; simpl.
  - unfold ret. by rewrite St_eta.
  - unfold bind, removals. simpl. destruct (url_differs (file_url f) url); simpl.
    + rewrite IH. simpl. by rewrite <- app_assoc.
    + by rewrite IH.
Qed.

(** What [downloadStyles] does on a site: the removals, then at most a
    download and a read of the downloaded file. *)
Lemma downloadStyles_run plugin handlerName handlerSchema siteId site st :
  getSite E siteId = Some site ->
  exists code rest,
    downloadStyles E plugin handlerName handlerSchema siteId st
    = (code,
       mkSt (trace st
             ++ removals (site_id site) (styles_url E site handlerSchema)
                  (default []
                     (getFilesByComponent E (site_id site) (COMPONENT E)
                        (getHandlerUniqueName E plugin handlerName +:+ "#main")))
             ++ rest)
         (sitePluginHandlers st))
    /\ forallb is_download rest = true
    /\ (truthy_str (styles_url E site handlerSchema) = false ->
        code = Some "" /\ rest = []).
Proof.
  intros Hsite. unfold downloadStyles. rewrite Hsite.
  set (url := styles_url E site handlerSchema).
  set (cid := getHandlerUniqueName E plugin handlerName +:+ "#main").
  unfold bind at 1.
  assert (Hrm : exists st1,
    match getFilesByComponent E (site_id site) (COMPONENT E) cid with
    | Some files =>
        forEach files (fun file =>
          if url_differs (file_url file) url
          then emit (RemoveFileByUrl (site_id site) (file_url file))
          else ret tt)
    | None => ret tt
    end st = (tt, st1)
    /\ st1 = mkSt (trace st ++ removals (site_id site) url
                     (default [] (getFilesByComponent E (site_id site) (COMPONENT E) cid)))
               (sitePluginHandlers st)).
  { destruct (getFilesByComponent _ _ _ _) as [files|]; simpl.
    - eexists. split; [apply forEach_removals | done].
    - eexists. split; [done|]. unfold removals. simpl. by rewrite St_eta. }
  destruct Hrm as (st1 & -> & ->).
  destruct url as [u|] eqn:Eu.
  - destruct (truthy_str (Some u)) eqn:Et; simpl.
    + unfold bind, emit, ret. simpl.
      destruct (downloadUrl E _ _ _ _) as [localUrl|]; simpl.
      * destruct (httpGetText E localUrl) as [[text|]|]; simpl;
          eexists _, [_; _]; rewrite <- !app_assoc; simpl; by repeat split.
      * eexists _, [_]. rewrite <- !app_assoc. by repeat split.
    + exists (Some ""), []. unfold ret. rewrite app_nil_r. by repeat split.
  - exists (Some ""), []. unfold ret. rewrite app_nil_r. by repeat split.
Qed.

Lemma url_differs_spec fileUrl url :
  url_differs fileUrl url = true <-> url <> Some fileUrl.
Proof.
  unfold url_differs. destruct url as [u|]; [|split; [discriminate | done]].
  rewrite negb_true_iff. destruct (String.eqb_spec fileUrl u) as [-> | Hne].
  - split; [discriminate | intros H; by destruct H].
  - split; [intros _ [= ->]; by destruct Hne | done].
Qed.

Lemma In_removals sid url files sid' u :
  In (RemoveFileByUrl sid' u) (removals sid url files)
  <-> sid' = sid /\ exists f, In f files /\ file_url f = u /\ url <> Some u.
Proof.
  unfold removals. rewrite in_map_iff. split.
  - intros (f & [= <- <-] & Hf). apply filter_In in Hf as [Hin Hd].
    split; [done|]. exists f. repeat split; try done. by apply url_differs_spec.
  - intros (-> & f & Hin & <- & Hd). exists f. split; [done|].
    apply filter_In. split; [done|]. by apply url_differs_spec.
Qed.

Lemma styles_url_undeclared site handlerSchema :
  truthy_str (declared_url handlerSchema) = false ->
  truthy_str (styles_url E site handlerSchema) = false.
Proof.
  unfold styles_url. intros H. destruct (declared_url handlerSchema) as [u|]; [|done].
  by rewrite H.
Qed.

Lemma styles_url_current site handlerSchema (u : string) :
  styles_url E site handlerSchema = Some u
  <-> exists s d,
        styles handlerSchema = Some s /\ url s = Some d
        /\ ((d = "" \/ isAbsoluteURL E d = true) /\ u = d
            \/ (d <> "" /\ isAbsoluteURL E d = false)
               /\ u = concatenatePaths E (site_url site) d).
Proof.
  unfold styles_url, declared_url.
  destruct (styles handlerSchema) as [s|]; [|split; [done | by intros (? & ? & [=] & _)]].
  destruct (url s) as [d|] eqn:Ed;
    [|split; [done | intros (? & ? & [= <-] & H & _); congruence]].
  cbn [truthy_str].
  destruct (String.eqb_spec d "") as [-> | Hne]; cbn [negb andb].
  - split.
    + intros [= <-]. exists s, "". split; [done|]. split; [done|]. left. split; [by left | done].
    + intros (s' & d' & [= <-] & Hd & H). rewrite Ed in Hd. injection Hd as <-.
      destruct H as [[_ ->] | [[H _] _]]; [done | by destruct H].
  - destruct (isAbsoluteURL E d) eqn:Ea; cbn [negb].
    + split.
      * intros [= <-]. exists s, d. split; [done|]. split; [done|]. left. split; [by right | done].
      * intros (s' & d' & [= <-] & Hd & H). rewrite Ed in Hd. injection Hd as <-.
        destruct H as [[_ ->] | [[_ H] _]]; [done | congruence].
    + split.
      * intros [= <-]. exists s, d. split; [done|]. split; [done|]. by right.
      * intros (s' & d' & [= <-] & Hd & H). rewrite Ed in Hd. injection Hd as <-.
        destruct H as [[[H | H] _] | [_ ->]]; [done | congruence | done].
Qed.

Lemma downloadStyles_downloads plugin handlerName handlerSchema siteId site st (u : string) :
  getSite E siteId = Some site ->
  styles_url E site handlerSchema = Some u -> u <> "" ->
  exists v rest,
    trace (snd (downloadStyles E plugin handlerName handlerSchema siteId st))
    = trace st
      ++ removals (site_id site) (Some u)
           (default []
              (getFilesByComponent E (site_id site) (COMPONENT E)
                 (getHandlerUniqueName E plugin handlerName +:+ "#main")))
      ++ DownloadUrl (site_id site) u
           (getHandlerUniqueName E plugin handlerName +:+ "#main") v :: rest.
Proof.
  intros Hsite Hu Hne. unfold downloadStyles. rewrite Hsite, Hu. cbv zeta.
  set (cid := getHandlerUniqueName E plugin handlerName +:+ "#main").
  unfold bind at 1.
  assert (Hrm : exists st1,
    match getFilesByComponent E (site_id site) (COMPONENT E) cid with
    | Some files =>
        forEach files (fun file =>
          if url_differs (file_url file) (Some u)
          then emit (RemoveFileByUrl (site_id site) (file_url file))
          else ret tt)
    | None => ret tt
    end st = (tt, st1)
    /\ st1 = mkSt (trace st ++ removals (site_id site) (Some u)
                     (default [] (getFilesByComponent E (site_id site) (COMPONENT E) cid)))
               (sitePluginHandlers st)).
  { destruct (getFilesByComponent _ _ _ _) as [files|]; cbn [default].
    - eexists. split; [apply forEach_removals | done].
    - eexists. split; [done|]. unfold removals. simpl. by rewrite St_eta. }
  destruct Hrm as (st1 & -> & ->).
  cbn [truthy_str]. destruct (String.eqb_spec u "") as [-> | _]; [done|]. cbn [negb].
  exists (styles_version handlerSchema).
  unfold bind, emit, ret. cbn [fst snd trace sitePluginHandlers].
  destruct (downloadUrl E _ _ _ _) as [localUrl|]; cbn [fst snd trace];
    [destruct (httpGetText E localUrl) as [[text|]|]; cbn [fst snd trace]|];
    eexists; rewrite <- !app_assoc; cbn [app]; reflexivity.
Qed.

(** C4: on the site of the handler, [downloadStyles] asks the file pool to
    remove a style file cached for the component of the handler exactly when
    its URL is not the current URL of the styles of the handler, that is
    the URL that the schema declares under [styles], as it is when it is
    absolute (or empty), joined to the URL of the site when it is relative;
    it removes nothing else, and it asks for the download of the current
    URL when that is not empty.  When the handler declares no styles URL,
    the promise resolves with the empty string and nothing is downloaded. *)
Theorem downloadStyles_cache plugin handlerName handlerSchema siteId site st :
  getSite E siteId = Some site ->
  let current (u : string) : Prop :=
    exists s d,
      styles handlerSchema = Some s /\ url s = Some d
      /\ ((d = "" \/ isAbsoluteURL E d = true) /\ u = d
          \/ (d <> "" /\ isAbsoluteURL E d = false)
             /\ u = concatenatePaths E (site_url site) d) in
  let componentId := getHandlerUniqueName E plugin handlerName +:+ "#main" in
  let files :=
    default [] (getFilesByComponent E (site_id site) (COMPONENT E) componentId) in
  let code := fst (downloadStyles E plugin handlerName handlerSchema siteId st) in
  let st' := snd (downloadStyles E plugin handlerName handlerSchema siteId st) in
  exists new,
    trace st' = trace st ++ new
    /\ sitePluginHandlers st' = sitePluginHandlers st
    /\ (forall f, In f files ->
          In (RemoveFileByUrl (site_id site) (file_url f)) new
          <-> ~ current (file_url f))
    /\ (forall sid u, In (RemoveFileByUrl sid u) new ->
          sid = site_id site /\ exists f, In f files /\ file_url f = u)
    /\ (forall u, current u -> u <> "" ->
          exists v, In (DownloadUrl (site_id site) u componentId v) new)
    /\ ((forall s d, styles handlerSchema = Some s -> url s = Some d -> d = "") ->
          code = Some "" /\ forall e, In e new -> is_download e = false).
Proof.
  intros Hsite current componentId files code st'. subst code st'.
  pose proof (fun u => downloadStyles_downloads plugin handlerName handlerSchema siteId
                         site st u Hsite) as Hdown.
  destruct (downloadStyles_run plugin handlerName handlerSchema siteId site st Hsite)
    as (code & rest & Heq & Hrest & Hnone).
  rewrite Heq in Hdown |- *. clear Heq.
  fold componentId files in Hnone, Hdown |- *. cbn [fst snd trace sitePluginHandlers] in *.
  rewrite forallb_forall in Hrest.
  exists (removals (site_id site) (styles_url E site handlerSchema) files ++ rest).
  split; [done|]. split; [done|]. split; [|split; [|split]].
  - intros f Hf. rewrite in_app_iff, In_removals. unfold current.
    rewrite <- styles_url_current. split.
    + intros [(_ & f' & _ & _ & Hd) | Hin]; [done|]. by apply Hrest in Hin.
    + intros Hd. left. split; [done|]. by exists f.
  - intros sid u. rewrite in_app_iff, In_removals.
    intros [(-> & f & Hin & Hu & _) | Hin]; [|by apply Hrest in Hin].
    split; [done|]. by exists f.
  - intros u Hu Hne. apply styles_url_current in Hu.
    destruct (Hdown u Hu Hne) as (v & rest' & Heq). exists v.
    apply app_inv_head in Heq. rewrite Heq, in_app_iff. right. by left.
  - intros Hdecl.
    assert (Ht : truthy_str (styles_url E site handlerSchema) = false).
    { apply styles_url_undeclared. unfold declared_url.
      destruct (styles handlerSchema) as [s|]; [|done].
      destruct (url s) as [d|] eqn:Ed; [|done]. by rewrite (Hdecl s d eq_refl Ed). }
    destruct (Hnone Ht) as [-> ->]. split; [done|].
    intros e. rewrite app_nil_r. unfold removals. rewrite in_map_iff.
    by intros (f & <- & _).
Qed.

(** ** Fetching the plugins *)

Lemma object_keys_truthy v : (0 < object_keys_length v)%nat -> truthy v = true.
Proof. destruct v as [| | | |s| | |]; simpl; try lia; try done. destruct s; simpl; [lia | done]. Qed.

Lemma isSitePluginEnabled_spec site p :
  parsedHandlers p = VUndef ->
  (fst (isSitePluginEnabled E p site) = true <-> enabled_site_plugin E site p)
  /\ (fst (isSitePluginEnabled E p site) = true ->
      snd (isSitePluginEnabled E p site) = parsed_plugin E p).
Proof.
  intros Hp. unfold isSitePluginEnabled, enabled_site_plugin, parsed_plugin.
  destruct (handlers p) as [json|] eqn:Eh; simpl.
  2: { split; [|done]. split; [done|]. by intros (_ & json & ? & _). }
  rewrite Hp. simpl.
  destruct (isFeatureDisabled E site _) eqn:Ef; simpl.
  { split; [|done]. split; [done | by intros [? _]]. }
  destruct (String.eqb_spec json "") as [-> | Hne]; simpl.
  { split; [|done]. split; [done|]. intros (_ & j & [= <-] & ? & _). done. }
  split; [|done]. rewrite andb_true_iff, negb_true_iff, Nat.eqb_neq. split.
  - intros [_ Hk]. split; [done|]. exists json. repeat split; try done. lia.
  - intros (_ & j & [= <-] & _ & Hk). split; [by apply object_keys_truthy | lia].
Qed.

Lemma enabled_plugins_selected site plugins :
  Forall (fun p => parsedHandlers p = VUndef) plugins ->
  exists kept,
    selected (enabled_site_plugin E site) plugins kept
    /\ enabled_plugins E site plugins = map (parsed_plugin E) kept.
Proof.
  induction 1 as [|p plugins Hp _ (kept & Hsel & IH)]; simpl.
  - exists []. split; [constructor | done].
  - destruct (isSitePluginEnabled_spec site p Hp) as [Hiff Hsnd].
    destruct (isSitePluginEnabled E p site) as [[|] p'] eqn:Ep; simpl in *.
    + exists (p :: kept). split.
      * apply selected_keep; [by apply Hiff | done].
      * simpl. by rewrite Hsnd, IH.
    + exists kept. split; [|done].
      apply selected_drop; [|done]. intros H. by apply Hiff in H.
Qed.

(** C3: when the get-content web service is not available on the site,
    [fetchSitePlugins] resolves with the empty list and the trace is
    unchanged, so that the list of plugins is not read; when it is
    available, the promise resolves with the plugins of the answer of
    [tool_mobile_get_plugins_supporting_mobile] that are enabled site
    plugins, in the order of the answer, each with its manifest parsed:
    those whose feature [sitePlugin_<component>_<addon>] is not disabled,
    that declare handlers, and whose manifest parses into a value with at
    least one key.  (The answer of the web service has no [parsedHandlers].) *)
Theorem fetchSitePlugins_enabled siteId site st :
  getSite E siteId = Some site ->
  (isGetContentAvailable E site = false ->
     fetchSitePlugins E siteId st = (Some [], st))
  /\ (isGetContentAvailable E site = true ->
      forall plugins, readPlugins E site = Some plugins ->
        Forall (fun p => parsedHandlers p = VUndef) plugins ->
        exists kept,
          selected (enabled_site_plugin E site) plugins kept
          /\ fst (fetchSitePlugins E siteId st) = Some (map (parsed_plugin E) kept)).
Proof.
  intros Hsite. unfold fetchSitePlugins. rewrite Hsite. split.
  - by intros ->.
  - intros -> plugins Hread Hun. simpl. unfold bind, emit, ret. simpl.
    rewrite Hread. simpl.
    destruct (enabled_plugins_selected site plugins Hun) as (kept & Hsel & ->).
    by exists kept.
Qed.

(** ** Registration *)

Ltac run_register :=
  unfold bind, emit, ret; cbn [fst snd trace sitePluginHandlers];
  rewrite <- ?app_assoc; cbn [app].

Lemma registerModuleHandler_run plugin handlerName handlerSchema initResult st :
  exists new,
    registerModuleHandler E plugin handlerName handlerSchema initResult st
    = (match displaydata handlerSchema with
       | Some _ => Some (replace "mod_" "" (component plugin))
       | None => None
       end,
       mkSt (trace st ++ new) (sitePluginHandlers st))
    /\ registrations new =
       match displaydata handlerSchema with
       | Some _ =>
           (CourseModuleDelegate,
            ModuleHandler (getHandlerUniqueName E plugin handlerName)
              (replace "mod_" "" (component plugin)) handlerSchema)
           :: (if truthy (offlinefunctions handlerSchema)
                  && negb (object_keys_length (offlinefunctions handlerSchema) =? 0)%nat
               then [(CourseModulePrefetchDelegate,
                      ModulePrefetchHandler (component plugin)
                        (getHandlerUniqueName E plugin handlerName)
                        (replace "mod_" "" (component plugin)) handlerSchema)]
               else [])
       | None => []
       end.
Proof.
  unfold registerModuleHandler.
  destruct (displaydata handlerSchema) as [dd|].
  - destruct (truthy (offlinefunctions handlerSchema)
              && negb (object_keys_length (offlinefunctions handlerSchema) =? 0)%nat);
      run_register; eexists; (split; [reflexivity|]); reflexivity.
  - run_register. eexists. split; reflexivity.
Qed.

Lemma dispatch_run plugin handlerName handlerSchema result st :
  exists new ident schema',
    dispatch E plugin handlerName handlerSchema result st
    = ((ident, schema'), mkSt (trace st ++ new) (sitePluginHandlers st))
    /\ dispatched E plugin handlerName handlerSchema (registrations new) ident schema'.
Proof.
  unfold dispatch, dispatched, named_delegate.
  destruct (delegate handlerSchema) as [d|];
    [|exists [], None, handlerSchema; unfold ret; by rewrite St_eta].
  destruct (String.eqb d "CoreMainMenuDelegate").
  { unfold registerMainMenuHandler, required_data.
    destruct (displaydata handlerSchema) as [dd|]; run_register;
      eexists _, _, _; (split; [reflexivity|]); cbn; eauto. }
  destruct (String.eqb d "CoreCourseModuleDelegate").
  { destruct (registerModuleHandler_run plugin handlerName handlerSchema result st)
      as (new & Hrun & Hregs).
    unfold bind at 1. rewrite Hrun. unfold ret.
    exists new. eexists _, _. split; [reflexivity|].
    unfold required_data. rewrite Hregs.
    destruct (displaydata handlerSchema) as [dd|]; cbn; [|done].
    split; [|done]. destruct (truthy _ && _); cbn; eauto. }
  destruct (String.eqb d "CoreUserDelegate").
  { unfold registerUserProfileHandler, required_data.
    destruct (displaydata handlerSchema) as [dd|]; run_register;
      eexists _, _, _; (split; [reflexivity|]); cbn; eauto. }
  destruct (String.eqb d "CoreCourseOptionsDelegate").
  { unfold registerCourseOptionHandler, required_data.
    destruct (displaydata handlerSchema) as [dd|]; run_register;
      eexists _, _, _; (split; [reflexivity|]); cbn; eauto. }
  destruct (String.eqb d "CoreCourseFormatDelegate").
  { unfold registerCourseFormatHandler, required_data. run_register.
    eexists _, _, _. split; [reflexivity|]. cbn. eauto. }
  destruct (String.eqb d "CoreUserProfileFieldDelegate").
  { unfold registerUserProfileFieldHandler, required_data.
    destruct (method handlerSchema) as [m|];
      [|run_register; eexists _, _, _; (split; [reflexivity|]); by cbn].
    destruct (truthy_str (Some m)); cbn [negb andb];
      [|run_register; eexists _, _, _; (split; [reflexivity|]); by cbn].
    destruct (executeMethodAndJS E plugin m false) as [r|];
      run_register; eexists _, _, _; (split; [reflexivity|]); cbn; eauto.
    repeat split; eauto. done. }
  exists [], None, handlerSchema. unfold ret. by rewrite St_eta.
Qed.

Lemma registrations_downloads rest :
  forallb is_download rest = true -> registrations rest = [].
Proof.
  induction rest as [|e rest IH]; simpl; [done|].
  intros H. apply andb_true_iff in H as [He Hr]. destruct e; try done; by apply IH.
Qed.

Lemma downloadStyles_regs plugin handlerName handlerSchema siteId st :
  exists code new,
    downloadStyles E plugin handlerName handlerSchema siteId st
    = (code, mkSt (trace st ++ new) (sitePluginHandlers st))
    /\ registrations new = [].
Proof.
  destruct (getSite E siteId) as [site|] eqn:Hsite.
  - destruct (downloadStyles_run plugin handlerName handlerSchema siteId site st Hsite)
      as (code & rest & Hrun & Hrest & _).
    eexists _, _. split; [exact Hrun|].
    by rewrite registrations_app, registrations_removals, registrations_downloads.
  - exists None, []. unfold downloadStyles. rewrite Hsite. unfold ret.
    by rewrite St_eta.
Qed.

(** [registerHandler], step by step: the calls before the switch register
    nothing; then either the init method fails and nothing more happens, or
    the switch runs and its identifier, when it is not empty, is the key
    under which the data of the handler is stored. *)
Lemma registerHandler_run plugin handlerName handlerSchema st :
  exists pre,
    registrations pre = []
    /\ match executeHandlerInit E plugin handlerSchema with
       | None =>
           registerHandler E plugin handlerName handlerSchema st
           = (tt, mkSt (trace st ++ pre) (sitePluginHandlers st))
       | Some result =>
           exists new ident schema',
             dispatch E plugin handlerName handlerSchema result
               (mkSt (trace st ++ pre) (sitePluginHandlers st))
             = ((ident, schema'),
                mkSt ((trace st ++ pre) ++ new) (sitePluginHandlers st))
             /\ dispatched E plugin handlerName handlerSchema (registrations new)
                  ident schema'
             /\ registerHandler E plugin handlerName handlerSchema st
                = (tt,
                   mkSt ((trace st ++ pre) ++ new)
                     (match ident with
                      | Some key =>
                          if truthy_str ident
                          then <[key := mkHandlerData plugin handlerName schema' result]>
                                 (sitePluginHandlers st)
                          else sitePluginHandlers st
                      | None => sitePluginHandlers st
                      end))
       end.
Proof.
  destruct (downloadStyles_regs plugin handlerName handlerSchema
              (Some (getCurrentSiteId E)) st) as (code & new1 & Hdl & Hregs1).
  (* the code of the styles, or the error that is logged *)
  assert (Hcss : exists cssCode new2,
    (match code with
     | Some c => ret (Some c)
     | None => emit (LogError "Error getting styles for plugin") ;; ret None
     end) (mkSt (trace st ++ new1) (sitePluginHandlers st))
    = (cssCode, mkSt (trace st ++ new2) (sitePluginHandlers st))
    /\ registrations new2 = []).
  { destruct code as [c|]; run_register.
    - by exists (Some c), new1.
    - eexists None, _. split; [reflexivity|]. by rewrite registrations_app, Hregs1. }
  destruct Hcss as (cssCode & new2 & Hcss & Hregs2).
  (* the styles that are loaded *)
  assert (Hload : exists new3,
    (match cssCode, styles handlerSchema with
     | Some c, Some st0 =>
         if truthy_str cssCode
         then loadStyles E plugin handlerName (default "" (url st0)) c (version st0)
                (getCurrentSiteId E)
         else ret tt
     | _, _ => ret tt
     end) (mkSt (trace st ++ new2) (sitePluginHandlers st))
    = (tt, mkSt (trace st ++ new3) (sitePluginHandlers st))
    /\ registrations new3 = []).
  { destruct cssCode as [c|]; [destruct (styles handlerSchema) as [st0|]|];
      [destruct (truthy_str (Some c))| |]; unfold loadStyles; run_register;
      try (by exists new2).
    eexists. split; [reflexivity|]. by rewrite registrations_app, Hregs2. }
  destruct Hload as (new3 & Hload & Hregs3).
  unfold registerHandler.
  destruct (executeHandlerInit E plugin handlerSchema) as [result|].
  - destruct (dispatch_run plugin handlerName handlerSchema result
                (mkSt (trace st ++ new3) (sitePluginHandlers st)))
      as (new & ident & schema' & Hd & Hdisp).
    cbn [trace sitePluginHandlers] in Hd.
    exists new3. split; [done|]. exists new, ident, schema'.
    split; [done|]. split; [done|].
    unfold bind at 1. rewrite Hdl. unfold bind at 1. rewrite Hcss.
    unfold bind at 1. rewrite Hload. unfold bind at 1. rewrite Hd.
    destruct ident as [key|]; [destruct (truthy_str (Some key))|]; reflexivity.
  - eexists. split; [|unfold bind at 1; rewrite Hdl; unfold bind at 1; rewrite Hcss;
                      run_register; reflexivity].
    by rewrite registrations_app, Hregs2.
Qed.

(** C8, as the code has it: a course module handler without [displaydata]
    is registered nowhere; one with [displaydata] is registered once in the
    module delegate and, besides, in the prefetch delegate exactly when
    [offlinefunctions] is present and has at least one key; it is registered
    in no other delegate. *)
Theorem registerModuleHandler_prefetch plugin handlerName handlerSchema initResult st :
  let st' := snd (registerModuleHandler E plugin handlerName handlerSchema initResult st) in
  exists new,
    trace st' = trace st ++ new
    /\ (displaydata handlerSchema = None -> registrations new = [])
    /\ (displaydata handlerSchema <> None ->
        (exists h,
            List.filter (fun r => bool_decide (fst r = CourseModuleDelegate))
              (registrations new)
            = [(CourseModuleDelegate, h)])
        /\ ((exists h, In (CourseModulePrefetchDelegate, h) (registrations new))
            <-> has_offline_functions handlerSchema)
        /\ (forall d h, In (d, h) (registrations new) ->
              d = CourseModuleDelegate \/ d = CourseModulePrefetchDelegate)).
Proof.
  intros st'. subst st'.
  destruct (registerModuleHandler_run plugin handlerName handlerSchema initResult st)
    as (new & -> & Hregs).
  exists new. split; [done|]. cbn [snd]. rewrite Hregs. unfold has_offline_functions.
  destruct (displaydata handlerSchema) as [dd|]; [|by split].
  split; [done|]. intros _.
  destruct (truthy (offlinefunctions handlerSchema)) eqn:Et; cbn [andb].
  - destruct (object_keys_length (offlinefunctions handlerSchema)) as [|k] eqn:Ek;
      cbn [Nat.eqb negb]; (split; [by eexists|]); split.
    + split; [intros [h [[=] | []]] | intros [_ ?]; lia].
    + intros d h [[= <- _] | []]. by left.
    + split; [intros _; split; [done | lia] | intros _; eexists; right; by left].
    + intros d h [[= <- _] | [[= <- _] | []]]; [by left | by right].
  - split; [by eexists|]. split.
    + split; [intros [h [[=] | []]] | by intros [? _]].
    + intros d h [[= <- _] | []]. by left.
Qed.

(** C1, as the code has it: [registerHandler] makes at most one
    registration in the six per-feature delegates, in the delegate that the
    string [handlerSchema.delegate] names; it makes it exactly when the
    string names one of the six, the init method of the handler did not
    fail, and the data that the delegate requires is there; for any other
    string it registers nothing at all. *)
Theorem registerHandler_dispatch plugin handlerName handlerSchema st :
  let st' := snd (registerHandler E plugin handlerName handlerSchema st) in
  exists regs,
    registrations (trace st') = registrations (trace st) ++ regs
    /\ (per_feature_only regs = []
        \/ exists D h,
             named_delegate (delegate handlerSchema) = Some D
             /\ per_feature_only regs = [(D, h)])
    /\ (per_feature_only regs <> []
        <-> exists D,
              named_delegate (delegate handlerSchema) = Some D
              /\ is_Some (executeHandlerInit E plugin handlerSchema)
              /\ required_data E plugin handlerSchema D = true)
    /\ (named_delegate (delegate handlerSchema) = None -> regs = []).
Proof.
  intros st'. subst st'.
  destruct (registerHandler_run plugin handlerName handlerSchema st)
    as (pre & Hpre & Hrun).
  destruct (executeHandlerInit E plugin handlerSchema) as [result|].
  - destruct Hrun as (new & ident & schema' & _ & Hdisp & ->).
    exists (registrations new). cbn [snd trace].
    rewrite !registrations_app, Hpre, app_nil_r. split; [done|].
    unfold dispatched in Hdisp.
    destruct (named_delegate (delegate handlerSchema)) as [D|].
    + destruct (required_data E plugin handlerSchema D) eqn:Er.
      * destruct Hdisp as ((h & Hh) & _). rewrite Hh. split; [right; by exists D, h|].
        split; [|done]. split; [intros _; by exists D | done].
      * destruct Hdisp as (-> & _). split; [by left|]. split; [|done].
        split; [done|]. intros (D' & [= <-] & _ & ?). congruence.
    + destruct Hdisp as (-> & _). split; [by left|]. split; [|done].
      split; [done | by intros (D' & [=] & _)].
  - rewrite Hrun. exists []. cbn [snd trace].
    rewrite registrations_app, Hpre. split; [done|]. split; [by left|].
    split; [|done]. split; [done|]. intros (D & _ & [? [=]] & _).
Qed.

(** C2, as the code has it: when the init method fails nothing is stored;
    otherwise the data of the handler (plugin, handler name, schema, result
    of the init method) is stored in the map of site plugin handlers exactly
    when the registration function answers an identifier that is not empty,
    under that identifier, and nothing else in the map changes.  The
    identifier is the unique name of the handler for the main menu, user
    profile and course option delegates; for the course module, course
    format and user profile field delegates it is the component of the
    plugin without its prefix. *)
Theorem registerHandler_stores plugin handlerName handlerSchema st :
  let st' := snd (registerHandler E plugin handlerName handlerSchema st) in
  match executeHandlerInit E plugin handlerSchema with
  | None => sitePluginHandlers st' = sitePluginHandlers st
  | Some result =>
      exists st1 ident schema',
        sitePluginHandlers st1 = sitePluginHandlers st
        /\ fst (dispatch E plugin handlerName handlerSchema result st1) = (ident, schema')
        /\ (truthy_str ident = false -> sitePluginHandlers st' = sitePluginHandlers st)
        /\ (truthy_str ident = true ->
            exists key D,
              ident = Some key
              /\ sitePluginHandlers st'
                 = <[key := mkHandlerData plugin handlerName schema' result]>
                     (sitePluginHandlers st)
              /\ named_delegate (delegate handlerSchema) = Some D
              /\ key = handler_identifier E plugin handlerName D)
  end.
Proof.
  intros st'. subst st'.
  destruct (registerHandler_run plugin handlerName handlerSchema st)
    as (pre & Hpre & Hrun).
  destruct (executeHandlerInit E plugin handlerSchema) as [result|];
    [|by rewrite Hrun].
  destruct Hrun as (new & ident & schema' & Hd & Hdisp & ->).
  eexists _, ident, schema'. split; [|split; [by rewrite Hd|]]; [done|].
  cbn [snd sitePluginHandlers]. split.
  - intros Hf. destruct ident as [key|]; [by rewrite Hf | done].
  - intros Ht. destruct ident as [key|]; [|done]. rewrite Ht.
    unfold dispatched in Hdisp.
    destruct (named_delegate (delegate handlerSchema)) as [D|];
      [destruct (required_data E plugin handlerSchema D)|];
      [|by destruct Hdisp as (_ & [=] & _)..].
    destruct Hdisp as (_ & [= ->] & _).
    by exists (handler_identifier E plugin handlerName D), D.
Qed.

End HelperFacts.

(** ** The statements as they were made, on the example site *)

Example registerHandler_example :
  registerHandler example_env certificate "view" module_schema initial
  = (tt,
     mkSt [ RemoveFileByUrl "site1" "https://school.example/old.css";
            DownloadUrl "site1" "https://school.example/styles.css"
              "mod_certificate_view#main" (Some 3);
            HttpGet "file:///https://school.example/styles.css";
            LoadStyles "mod_certificate_view" "styles.css" "a { color: red }"
              (Some 3) "site1";
            LogDebug "Register site plugin in module delegate:";
            Register CourseModuleDelegate
              (ModuleHandler "mod_certificate_view" "certificate" module_schema);
            Register CourseModulePrefetchDelegate
              (ModulePrefetchHandler "mod_certificate" "mod_certificate_view"
                 "certificate" module_schema) ]
       {[ "certificate" := mkHandlerData certificate "view" module_schema emptyResult ]}).
Proof. vm_compute. reflexivity. Qed.

(** C1, as stated, fails: a handler for the main menu delegate that has no
    [displaydata] is registered in no delegate. *)
Lemma registerHandler_ignores_handler :
  named_delegate (delegate menu_schema_no_displaydata) = Some MainMenuDelegate
  /\ registrations
       (trace (snd (registerHandler example_env certificate "view"
                      menu_schema_no_displaydata initial)))
     = [].
Proof. split; reflexivity. Qed.

(** C2, as stated, fails: the data of a course module handler is stored
    under the name of the module, not under the unique name of the handler. *)
Lemma registerHandler_key_is_module_name :
  getHandlerUniqueName example_env certificate "view" = "mod_certificate_view"
  /\ sitePluginHandlers
       (snd (registerHandler example_env certificate "view" module_schema initial))
     !! "mod_certificate_view" = None
  /\ sitePluginHandlers
       (snd (registerHandler example_env certificate "view" module_schema initial))
     !! "certificate"
     = Some (mkHandlerData certificate "view" module_schema emptyResult).
Proof. split; [|split]; vm_compute; reflexivity. Qed.

(** Whatever the unique name of a handler is, it cannot be the identifier
    in both the course module and the course format delegates. *)
Lemma identifiers_differ (E : Env) handlerName :
  handler_identifier E certificate handlerName CourseModuleDelegate
  <> handler_identifier E certificate handlerName CourseFormatDelegate.
Proof. discriminate. Qed.

(** C8, as stated, fails: a course module handler with offline functions
    and no [displaydata] gets no prefetch handler. *)
Lemma registerModuleHandler_ignores_handler :
  ~ ((exists h,
         In (CourseModulePrefetchDelegate, h)
           (registrations
              (trace (snd (registerModuleHandler example_env certificate "view"
                             module_schema_no_displaydata emptyResult initial)))))
     <-> has_offline_functions module_schema_no_displaydata).
Proof.
  intros [_ H]. destruct H as [h []].
  split; [reflexivity | simpl; lia].
Qed.

Example fetchSitePlugins_example :
  fetchSitePlugins example_env None initial
  = (Some [set_parsedHandlers (VObj [("view", VObj [])]) certificate],
     mkSt [ReadWS "site1" "tool_mobile_get_plugins_supporting_mobile"] ∅).
Proof. reflexivity. Qed.

Example fetchSitePlugins_unavailable :
  fetchSitePlugins old_site_env None initial = (Some [], initial).
Proof. reflexivity. Qed.

Lemma fetchSitePlugins_enabled_witness :
  getSite example_env None = Some example_site
  /\ isGetContentAvailable example_env example_site = true
  /\ readPlugins example_env example_site
     = Some [certificate; survey; empty_manifest; no_manifest]
  /\ Forall (fun p => parsedHandlers p = VUndef)
       [certificate; survey; empty_manifest; no_manifest]
  /\ exists kept,
      selected (enabled_site_plugin example_env example_site)
        [certificate; survey; empty_manifest; no_manifest] kept
      /\ fst (fetchSitePlugins example_env None initial)
         = Some (map (parsed_plugin example_env) kept).
Proof.
  assert (Hun : Forall (fun p => parsedHandlers p = VUndef)
                  [certificate; survey; empty_manifest; no_manifest])
    by (repeat constructor).
  split; [reflexivity | split; [reflexivity | split; [reflexivity | split; [exact Hun|]]]].
  exact (proj2 (fetchSitePlugins_enabled example_env None example_site initial eq_refl)
           eq_refl _ eq_refl Hun).
Defined.

Example downloadStyles_example :
  downloadStyles example_env certificate "view" module_schema None initial
  = (Some "a { color: red }",
     mkSt [ RemoveFileByUrl "site1" "https://school.example/old.css";
            DownloadUrl "site1" "https://school.example/styles.css"
              "mod_certificate_view#main" (Some 3);
            HttpGet "file:///https://school.example/styles.css" ] ∅).
Proof. reflexivity. Qed.

Lemma downloadStyles_cache_witness :
  getSite example_env None = Some example_site
  /\ exists new,
      trace (snd (downloadStyles example_env certificate "view" module_schema None initial))
      = trace initial ++ new
      /\ In (RemoveFileByUrl "site1" "https://school.example/old.css") new
      /\ ~ In (RemoveFileByUrl "site1" "https://school.example/styles.css") new
      /\ exists v,
           In (DownloadUrl "site1" "https://school.example/styles.css"
                 "mod_certificate_view#main" v) new.
Proof.
  split; [reflexivity|].
  destruct (downloadStyles_cache example_env certificate "view" module_schema None
              example_site initial eq_refl) as (new & Htr & _ & Hrm & _ & Hdl & _).
  exists new. split; [exact Htr|].
  assert (Hcur : exists s d,
             styles module_schema = Some s /\ url s = Some d
             /\ ((d = "" \/ isAbsoluteURL example_env d = true)
                 /\ "https://school.example/styles.css" = d
                 \/ (d <> "" /\ isAbsoluteURL example_env d = false)
                    /\ "https://school.example/styles.css"
                       = concatenatePaths example_env (site_url example_site) d)).
  { exists (mkStyles (Some "styles.css") (Some 3)), "styles.css".
    split; [reflexivity|]. split; [reflexivity|]. right.
    split; [split; [discriminate | reflexivity] | reflexivity]. }
  split; [|split].
  - apply (Hrm (mkFile "https://school.example/old.css")); [simpl; tauto|].
    intros (s & d & Hs & Hd & H). injection Hs as <-. injection Hd as <-.
    destruct H as [[_ H] | [_ H]]; discriminate H.
  - intros Hin.
    apply (Hrm (mkFile "https://school.example/styles.css")) in Hin; [|simpl; tauto].
    exact (Hin Hcur).
  - apply (Hdl "https://school.example/styles.css" Hcur). discriminate.
Defined.

End SitePluginsProofs.

(* ===================================================================== *)
(** * Proofs: e-mail signup page *)
(* ===================================================================== *)

Module SignupProofs.
Import JS Signup.

Section PageFacts.

Variable E : Env.

Lemma form_rejected_spec p : form_rejected p = false <-> may_submit p.
Proof.
  unfold form_rejected, may_submit.
  rewrite orb_false_iff, negb_false_iff, andb_false_iff, negb_false_iff.
  simpl. rewrite negb_true_iff.
  destruct (signupForm_valid p); [|split; [intros [[=] _] | intros [[=] _]]].
  destruct (recaptcha_declared p);
    destruct (String.eqb_spec (captcha_recaptcharesponse p) "") as [-> | Hne].
  - split; [intros [_ [[=] | [=]]] | intros [_ H]; by destruct H].
  - split; [done | intros _; split; [done | by right]].
  - split; [done | intros _; split; [done | by left]].
  - split; [done | intros _; split; [done | by left]].
Qed.

(** C7: [create] sends the request [auth_email_signup_user] exactly when the
    signup form is valid and, when the settings declare a recaptcha public
    key, a captcha response is there; otherwise it sends no request at all
    and puts an error in front of the user: it scrolls to the first input
    with an error or, when there is none, opens the error modal of the
    invalid form. *)
Theorem create_gated (p : Page) :
  ((exists params site, In (CallAjax "auth_email_signup_user" params site) (create E p))
   <-> may_submit p)
  /\ (~ may_submit p ->
      (forall wsName params site, ~ In (CallAjax wsName params site) (create E p))
      /\ (exists e, In e (create E p) /\ shows_error e = true)
      /\ create E p
         = [PreventDefault; StopPropagation; ScrollToInputError (scrollToInputError E)]
           ++ (if scrollToInputError E then []
               else [ShowErrorModal "core.errorinvalidform" true])).
Proof.
  rewrite <- form_rejected_spec. unfold create.
  destruct (form_rejected p) eqn:Er.
  - assert (Hno : forall wsName params site,
               ~ In (CallAjax wsName params site)
                   ([PreventDefault; StopPropagation]
                    ++ ScrollToInputError (scrollToInputError E)
                       :: (if negb (scrollToInputError E)
                           then [ShowErrorModal "core.errorinvalidform" true]
                           else []))).
    { intros wsName params site. destruct (scrollToInputError E); simpl; intuition congruence. }
    split.
    + split; [|done]. intros (params & site & Hin). by apply Hno in Hin.
    + intros _. split; [exact Hno|]. split.
      * destruct (scrollToInputError E) eqn:Es.
        -- exists (ScrollToInputError true). split; [simpl; tauto | done].
        -- exists (ShowErrorModal "core.errorinvalidform" true).
           split; [simpl; tauto | done].
      * by destruct (scrollToInputError E).
  - split; [|by intros H; destruct H].
    split; [done|]. intros _. exists (signup_params E p), (siteUrl p).
    simpl. tauto.
Qed.

(** C9: when the form of the age verification is valid and the call to
    [core_auth_is_minor] fails, [verifyAge] leaves [isMinor],
    [ageDigitalConsentVerification] and the country control of the signup
    form as they were; of the page, only the age held by the form changes,
    to its integer part; and what is done is: the loading modal, the call,
    the error message, the dismissal of the modal. *)
Theorem verifyAge_failure (p : Page) :
  ageVerificationForm_valid p = true ->
  isMinorStatus E [("age", parseInt E (ageVerificationForm_age p));
                   ("country", VStr (countryControl p))] = None ->
  isMinor (fst (verifyAge E p)) = isMinor p
  /\ ageDigitalConsentVerification (fst (verifyAge E p)) = ageDigitalConsentVerification p
  /\ signUpCountryControl (fst (verifyAge E p)) = signUpCountryControl p
  /\ fst (verifyAge E p) = set_age (parseInt E (ageVerificationForm_age p)) p
  /\ snd (verifyAge E p)
     = [PreventDefault; StopPropagation; ShowModalLoading "core.sending";
        CallAjax "core_auth_is_minor"
          [("age", parseInt E (ageVerificationForm_age p));
           ("country", VStr (countryControl p))] (siteUrl p);
        ShowErrorModal age_error false; DismissModal].
Proof.
  intros Hvalid Hfail. unfold verifyAge. rewrite Hvalid. cbn [negb].
  cbn [ageVerificationForm_age countryControl set_age siteUrl].
  rewrite Hfail. by repeat split.
Qed.

End PageFacts.

Example create_example :
  create example_env example_page
  = [PreventDefault; StopPropagation; ScrollToInputError true].
Proof. reflexivity. Qed.

Example create_sends_example :
  create example_env answered_page
  = [PreventDefault; StopPropagation; ShowModalLoading "core.sending";
     CallAjax "auth_email_signup_user"
       [("username", VStr "ada"); ("password", VStr "secret");
        ("firstname", VStr "Ada"); ("lastname", VStr "Lovelace");
        ("email", VStr "ada@school.example"); ("city", VStr "London");
        ("country", VStr "GB"); ("recaptcharesponse", VStr "03AGdBq2")]
       "https://school.example";
     TriggerFormSubmitted "signupFormEl";
     ShowAlert "core.success" "core.login.emailconfirmsent";
     NavPop; DismissModal].
Proof. reflexivity. Qed.

Example verifyAge_example :
  verifyAge example_env example_page
  = (set_age (VNum 12) example_page,
     [PreventDefault; StopPropagation; ShowModalLoading "core.sending";
      CallAjax "core_auth_is_minor" [("age", VNum 12); ("country", VStr "GB")]
        "https://school.example";
      ShowErrorModal age_error false; DismissModal]).
Proof. reflexivity. Qed.

Lemma verifyAge_failure_witness :
  ageVerificationForm_valid example_page = true
  /\ isMinorStatus example_env
       [("age", parseInt example_env (ageVerificationForm_age example_page));
        ("country", VStr (countryControl example_page))] = None
  /\ isMinor (fst (verifyAge example_env example_page)) = isMinor example_page
  /\ ageDigitalConsentVerification (fst (verifyAge example_env example_page))
     = ageDigitalConsentVerification example_page
  /\ signUpCountryControl (fst (verifyAge example_env example_page))
     = signUpCountryControl example_page.
Proof.
  split; [reflexivity | split; [reflexivity|]].
  destruct (verifyAge_failure example_env example_page eq_refl eq_refl)
    as (H1 & H2 & H3 & _).
  split; [exact H1 | split; [exact H2 | exact H3]].
Defined.

End SignupProofs.

(* ===================================================================== *)
(** * More on the upcoming calendar events *)
(* ===================================================================== *)

Module CalendarMoreProofs.
Import Calendar CalendarProofs.

Lemma NoDup_map_filter {A B} (f : A -> B) (g : A -> bool) l :
  NoDup (map f l) -> NoDup (map f (List.filter g l)).
Proof.
  induction l as [|x l IH]; simpl; [done|].
  intros H. apply NoDup_cons in H as [Hx Hl].
  destruct (g x); simpl; [|by apply IH].
  apply NoDup_cons. split; [|by apply IH].
  intros Hin. apply Hx. apply list_elem_of_In, in_map_iff.
  apply list_elem_of_In, in_map_iff in Hin as (y & Hy & Hin).
  exists y. split; [done|]. by apply filter_In in Hin as [? _].
Qed.

Lemma mergeEvents_store_id ev_leb now c r :
  id (snd (mergeEvents ev_leb now c) !!! r) = id (objects c !!! r).
Proof.
  destruct (mergeEvents_unfold ev_leb now c) as [_ ->].
  destruct (negb _); [apply mark_all_id | done].
Qed.

Lemma NoDup_map_In_inj {A B} (f : A -> B) (l : list A) x y :
  NoDup (map f l) -> In x l -> In y l -> f x = f y -> x = y.
Proof.
  induction l as [|z l IH]; cbn [map]; [done|].
  intros Hnd Hx Hy Hf. apply NoDup_cons in Hnd as [Hz Hnd].
  destruct Hx as [<- | Hx], Hy as [<- | Hy]; [done| | |by apply IH].
  - destruct Hz. rewrite Hf. by apply list_elem_of_In, in_map.
  - destruct Hz. rewrite <- Hf. by apply list_elem_of_In, in_map.
Qed.

(** X1: When the online events have distinct ids and the offline events have
    distinct ids, the merged list holds no two events with the same id, and
    an event of the merged list that has the id of an offline event is that
    offline event itself: an online event that was edited offline never
    appears as it is online; when its offline copy is not in the merged
    list (it fails the test of the period), no event with its id is. *)
Theorem mergeEvents_distinct_ids ev_leb now (c : Component) :
  NoDup (map (fun r => id (objects c !!! r)) (onlineEvents c)) ->
  NoDup (map (fun r => id (objects c !!! r)) (offlineEvents c)) ->
  let res := fst (mergeEvents ev_leb now c) in
  let h' := snd (mergeEvents ev_leb now c) in
  NoDup (map (fun r => id (h' !!! r)) res)
  /\ (forall r o, In r res -> In o (offlineEvents c) ->
        id (h' !!! r) = id (h' !!! o) -> r = o)
  /\ (forall o, In o (offlineEvents c) -> ~ In o res ->
        forall r, In r res -> id (h' !!! r) <> id (h' !!! o)).
Proof.
  intros Hon Hoff res h'. subst res h'.
  destruct (mergeEvents_unfold ev_leb now c) as [Hperm _].
  assert (Hsame : forall r o,
             In r (fst (mergeEvents ev_leb now c)) -> In o (offlineEvents c) ->
             id (snd (mergeEvents ev_leb now c) !!! r)
             = id (snd (mergeEvents ev_leb now c) !!! o) -> r = o).
  { intros r o Hr Ho. rewrite !mergeEvents_store_id. intros Hid.
    apply (Permutation_in _ Hperm), in_app_iff in Hr as [Hr | Hr].
    - apply filter_In in Hr as [_ Hr].
      by destruct (proj1 (not_in_offline_spec _ _ _) Hr o Ho).
    - apply filter_In in Hr as [Hr _].
      by apply (NoDup_map_In_inj (fun r => id (objects c !!! r)) (offlineEvents c)). }
  split; [|split; [exact Hsame|]].
  - rewrite (map_ext _ (fun r => id (objects c !!! r)))
      by (intros; apply mergeEvents_store_id).
    apply (Permutation_map (fun r => id (objects c !!! r))) in Hperm.
    rewrite Hperm, map_app. apply NoDup_app. split; [|split].
    + by apply NoDup_map_filter.
    + intros i Hi Hi'.
      apply list_elem_of_In, in_map_iff in Hi as (r & <- & Hr).
      apply list_elem_of_In, in_map_iff in Hi' as (o & Ho & Hin).
      apply filter_In in Hr as [_ Hr]. apply filter_In in Hin as [Hin _].
      by apply (proj1 (not_in_offline_spec _ _ _) Hr o Hin).
    + by apply NoDup_map_filter.
  - intros o Ho Hnot r Hr Hid. apply Hnot. by rewrite <- (Hsame r o Hr Ho Hid).
Qed.

(** At 150 seconds the edited lesson is in the window and replaces the
    lesson; at 400 seconds it is over: neither the lesson nor its edited
    copy is in the merged list. *)
Example mergeEvents_edited_example :
  fst (mergeEvents start_then_duration 150000 example_component) = [0; 2]%nat
  /\ fst (mergeEvents start_then_duration 400000 example_component) = [0]%nat
  /\ id (objects example_component !!! 1%nat) = id (objects example_component !!! 2%nat).
Proof. by vm_compute. Qed.

Lemma mergeEvents_distinct_ids_witness :
  NoDup (map (fun r => id (objects example_component !!! r))
           (onlineEvents example_component))
  /\ NoDup (map (fun r => id (objects example_component !!! r))
              (offlineEvents example_component))
  /\ NoDup (map (fun r =>
                   id (snd (mergeEvents start_then_duration 150000 example_component)
                       !!! r))
              (fst (mergeEvents start_then_duration 150000 example_component))).
Proof.
  assert (H1 : NoDup (map (fun r => id (objects example_component !!! r))
                        (onlineEvents example_component)))
    by (vm_compute; repeat (apply NoDup_cons_2;
          [rewrite ?elem_of_cons, elem_of_nil; intuition discriminate|]);
        apply NoDup_nil_2).
  assert (H2 : NoDup (map (fun r => id (objects example_component !!! r))
                        (offlineEvents example_component)))
    by (vm_compute; repeat (apply NoDup_cons_2;
          [rewrite ?elem_of_cons, elem_of_nil; intuition discriminate|]);
        apply NoDup_nil_2).
  split; [exact H1 | split; [exact H2|]].
  exact (proj1 (mergeEvents_distinct_ids start_then_duration 150000 example_component
                  H1 H2)).
Defined.

Lemma includes_false x l : ~ In x l -> includes x l = false.
Proof.
  intros H. destruct (includes x l) eqn:E; [|done]. by apply includes_In in E.
Qed.

(** X2: An event that was undeleted stays undeleted when the events are merged
    again: after the observer ran for [eventId], the next [mergeEvents]
    leaves the [deleted] flag of that online event cleared (ids are listed
    once in the list of deleted events). *)
Theorem undelete_survives_merge ev_leb now (c : Component) eid r e :
  eid <> 0 ->
  NoDup (deletedEvents c) ->
  List.find (fun r => id (objects c !!! r) =? eid) (onlineEvents c) = Some r ->
  objects c !! r = Some e ->
  snd (mergeEvents ev_leb now
         (undeleteEventObserver (Some {| eventId := Some eid |}) c)) !! r
  = Some (set_deleted false e).
Proof.
  intros Hnz Hnd Hfind Hr.
  assert (Hid : id e = eid).
  { apply find_some in Hfind as [_ Heq]. apply Z.eqb_eq in Heq.
    by rewrite (list_lookup_total_correct _ _ _ Hr) in Heq. }
  assert (Hin : In r (onlineEvents c)) by (by apply find_some in Hfind as [? _]).
  set (c1 := undeleteEventObserver _ c).
  assert (Hc1 : objects c1 = alter (set_deleted false) r (objects c)
                /\ onlineEvents c1 = onlineEvents c
                /\ ~ In eid (deletedEvents c1)).
  { subst c1. unfold undeleteEventObserver. cbn [eventId].
    assert (truthy_id (Some eid) = Some eid) as -> by (by destruct eid).
    assert (Hu : undeleteEvent eid c = set_objects (alter (set_deleted false) r (objects c)) c)
      by (unfold undeleteEvent; by rewrite Hfind).
    rewrite Hu. cbn [deletedEvents set_objects].
    destruct (indexOf eid (deletedEvents c)) as [i|] eqn:Ei.
    - destruct (indexOf_split _ _ _ Ei) as (l1 & l2 & H1 & H2 & H3).
      cbn. rewrite H3. repeat split. rewrite H1 in Hnd.
      apply NoDup_app in Hnd as (_ & _ & Hnd). apply NoDup_cons in Hnd as [Hn _].
      rewrite in_app_iff. intros [? | ?]; [done|]. by apply Hn, list_elem_of_In.
    - cbn. repeat split. by apply indexOf_None. }
  destruct Hc1 as (Hobj & Hon & Hdl).
  destruct (mergeEvents_unfold ev_leb now c1) as [_ ->].
  assert (Hr1 : objects c1 !! r = Some (set_deleted false e))
    by (by rewrite Hobj, list_lookup_alter_eq, Hr).
  destruct (negb _); [|done].
  rewrite mark_all_lookup, Hon, bool_decide_eq_true_2 by (by apply list_elem_of_In).
  rewrite Hr1.
  change (Some (mark_deleted (deletedEvents c1) (set_deleted false e))
          = Some (set_deleted false e)).
  unfold mark_deleted. change (id (set_deleted false e)) with (id e).
  by rewrite Hid, (includes_false _ _ Hdl).
Qed.

Lemma undelete_survives_merge_witness :
  1 <> 0
  /\ NoDup (deletedEvents example_component)
  /\ snd (mergeEvents start_then_duration 0
            (undeleteEventObserver (Some {| eventId := Some 1 |}) example_component))
     !! 0%nat
     = Some (set_deleted false (mkEvent 1 "quiz" 100 0 None None)).
Proof.
  assert (H1 : 1 <> 0) by lia.
  assert (H2 : NoDup (deletedEvents example_component))
    by (vm_compute; repeat (apply NoDup_cons_2;
          [rewrite ?elem_of_cons, elem_of_nil; intuition discriminate|]);
        apply NoDup_nil_2).
  split; [exact H1 | split; [exact H2|]].
  exact (undelete_survives_merge start_then_duration 0 example_component 1 0%nat
           (mkEvent 1 "quiz" 100 0 None None) H1 H2 eq_refl eq_refl).
Defined.

Section FormatFacts.

Variable ev_leb : Event -> Event -> bool.
Variable getFilteredEvents : list Event -> list nat -> list nat.
Variable formatEventTime : Event -> option string -> option string.



End FormatFacts.


End CalendarMoreProofs.

(* ===================================================================== *)
(** * More on the site plugins helper *)
(* ===================================================================== *)

Module SitePluginsMoreProofs.
Import JS SitePlugins SitePluginsLoad SitePluginsProofs.

Ltac run_effects :=
  unfold bind, emit, ret; cbn [fst snd trace sitePluginHandlers];
  rewrite <- ?app_assoc; cbn [app].

Section MoreHelperFacts.

Variable E : Env.

(** ** Enabled plugins *)

Lemma isSitePluginEnabled_idem (p : Plugin) (site : Site) :
  isSitePluginEnabled E (snd (isSitePluginEnabled E p site)) site
  = isSitePluginEnabled E p site.
Proof.
  destruct (truthy (parsedHandlers p)) eqn:Et;
    unfold isSitePluginEnabled;
    destruct (handlers p) as [json|] eqn:Eh; cbn [snd]; rewrite ?Eh; try done;
    destruct (negb (isFeatureDisabled E site _) && truthy_str (Some json)) eqn:Eg;
    cbn [snd]; rewrite ?Eh, ?Eg; try done; rewrite ?Et; cbn [negb];
    rewrite ?Eh, ?Eg, ?Et; try done.
  all: cbn [handlers component addon set_parsedHandlers parsedHandlers];
    repeat (progress (rewrite ?Eh, ?Eg, ?Et; cbv iota; cbn [negb]));
    try done;
    destruct (truthy (parseJSON E json)) eqn:Ep;
    cbn [negb parsedHandlers set_parsedHandlers handlers component addon lang parsedLang];
    by rewrite ?Ep.
Qed.

(** X8: [isSitePluginEnabled] keeps what it parsed: asked again about the
    plugin it left, it gives the same answer and leaves the plugin as it
    is. *)
Theorem isSitePluginEnabled_again (p : Plugin) (site : Site) :
  isSitePluginEnabled E (snd (isSitePluginEnabled E p site)) site
  = isSitePluginEnabled E p site.
Proof. apply isSitePluginEnabled_idem. Qed.

Lemma enabled_plugins_enabled site plugins :
  Forall (fun p => isSitePluginEnabled E p site = (true, p))
    (enabled_plugins E site plugins)
  /\ (length (enabled_plugins E site plugins) <= length plugins)%nat.
Proof.
  induction plugins as [|p plugins [IH1 IH2]]; simpl; [by split|].
  pose proof (isSitePluginEnabled_idem p site) as Hagain.
  destruct (isSitePluginEnabled E p site) as [[|] p'] eqn:Ep; simpl in *.
  - split; [by constructor | lia].
  - split; [done | lia].
Qed.

(** X9: Every plugin that [fetchSitePlugins] resolves with is one that
    [isSitePluginEnabled] reports as enabled on the site, without touching
    it any more; and there are no more of them than the web service
    declared. *)
Theorem fetchSitePlugins_all_enabled siteId st (plugins : list Plugin) :
  fst (fetchSitePlugins E siteId st) = Some plugins ->
  exists site,
    getSite E siteId = Some site
    /\ Forall (fun p => isSitePluginEnabled E p site = (true, p)) plugins
    /\ (plugins = []
        \/ exists declared,
             readPlugins E site = Some declared
             /\ (length plugins <= length declared)%nat).
Proof.
  unfold fetchSitePlugins.
  destruct (getSite E siteId) as [site|]; [|done].
  destruct (isGetContentAvailable E site); cbn [negb].
  - unfold bind, emit, ret. cbn [fst].
    destruct (readPlugins E site) as [declared|] eqn:Er; [|done].
    intros [= <-]. exists site. split; [done|].
    destruct (enabled_plugins_enabled site declared) as [H1 H2].
    split; [done|]. right. by exists declared.
  - intros [= <-]. exists site. split; [done|]. split; [constructor | by left].
Qed.

(** ** Strings of a plugin *)

Lemma append_inj_r (a b c : string) : a +:+ b = a +:+ c -> b = c.
Proof. induction a as [|ch a IH]; simpl; [done|]. intros [= H]. by apply IH. Qed.

(** X10: The prefixed keys of one add-on do not collide: two keys with the same
    prefixed string are the same key; without an add-on name the key is
    left as it is. *)
Theorem getPrefixedString_inj (addon key1 key2 : string) :
  (getPrefixedString addon key1 = getPrefixedString addon key2 -> key1 = key2)
  /\ getPrefixedString "" key1 = key1.
Proof. split; [apply append_inj_r | reflexivity]. Qed.

(** ** Names of modules and formats *)

Lemma replace_unfold pat rep s :
  replace pat rep s
  = if String.prefix pat s then rep +:+ string_drop (String.length pat) s
    else match s with
         | EmptyString => EmptyString
         | String c s' => String c (replace pat rep s')
         end.
Proof. by destruct s. Qed.

Lemma prefix_append pat s : String.prefix pat (pat +:+ s) = true.
Proof.
  induction pat as [|c pat IH]; simpl; [by destruct s|].
  destruct (Ascii.ascii_dec c c); [done | congruence].
Qed.

Lemma string_drop_append pat s : string_drop (String.length pat) (pat +:+ s) = s.
Proof. induction pat as [|c pat IH]; simpl; [done | exact IH]. Qed.

Lemma replace_prefix pat rep s : replace pat rep (pat +:+ s) = rep +:+ s.
Proof. by rewrite replace_unfold, prefix_append, string_drop_append. Qed.

(** X11: A module plugin [mod_<name>] with [displaydata] is registered in the
    module delegate under the module name [<name>], which is also the
    string the registration answers; a format plugin [format_<name>] is
    registered under the format name [<name>]. *)
Theorem registered_under_short_name (plugin : Plugin) (handlerName shortName : string)
  (handlerSchema : HandlerSchema) (initResult : ContentResult) (st : St) :
  (component plugin = "mod_" +:+ shortName ->
   displaydata handlerSchema <> None ->
   fst (registerModuleHandler E plugin handlerName handlerSchema initResult st)
   = Some shortName
   /\ In (Register CourseModuleDelegate
            (ModuleHandler (getHandlerUniqueName E plugin handlerName) shortName
               handlerSchema))
        (trace (snd (registerModuleHandler E plugin handlerName handlerSchema
                       initResult st))))
  /\ (component plugin = "format_" +:+ shortName ->
      fst (registerCourseFormatHandler E plugin handlerName handlerSchema initResult st)
      = Some shortName
      /\ In (Register CourseFormatDelegate
               (CourseFormatHandler (getHandlerUniqueName E plugin handlerName)
                  shortName handlerSchema))
           (trace (snd (registerCourseFormatHandler E plugin handlerName
                          handlerSchema initResult st)))).
Proof.
  split.
  - intros Hc Hdd. unfold registerModuleHandler.
    destruct (displaydata handlerSchema) as [dd|]; [|done].
    rewrite Hc, (replace_prefix "mod_" "" shortName).
    change ("" +:+ shortName) with shortName.
    destruct (truthy _ && _); unfold bind, emit, ret; cbn [fst snd trace];
      (split; [done|]); rewrite !in_app_iff; simpl; tauto.
  - intros Hc. unfold registerCourseFormatHandler.
    rewrite Hc, (replace_prefix "format_" "" shortName).
    change ("" +:+ shortName) with shortName.
    unfold bind, emit, ret; cbn [fst snd trace].
    split; [done|]. rewrite !in_app_iff. simpl. tauto.
Qed.

(** ** Styles *)

Lemma downloadStyles_code plugin handlerName handlerSchema siteId st (text : string) :
  fst (downloadStyles E plugin handlerName handlerSchema siteId st) = Some text
  <-> exists site,
        getSite E siteId = Some site
        /\ ((truthy_str (styles_url E site handlerSchema) = false /\ text = "")
            \/ exists u localUrl,
                 styles_url E site handlerSchema = Some u /\ u <> ""
                 /\ downloadUrl E (site_id site) u
                      (getHandlerUniqueName E plugin handlerName +:+ "#main")
                      (styles_version handlerSchema) = Some localUrl
                 /\ httpGetText E localUrl = Some (Some text)).
Proof.
  unfold downloadStyles.
  destruct (getSite E siteId) as [site|];
    [|split; [done | by intros (site & [=] & _)]].
  cbv zeta.
  set (cid := getHandlerUniqueName E plugin handlerName +:+ "#main").
  unfold bind at 1.
  destruct (match getFilesByComponent E (site_id site) (COMPONENT E) cid with
            | Some files => _
            | None => ret tt
            end st) as [[] st1].
  destruct (styles_url E site handlerSchema) as [u|] eqn:Eu.
  2: { unfold ret. cbn [fst]. split.
       - intros [= <-]. exists site. rewrite Eu. split; [done|]. by left.
       - intros (s' & [= <-] & H). rewrite Eu in H.
         by destruct H as [[_ ->] | (u & l & [=] & _)]. }
  assert (Hu : truthy_str (Some u) = true <-> u <> "").
  { simpl. rewrite negb_true_iff. destruct (String.eqb_spec u ""); split; congruence. }
  destruct (truthy_str (Some u)) eqn:Et; cbn [negb].
  - assert (Hne : u <> "") by (by apply Hu).
    unfold bind, emit, ret. cbn [fst snd].
    destruct (downloadUrl E (site_id site) u cid (styles_version handlerSchema))
      as [localUrl|] eqn:Ed; cbn [fst].
    + destruct (httpGetText E localUrl) as [[t|]|] eqn:Eg; cbn [fst]; split;
        try (intros [= <-]; exists site; rewrite Eu, Et; split; [done|]; right;
             by exists u, localUrl);
        try done;
        intros (s' & [= <-] & H); rewrite Eu, Et in H;
        destruct H as [[[=] _] | (u' & l' & [= <-] & _ & Hd & Hg)]; congruence.
    + split; [done|].
      intros (s' & [= <-] & H). rewrite Eu, Et in H.
      destruct H as [[[=] _] | (u' & l' & [= <-] & _ & Hd & _)]. congruence.
  - unfold ret. cbn [fst]. split.
    + intros [= <-]. exists site. rewrite Eu, Et. split; [done|]. by left.
    + intros (s' & [= <-] & H). rewrite Eu, Et in H.
      destruct H as [[_ ->] | (u' & l' & [= <-] & Hne & _)]; [done|].
      apply Hu in Hne. congruence.
Qed.


(** ** Registration, whatever the state it starts from *)

Lemma dispatch_uniform plugin handlerName handlerSchema result :
  exists new ident schema',
    (forall st,
        dispatch E plugin handlerName handlerSchema result st
        = ((ident, schema'), mkSt (trace st ++ new) (sitePluginHandlers st)))
    /\ forallb is_registration_log new = true.
Proof.
  unfold dispatch.
  destruct (delegate handlerSchema) as [d|];
    [|exists [], None, handlerSchema; split; [intros st; unfold ret; by rewrite St_eta | done]].
  destruct (String.eqb d "CoreMainMenuDelegate").
  { unfold registerMainMenuHandler.
    destruct (displaydata handlerSchema) as [dd|];
      eexists _, _, _; (split; [intros st; run_effects; reflexivity | reflexivity]). }
  destruct (String.eqb d "CoreCourseModuleDelegate").
  { unfold registerModuleHandler.
    destruct (displaydata handlerSchema) as [dd|];
      [destruct (truthy (offlinefunctions handlerSchema)
                 && negb (object_keys_length (offlinefunctions handlerSchema) =? 0)%nat)|];
      eexists _, _, _; (split; [intros st; run_effects; reflexivity | reflexivity]). }
  destruct (String.eqb d "CoreUserDelegate").
  { unfold registerUserProfileHandler.
    destruct (displaydata handlerSchema) as [dd|];
      eexists _, _, _; (split; [intros st; run_effects; reflexivity | reflexivity]). }
  destruct (String.eqb d "CoreCourseOptionsDelegate").
  { unfold registerCourseOptionHandler.
    destruct (displaydata handlerSchema) as [dd|];
      eexists _, _, _; (split; [intros st; run_effects; reflexivity | reflexivity]). }
  destruct (String.eqb d "CoreCourseFormatDelegate").
  { unfold registerCourseFormatHandler.
    eexists _, _, _; (split; [intros st; run_effects; reflexivity | reflexivity]). }
  destruct (String.eqb d "CoreUserProfileFieldDelegate").
  { unfold registerUserProfileFieldHandler.
    destruct (method handlerSchema) as [m|];
      [destruct (truthy_str (Some m)); cbn [negb];
       [destruct (executeMethodAndJS E plugin m false) as [r|]|]|];
      eexists _, _, _; (split; [intros st; run_effects; reflexivity | reflexivity]). }
  exists [], None, handlerSchema. split; [intros st; unfold ret; by rewrite St_eta | done].
Qed.

Lemma file_pool_removals sid url files :
  forallb is_file_pool (removals sid url files) = true.
Proof.
  unfold removals. induction files as [|f files IH]; simpl; [done|].
  by destruct (url_differs _ _).
Qed.

Lemma file_pool_downloads rest :
  forallb is_download rest = true -> forallb is_file_pool rest = true.
Proof.
  induction rest as [|e rest IH]; simpl; [done|].
  intros H. apply andb_true_iff in H as [He Hr]. rewrite IH by done.
  by destruct e.
Qed.

Lemma downloadStyles_file_pool plugin handlerName handlerSchema siteId st :
  exists dl,
    snd (downloadStyles E plugin handlerName handlerSchema siteId st)
    = mkSt (trace st ++ dl) (sitePluginHandlers st)
    /\ forallb is_file_pool dl = true.
Proof.
  destruct (getSite E siteId) as [site|] eqn:Hsite.
  - destruct (downloadStyles_run E plugin handlerName handlerSchema siteId site st Hsite)
      as (code & rest & -> & Hrest & _).
    eexists. split; [reflexivity|].
    by rewrite forallb_app, file_pool_removals, file_pool_downloads.
  - exists []. unfold downloadStyles. rewrite Hsite. unfold ret. cbn [snd].
    by rewrite St_eta.
Qed.

(** The whole of [registerHandler]: the calls to the file pool, the error
    logged when the styles could not be got, then either the error of the
    init method, or the styles put in the page followed by what the switch
    does, and the data stored. *)
Lemma registerHandler_trace plugin handlerName handlerSchema st :
  let code :=
    fst (downloadStyles E plugin handlerName handlerSchema
           (Some (getCurrentSiteId E)) st) in
  let styles_error :=
    match code with
    | Some _ => []
    | None => [LogError "Error getting styles for plugin"]
    end in
  let styles_loaded :=
    match code, styles handlerSchema with
    | Some c, Some s =>
        if truthy_str code
        then [LoadStyles (getHandlerUniqueName E plugin handlerName)
                (default "" (url s)) c (version s) (getCurrentSiteId E)]
        else []
    | _, _ => []
    end in
  exists dl,
    forallb is_file_pool dl = true
    /\ match executeHandlerInit E plugin handlerSchema with
       | None =>
           registerHandler E plugin handlerName handlerSchema st
           = (tt,
              mkSt (trace st ++ dl ++ styles_error
                    ++ [LogError "Error executing init method"])
                (sitePluginHandlers st))
       | Some result =>
           exists new ident schema',
             (forall st0,
                 dispatch E plugin handlerName handlerSchema result st0
                 = ((ident, schema'), mkSt (trace st0 ++ new) (sitePluginHandlers st0)))
             /\ forallb is_registration_log new = true
             /\ registerHandler E plugin handlerName handlerSchema st
                = (tt,
                   mkSt (trace st ++ dl ++ styles_error ++ styles_loaded ++ new)
                     (match ident with
                      | Some key =>
                          if truthy_str ident
                          then <[key := mkHandlerData plugin handlerName schema' result]>
                                 (sitePluginHandlers st)
                          else sitePluginHandlers st
                      | None => sitePluginHandlers st
                      end))
       end.
Proof.
  intros code styles_error styles_loaded.
  destruct (downloadStyles_file_pool plugin handlerName handlerSchema
              (Some (getCurrentSiteId E)) st) as (dl & Hdl & Hfile).
  exists dl. split; [done|].
  unfold registerHandler.
  destruct (downloadStyles E plugin handlerName handlerSchema
              (Some (getCurrentSiteId E)) st) as [code' st1] eqn:Ed.
  cbn [fst snd] in *. subst code st1.
  destruct (executeHandlerInit E plugin handlerSchema) as [result|].
  - destruct (dispatch_uniform plugin handlerName handlerSchema result)
      as (new & ident & schema' & Hd & Hreg).
    exists new, ident, schema'. split; [done|]. split; [done|].
    unfold bind at 1. rewrite Ed.
    subst styles_error styles_loaded.
    destruct code' as [c|]; run_effects;
      [destruct (styles handlerSchema) as [s|];
       [destruct (truthy_str (Some c))|]|];
      unfold loadStyles; run_effects; rewrite Hd; cbn [trace sitePluginHandlers];
      rewrite <- ?app_assoc; cbn [app];
      (destruct ident as [key|]; [destruct (truthy_str (Some key))|]);
      unfold setSitePluginHandler, ret; cbn [trace sitePluginHandlers]; reflexivity.
  - unfold bind at 1. rewrite Ed. subst styles_error.
    destruct code' as [c|]; run_effects; reflexivity.
Qed.

Lemma registrations_file_pool dl :
  forallb is_file_pool dl = true -> registrations dl = [].
Proof.
  induction dl as [|e dl IH]; simpl; [done|].
  intros H. apply andb_true_iff in H as [He Hr]. destruct e; try done; by apply IH.
Qed.

Lemma truthy_str_Some c : truthy_str (Some c) = true <-> c <> "".
Proof.
  simpl. rewrite negb_true_iff. destruct (String.eqb_spec c ""); split; congruence.
Qed.

Lemma styles_url_declared site handlerSchema u :
  styles_url E site handlerSchema = Some u ->
  exists s d, styles handlerSchema = Some s /\ url s = Some d.
Proof.
  unfold styles_url, declared_url.
  destruct (styles handlerSchema) as [s|]; [|done].
  destruct (url s) as [d|] eqn:Ed; [|done]. intros _. by exists s, d.
Qed.

(** X13: The styles of a handler are put in the page exactly when the init
    method did not fail and [downloadStyles] resolved with a text that is
    not empty; they are put there once, under the unique name of the
    handler, with that text and with the URL as the schema declares it. *)
Theorem registerHandler_loads_styles plugin handlerName handlerSchema st :
  exists new,
    trace (snd (registerHandler E plugin handlerName handlerSchema st)) = trace st ++ new
    /\ forall uniqueName fileUrl cssCode version siteId,
         In (LoadStyles uniqueName fileUrl cssCode version siteId) new
         <-> is_Some (executeHandlerInit E plugin handlerSchema)
             /\ fst (downloadStyles E plugin handlerName handlerSchema
                       (Some (getCurrentSiteId E)) st) = Some cssCode
             /\ cssCode <> ""
             /\ uniqueName = getHandlerUniqueName E plugin handlerName
             /\ declared_url handlerSchema = Some fileUrl
             /\ version = styles_version handlerSchema
             /\ siteId = getCurrentSiteId E.
Proof.
  destruct (registerHandler_trace plugin handlerName handlerSchema st)
    as (dl & Hdl & Hrun).
  set (code := fst (downloadStyles E plugin handlerName handlerSchema
                      (Some (getCurrentSiteId E)) st)) in *.
  assert (Hnodl : forall u f c v s, ~ In (LoadStyles u f c v s) dl).
  { intros u f c v s Hin. rewrite forallb_forall in Hdl. by apply Hdl in Hin. }
  assert (Hnoerr : forall u f c v s,
             ~ In (LoadStyles u f c v s)
                 match code with
                 | Some _ => []
                 | None => [LogError "Error getting styles for plugin"]
                 end).
  { intros u f c v s. destruct code; simpl; intuition congruence. }
  destruct (executeHandlerInit E plugin handlerSchema) as [result|].
  - destruct Hrun as (new & ident & schema' & _ & Hreg & ->).
    eexists. split; [reflexivity|].
    intros u f c v s. rewrite !in_app_iff.
    assert (Hnonew : ~ In (LoadStyles u f c v s) new).
    { intros Hin. rewrite forallb_forall in Hreg. by apply Hreg in Hin. }
    split.
    + intros [Hin | [Hin | [Hin | Hin]]];
        [by apply Hnodl in Hin | by apply Hnoerr in Hin | | done].
      destruct code as [c'|] eqn:Ec; [|done].
      destruct (styles handlerSchema) as [s0|] eqn:Es; [|done].
      destruct (truthy_str (Some c')) eqn:Et; [|done].
      destruct Hin as [[= <- <- <- <- <-] | []].
      apply truthy_str_Some in Et.
      apply downloadStyles_code in Ec
        as (site & _ & [[_ ->] | (u0 & l0 & Hu & _)]); [done|].
      apply styles_url_declared in Hu as (s1 & d & Hs1 & Hd).
      assert (s1 = s0) as -> by congruence.
      unfold declared_url, styles_version. rewrite Es, Hd. by repeat split.
    + intros (_ & Hc & Hne & -> & Hf & -> & ->). right. right. left.
      rewrite Hc. unfold declared_url in Hf. unfold styles_version.
      destruct (styles handlerSchema) as [s0|]; [|done].
      rewrite (proj2 (truthy_str_Some c) Hne), Hf. by left.
  - rewrite Hrun. eexists. split; [reflexivity|].
    intros u f c v s. rewrite !in_app_iff. split.
    + intros [Hin | [Hin | [[=] | []]]];
        [by apply Hnodl in Hin | by apply Hnoerr in Hin].
    + by intros ([? [=]] & _).
Qed.

(** ** Profile field handlers *)

(** X14: A handler that [registerUserProfileFieldHandler] registers goes to the
    user profile field delegate, after the method of the schema ran; the
    functions it takes over from the result of the script are functions of
    that result, under the name of a method of the handler, and never its
    constructor. *)
Theorem profile_field_overrides plugin handlerName handlerSchema initResult st d h :
  In (Register d h)
    (trace (snd (registerUserProfileFieldHandler E plugin handlerName handlerSchema
                   initResult st))) ->
  ~ In (Register d h) (trace st) ->
  exists m result overridden,
    method handlerSchema = Some m
    /\ executeMethodAndJS E plugin m false = Some result
    /\ d = UserProfileFieldDelegate
    /\ h = UserProfileFieldHandler (getHandlerUniqueName E plugin handlerName)
             (replace "profilefield_" "" (component plugin)) overridden
    /\ forall property f,
         In (property, f) overridden ->
         In property (profileFieldHandlerMethods E)
         /\ property <> "constructor"
         /\ f = prop (jsResult result) property
         /\ is_function f = true.
Proof.
  unfold registerUserProfileFieldHandler.
  destruct (method handlerSchema) as [m|];
    [destruct (truthy_str (Some m)); cbn [negb];
     [destruct (executeMethodAndJS E plugin m false) as [result|] eqn:Ex|]|];
    run_effects; rewrite ?in_app_iff; simpl;
    intros Hin Hnot; decompose [or] Hin; try (by destruct Hnot); try discriminate;
    try done.
  match goal with Heq : Register _ _ = Register d h |- _ => injection Heq as <- <- end.
  eexists m, result, _.
  split; [done|]. split; [done|]. split; [done|]. split; [done|].
  intros property f H.
  destruct (truthy (jsResult result)); [|done]. unfold overridden_methods in H.
  apply in_map_iff in H as (p & [= <- <-] & Hp). apply filter_In in Hp as [Hin' Hp].
  apply andb_true_iff in Hp as [Hc Hf].
  split; [done|]. split; [|by split].
  apply negb_true_iff in Hc. intros ->. by rewrite String.eqb_refl in Hc.
Qed.

Lemma registerHandler_outcome plugin handlerName handlerSchema st :
  match executeHandlerInit E plugin handlerSchema with
  | None =>
      registrations (trace (snd (registerHandler E plugin handlerName handlerSchema st)))
      = registrations (trace st)
      /\ sitePluginHandlers (snd (registerHandler E plugin handlerName handlerSchema st))
         = sitePluginHandlers st
  | Some result =>
      registrations (trace (snd (registerHandler E plugin handlerName handlerSchema st)))
      = registrations (trace st)
        ++ registrations
             (trace (snd (dispatch E plugin handlerName handlerSchema result initial)))
      /\ sitePluginHandlers (snd (registerHandler E plugin handlerName handlerSchema st))
         = match fst (dispatch E plugin handlerName handlerSchema result initial) with
           | (Some key, schema') =>
               if truthy_str (Some key)
               then <[key := mkHandlerData plugin handlerName schema' result]>
                      (sitePluginHandlers st)
               else sitePluginHandlers st
           | (None, _) => sitePluginHandlers st
           end
  end.
Proof.
  destruct (registerHandler_trace plugin handlerName handlerSchema st)
    as (dl & Hdl & Hrun).
  apply registrations_file_pool in Hdl.
  destruct (executeHandlerInit E plugin handlerSchema) as [result|].
  - destruct Hrun as (new & ident & schema' & Hd & _ & ->).
    rewrite Hd. cbn [fst snd trace sitePluginHandlers initial app].
    rewrite !registrations_app, Hdl.
    split; [|by destruct ident].
    destruct (fst (downloadStyles _ _ _ _ _ _)) as [c|];
      [destruct (styles handlerSchema); [destruct (truthy_str _)|]|]; done.
  - rewrite Hrun. cbn [snd trace sitePluginHandlers].
    rewrite !registrations_app, Hdl.
    split; [|done]. destruct (fst (downloadStyles _ _ _ _ _ _)); simpl;
      by rewrite app_nil_r.
Qed.

(** ** Registering the handlers of a manifest *)

Lemma per_feature_only_app regs1 regs2 :
  per_feature_only (regs1 ++ regs2) = per_feature_only regs1 ++ per_feature_only regs2.
Proof. unfold per_feature_only. apply List.filter_app. Qed.

Lemma registerHandler_bound plugin handlerName handlerSchema st :
  exists regs,
    registrations (trace (snd (registerHandler E plugin handlerName handlerSchema st)))
    = registrations (trace st) ++ regs
    /\ (length (per_feature_only regs) <= 1)%nat
    /\ forall key,
         is_Some (sitePluginHandlers st !! key) ->
         is_Some (sitePluginHandlers
                    (snd (registerHandler E plugin handlerName handlerSchema st)) !! key).
Proof.
  destruct (registerHandler_run E plugin handlerName handlerSchema st)
    as (pre & Hpre & Hrun).
  destruct (executeHandlerInit E plugin handlerSchema) as [result|].
  - destruct Hrun as (new & ident & schema' & _ & Hdisp & ->).
    exists (registrations new). cbn [snd trace sitePluginHandlers].
    rewrite !registrations_app, Hpre, app_nil_r. split; [done|]. split.
    + unfold dispatched in Hdisp.
      destruct (named_delegate (delegate handlerSchema)) as [D|];
        [destruct (required_data E plugin handlerSchema D)|].
      * destruct Hdisp as ((h & ->) & _). simpl. lia.
      * destruct Hdisp as (-> & _). simpl. lia.
      * destruct Hdisp as (-> & _). simpl. lia.
    + intros key Hkey. destruct ident as [k|]; [|done].
      destruct (truthy_str (Some k)); [|done].
      rewrite lookup_insert. by case_decide.
  - rewrite Hrun. exists []. cbn [snd trace sitePluginHandlers].
    rewrite registrations_app, Hpre. split; [done|]. split; [simpl; lia | done].
Qed.

End MoreHelperFacts.

(** ** Registration does not depend on the styles *)

Lemma executeMethodAndJS_ext (E1 E2 : Env) plugin m isInit :
  getCurrentSiteId E1 = getCurrentSiteId E2 ->
  getContent E1 = getContent E2 ->
  executeJavascript E1 = executeJavascript E2 ->
  executeMethodAndJS E1 plugin m isInit = executeMethodAndJS E2 plugin m isInit.
Proof. intros H1 H2 H3. unfold executeMethodAndJS. by rewrite H1, H2, H3. Qed.

Lemma dispatch_ext (E1 E2 : Env) plugin handlerName handlerSchema result st :
  getCurrentSiteId E1 = getCurrentSiteId E2 ->
  getHandlerUniqueName E1 = getHandlerUniqueName E2 ->
  getContent E1 = getContent E2 ->
  executeJavascript E1 = executeJavascript E2 ->
  profileFieldHandlerMethods E1 = profileFieldHandlerMethods E2 ->
  dispatch E1 plugin handlerName handlerSchema result st
  = dispatch E2 plugin handlerName handlerSchema result st.
Proof.
  intros H1 H2 H3 H4 H5.
  unfold dispatch, registerMainMenuHandler, registerModuleHandler,
    registerUserProfileHandler, registerCourseOptionHandler,
    registerCourseFormatHandler, registerUserProfileFieldHandler, overridden_methods.
  rewrite H2, H5.
  destruct (method handlerSchema) as [m|]; [|done].
  by rewrite (executeMethodAndJS_ext E1 E2 plugin m false H1 H3 H4).
Qed.

(** X15: What [registerHandler] registers and stores does not depend on the
    styles: two runs that differ only in what the site lookup, the file
    pool, the download and the read of the file answer make the same
    registrations and leave the same map of handlers. *)
Theorem registration_whatever_the_styles (E1 E2 : Env) plugin handlerName
  handlerSchema st :
  getCurrentSiteId E1 = getCurrentSiteId E2 ->
  getHandlerUniqueName E1 = getHandlerUniqueName E2 ->
  getContent E1 = getContent E2 ->
  executeJavascript E1 = executeJavascript E2 ->
  profileFieldHandlerMethods E1 = profileFieldHandlerMethods E2 ->
  registrations (trace (snd (registerHandler E1 plugin handlerName handlerSchema st)))
  = registrations (trace (snd (registerHandler E2 plugin handlerName handlerSchema st)))
  /\ sitePluginHandlers (snd (registerHandler E1 plugin handlerName handlerSchema st))
     = sitePluginHandlers (snd (registerHandler E2 plugin handlerName handlerSchema st)).
Proof.
  intros H1 H2 H3 H4 H5.
  pose proof (registerHandler_outcome E1 plugin handlerName handlerSchema st) as O1.
  pose proof (registerHandler_outcome E2 plugin handlerName handlerSchema st) as O2.
  assert (Hinit : executeHandlerInit E1 plugin handlerSchema
                  = executeHandlerInit E2 plugin handlerSchema).
  { unfold executeHandlerInit. destruct (init handlerSchema) as [m|]; [|done].
    by rewrite (executeMethodAndJS_ext E1 E2 plugin m true H1 H3 H4). }
  rewrite Hinit in O1.
  destruct (executeHandlerInit E2 plugin handlerSchema) as [result|].
  - rewrite (dispatch_ext E1 E2 plugin handlerName handlerSchema result initial
               H1 H2 H3 H4 H5) in O1.
    destruct O1 as [-> ->], O2 as [-> ->]. done.
  - destruct O1 as [-> ->], O2 as [-> ->]. done.
Qed.

Lemma registration_whatever_the_styles_witness :
  getCurrentSiteId example_env = getCurrentSiteId no_styles_env
  /\ registrations
       (trace (snd (registerHandler example_env certificate "view" module_schema initial)))
     = registrations
         (trace (snd (registerHandler no_styles_env certificate "view" module_schema
                        initial)))
  /\ sitePluginHandlers
       (snd (registerHandler example_env certificate "view" module_schema initial))
     = sitePluginHandlers
         (snd (registerHandler no_styles_env certificate "view" module_schema initial)).
Proof.
  split; [reflexivity|].
  exact (registration_whatever_the_styles example_env no_styles_env certificate "view"
           module_schema initial eq_refl eq_refl eq_refl eq_refl eq_refl).
Defined.

Example registerHandler_without_styles :
  trace (snd (registerHandler no_styles_env certificate "view" module_schema initial))
  = [ LogError "Error getting styles for plugin";
      LogDebug "Register site plugin in module delegate:";
      Register CourseModuleDelegate
        (ModuleHandler "mod_certificate_view" "certificate" module_schema);
      Register CourseModulePrefetchDelegate
        (ModulePrefetchHandler "mod_certificate" "mod_certificate_view"
           "certificate" module_schema) ].
Proof. vm_compute. reflexivity. Qed.

Lemma fetchSitePlugins_all_enabled_witness :
  fst (fetchSitePlugins example_env None initial)
  = Some [set_parsedHandlers (VObj [("view", VObj [])]) certificate]
  /\ exists site,
      getSite example_env None = Some site
      /\ Forall (fun p => isSitePluginEnabled example_env p site = (true, p))
           [set_parsedHandlers (VObj [("view", VObj [])]) certificate].
Proof.
  split; [reflexivity|].
  destruct (fetchSitePlugins_all_enabled example_env None initial
              [set_parsedHandlers (VObj [("view", VObj [])]) certificate] eq_refl)
    as (site & Hsite & Hall & _).
  exists site. split; [exact Hsite | exact Hall].
Defined.

Example profile_field_example :
  registrations
    (trace (snd (registerUserProfileFieldHandler profile_env birthday "field"
                   birthday_schema emptyResult initial)))
  = [(UserProfileFieldDelegate,
      UserProfileFieldHandler "profilefield_birthday_field" "birthday"
        [("getComponent", VFun "f")])].
Proof. reflexivity. Qed.

Lemma profile_field_overrides_witness :
  In (Register UserProfileFieldDelegate
        (UserProfileFieldHandler "profilefield_birthday_field" "birthday"
           [("getComponent", VFun "f")]))
    (trace (snd (registerUserProfileFieldHandler profile_env birthday "field"
                   birthday_schema emptyResult initial)))
  /\ ~ In (Register UserProfileFieldDelegate
             (UserProfileFieldHandler "profilefield_birthday_field" "birthday"
                [("getComponent", VFun "f")]))
         (trace initial)
  /\ exists m result overridden,
      method birthday_schema = Some m
      /\ executeMethodAndJS profile_env birthday m false = Some result
      /\ UserProfileFieldHandler "profilefield_birthday_field" "birthday"
           [("getComponent", VFun "f")]
         = UserProfileFieldHandler (getHandlerUniqueName profile_env birthday "field")
             (replace "profilefield_" "" (component birthday)) overridden.
Proof.
  assert (H1 : In (Register UserProfileFieldDelegate
                     (UserProfileFieldHandler "profilefield_birthday_field" "birthday"
                        [("getComponent", VFun "f")]))
                 (trace (snd (registerUserProfileFieldHandler profile_env birthday
                                "field" birthday_schema emptyResult initial))))
    by (vm_compute; tauto).
  assert (H2 : ~ In (Register UserProfileFieldDelegate
                       (UserProfileFieldHandler "profilefield_birthday_field" "birthday"
                          [("getComponent", VFun "f")]))
                   (trace initial))
    by (intros []).
  split; [exact H1 | split; [exact H2|]].
  destruct (profile_field_overrides profile_env birthday "field" birthday_schema
              emptyResult initial _ _ H1 H2)
    as (m & result & ov & Hm & Hx & _ & Hh & _).
  exists m, result, ov. split; [exact Hm | split; [exact Hx | exact Hh]].
Defined.

(** ** Loading the plugins *)

Section LoadFacts.

Variable E : Env.
Variable schema_of : JsVal -> HandlerSchema.
Variable parse_undefined : JsVal.

Lemma is_nullish_spec (v : JsVal) :
  is_nullish v = false <-> v <> VNull /\ v <> VUndef.
Proof. destruct v; cbn; intuition congruence. Qed.

Lemma registerHandlers_bound plugin entries st :
  exists regs,
    registrations (trace (snd (registerHandlers E schema_of plugin entries st)))
    = registrations (trace st) ++ regs
    /\ (length (per_feature_only regs) <= length entries)%nat
    /\ forall key,
         is_Some (sitePluginHandlers st !! key) ->
         is_Some (sitePluginHandlers
                    (snd (registerHandlers E schema_of plugin entries st)) !! key).
Proof.
  revert st. induction entries as [|[name v] entries IH]; intros st; cbn [registerHandlers].
  - exists []. by rewrite app_nil_r.
  - destruct (is_nullish v).
    + exists []. unfold bind, emit, ret. cbn [fst snd trace sitePluginHandlers].
      rewrite registrations_app. cbn. rewrite !app_nil_r.
      split; [done|]. split; [lia | done].
    + unfold bind.
      destruct (registerHandler_bound E plugin name (schema_of v) st)
        as (regs1 & Hr1 & Hl1 & Hk1).
      destruct (registerHandler E plugin name (schema_of v) st) as [[] st1].
      cbn [snd] in *.
      destruct (IH st1) as (regs2 & Hr2 & Hl2 & Hk2).
      exists (regs1 ++ regs2). rewrite Hr2, Hr1, app_assoc.
      split; [done|].
      split; [rewrite per_feature_only_app, length_app; cbn [length]; lia|].
      intros key Hkey. by apply Hk2, Hk1.
Qed.

Lemma registerHandlers_returns plugin entries st :
  fst (registerHandlers E schema_of plugin entries st) = true
  <-> Forall (fun entry => snd entry <> VNull /\ snd entry <> VUndef) entries.
Proof.
  revert st. induction entries as [|[name v] entries IH]; intros st; cbn [registerHandlers].
  - split; [intros _; constructor | done].
  - rewrite Forall_cons. cbn [snd]. rewrite <- is_nullish_spec.
    destruct (is_nullish v).
    + unfold bind, emit, ret. cbn. split; [done | by intros [[=] _]].
    + unfold bind. destruct (registerHandler E plugin name (schema_of v) st) as [[] st1].
      rewrite IH. tauto.
Qed.

Lemma loadSitePlugin_manifest plugin l :
  parsedHandlers (fst (fst (loadSitePlugin E schema_of parse_undefined plugin l)))
  = manifest E parse_undefined plugin.
Proof.
  unfold loadSitePlugin, manifest. cbv zeta. cbn [fst].
  set (p1 := if negb (truthy (parsedHandlers plugin)) then _ else plugin).
  transitivity (parsedHandlers p1).
  - by destruct (negb (truthy (parsedLang p1)) && truthy_str (lang p1)).
  - subst p1. by destruct (negb (truthy (parsedHandlers plugin))).
Qed.

Lemma loadSitePlugin_fields plugin l :
  let l' := snd (fst (loadSitePlugin E schema_of parse_undefined plugin l)) in
  hasSitePluginsLoaded l' = true
  /\ triggered l' = triggered l
  /\ reloads l' = reloads l.
Proof.
  unfold loadSitePlugin. cbv zeta. cbn [fst snd].
  set (p1 := if negb (truthy (parsedHandlers plugin)) then _ else plugin).
  set (p2 := if negb (truthy (parsedLang p1)) && truthy_str (lang p1) then _ else p1).
  unfold loadLangStrings. by destruct (negb (truthy (parsedLang p2))).
Qed.

Lemma loadSitePlugin_returns plugin l :
  snd (loadSitePlugin E schema_of parse_undefined plugin l) = true
  <-> well_formed E parse_undefined plugin.
Proof.
  unfold well_formed. rewrite <- (loadSitePlugin_manifest plugin l).
  unfold loadSitePlugin. cbv zeta. cbn [fst snd]. apply registerHandlers_returns.
Qed.

Lemma loadSitePlugin_bound plugin l :
  let l' := snd (fst (loadSitePlugin E schema_of parse_undefined plugin l)) in
  exists regs,
    registrations (trace (helper l')) = registrations (trace (helper l)) ++ regs
    /\ (length (per_feature_only regs) <= declared_handlers E parse_undefined [plugin])%nat
    /\ forall key,
         is_Some (sitePluginHandlers (helper l) !! key) ->
         is_Some (sitePluginHandlers (helper l') !! key).
Proof.
  cbv zeta. pose proof (loadSitePlugin_manifest plugin l) as Hp.
  unfold loadSitePlugin, declared_handlers in *. cbv zeta in *.
  cbn [map list_sum fst snd] in *.
  set (p1 := if negb (truthy (parsedHandlers plugin)) then _ else plugin) in *.
  set (p2 := if negb (truthy (parsedLang p1)) && truthy_str (lang p1) then _ else p1) in *.
  unfold manifest in Hp. rewrite <- Hp.
  set (l1 := loadLangStrings p2 _).
  assert (Hl1 : helper l1 = helper l).
  { subst l1. unfold loadLangStrings.
    by destruct (negb (truthy (parsedLang p2))). }
  rewrite Hl1. cbn [helper set_helper].
  destruct (registerHandlers_bound p2 (for_in (parsedHandlers p2)) (helper l))
    as (regs & H1 & H2 & H3).
  exists regs. split; [done|]. split; [simpl; lia | done].
Qed.

(** X16: Loading plugins makes no more registrations in the six per-feature
    delegates than the manifests of the plugins declare handlers, and it
    keeps every name that the map of handlers already held; this holds
    whether [loadSitePlugins] returns or throws. *)
Theorem loadSitePlugins_bound plugins l :
  exists regs,
    registrations
      (trace (helper (fst (loadSitePlugins E schema_of parse_undefined plugins l))))
    = registrations (trace (helper l)) ++ regs
    /\ (length (per_feature_only regs) <= declared_handlers E parse_undefined plugins)%nat
    /\ forall key,
         is_Some (sitePluginHandlers (helper l) !! key) ->
         is_Some (sitePluginHandlers
                    (helper (fst (loadSitePlugins E schema_of parse_undefined plugins l)))
                  !! key).
Proof.
  revert l. induction plugins as [|p plugins IH]; intros l; cbn [loadSitePlugins].
  - exists []. by rewrite app_nil_r.
  - destruct (loadSitePlugin_bound p l) as (regs1 & Hr1 & Hl1 & Hk1).
    destruct (loadSitePlugin E schema_of parse_undefined p l) as [[p' l'] returned].
    cbn [fst snd] in *. destruct returned; cbn [fst].
    + destruct (IH l') as (regs2 & Hr2 & Hl2 & Hk2).
      exists (regs1 ++ regs2). rewrite Hr2, Hr1, app_assoc. split; [done|]. split.
      * rewrite per_feature_only_app, length_app.
        unfold declared_handlers in *. simpl in *. lia.
      * intros key Hkey. by apply Hk2, Hk1.
    + exists regs1. split; [done|]. split; [|done].
      unfold declared_handlers in *. simpl in *. lia.
Qed.

Lemma loadSitePlugins_fields plugins l :
  let r := loadSitePlugins E schema_of parse_undefined plugins l in
  hasSitePluginsLoaded (fst r) = (if plugins is [] then hasSitePluginsLoaded l else true)
  /\ triggered (fst r) = triggered l
  /\ reloads (fst r) = reloads l
  /\ (snd r = true <-> Forall (well_formed E parse_undefined) plugins).
Proof.
  cbv zeta. revert l.
  induction plugins as [|p plugins IH]; intros l; cbn [loadSitePlugins].
  - split; [done|]. split; [done|]. split; [done|]. split; [intros _; constructor | done].
  - destruct (loadSitePlugin_fields p l) as (H1 & H2 & H3).
    pose proof (loadSitePlugin_returns p l) as H4.
    destruct (loadSitePlugin E schema_of parse_undefined p l) as [[p' l'] returned].
    cbn [fst snd] in *. rewrite Forall_cons. destruct returned; cbn [fst snd].
    + destruct (IH l') as (I1 & I2 & I3 & I4).
      rewrite I1, I2, I3, H1, H2, H3, I4. split; [by destruct plugins|].
      split; [done|]. split; [done|]. tauto.
    + split; [done|]. split; [done|]. split; [done|].
      split; [done|]. intros [H _]. apply H4 in H. discriminate.
Qed.

Lemma onLogin_cases l :
  let fetched :=
    exists plugins,
      fst (fetchSitePlugins E (Some (getCurrentSiteId E)) (helper l)) = Some plugins
      /\ plugins <> [] in
  let loaded :=
    exists plugins,
      fst (fetchSitePlugins E (Some (getCurrentSiteId E)) (helper l)) = Some plugins
      /\ plugins <> [] /\ Forall (well_formed E parse_undefined) plugins in
  (loaded
   /\ triggered (onLogin E schema_of parse_undefined l)
      = triggered l ++ [("SITE_PLUGINS_LOADED", getCurrentSiteId E)]
   \/ ~ loaded
      /\ triggered (onLogin E schema_of parse_undefined l) = triggered l)
  /\ (fetched /\ hasSitePluginsLoaded (onLogin E schema_of parse_undefined l) = true
      \/ ~ fetched
         /\ hasSitePluginsLoaded (onLogin E schema_of parse_undefined l)
            = hasSitePluginsLoaded l)
  /\ reloads (onLogin E schema_of parse_undefined l) = reloads l.
Proof.
  cbv zeta. unfold onLogin. cbv zeta.
  destruct (fetchSitePlugins E (Some (getCurrentSiteId E)) (helper l))
    as [[plugins|] st] eqn:Ef; cbn [fst].
  - rewrite String.eqb_refl. cbn [andb].
    destruct plugins as [|p plugins]; cbn [length Nat.eqb negb].
    + split; [right; split; [by intros (? & [= <-] & ? & _) | done]|].
      split; [right; split; [by intros (? & [= <-] & ?) | done] | done].
    + destruct (loadSitePlugins_fields (p :: plugins) (set_helper st l))
        as (H1 & H2 & H3 & H4).
      destruct (loadSitePlugins E schema_of parse_undefined (p :: plugins)
                  (set_helper st l)) as [l' returned].
      cbn [fst snd triggered reloads hasSitePluginsLoaded set_helper] in *.
      split; [|split].
      * destruct returned.
        -- left. split; [|by rewrite H2].
           exists (p :: plugins). split; [done|]. split; [done | by apply H4].
        -- right. split; [|done]. intros (? & [= <-] & _ & H). apply H4 in H. discriminate.
      * left. split; [by exists (p :: plugins)|]. by destruct returned.
      * by destruct returned.
  - split; [right; split; [by intros (? & [=] & _) | done]|].
    split; [right; split; [by intros (? & [=] & _) | done] | done].
Qed.

(** X17: On login the event that the site plugins are loaded is triggered
    exactly when fetching resolves with at least one plugin and no handler
    of their manifests is [null] (on a [null] handler [registerHandler]
    throws, and the event is never triggered); the logout that follows
    reloads the page exactly when fetching resolved with at least one
    plugin, or when plugins had been loaded before. *)
Theorem login_then_logout l :
  let fetched :=
    exists plugins,
      fst (fetchSitePlugins E (Some (getCurrentSiteId E)) (helper l)) = Some plugins
      /\ plugins <> [] in
  let loaded :=
    exists plugins,
      fst (fetchSitePlugins E (Some (getCurrentSiteId E)) (helper l)) = Some plugins
      /\ plugins <> [] /\ Forall (well_formed E parse_undefined) plugins in
  (triggered (onLogin E schema_of parse_undefined l)
   = triggered l ++ [("SITE_PLUGINS_LOADED", getCurrentSiteId E)] <-> loaded)
  /\ (triggered (onLogin E schema_of parse_undefined l) = triggered l <-> ~ loaded)
  /\ (reloads (onLogout (onLogin E schema_of parse_undefined l)) = S (reloads l)
      <-> hasSitePluginsLoaded l = true \/ fetched)
  /\ (reloads (onLogout (onLogin E schema_of parse_undefined l)) = reloads l
      <-> ~ (hasSitePluginsLoaded l = true \/ fetched)).
Proof.
  intros fetched loaded.
  assert (Hlen : forall (t : list (string * string)) x, t ++ [x] <> t).
  { intros t x H. apply (f_equal length) in H. rewrite length_app in H. simpl in H. lia. }
  destruct (onLogin_cases l) as (Ht & Hh & Hr).
  fold fetched in Hh. fold loaded in Ht.
  split; [|split; [|split]].
  - destruct Ht as [[Hl ->] | [Hl ->]]; [tauto|].
    split; [intros H; symmetry in H; by apply Hlen in H | tauto].
  - destruct Ht as [[Hl ->] | [Hl ->]]; [|tauto].
    split; [intros H; by apply Hlen in H | tauto].
  - unfold onLogout. destruct Hh as [[Hf ->] | [Hf ->]]; cbn [reloads]; rewrite ?Hr.
    + split; [tauto | done].
    + destruct (hasSitePluginsLoaded l); cbn [reloads]; rewrite ?Hr.
      * split; [tauto | done].
      * split; [lia | intros [[=] | ?]; tauto].
  - unfold onLogout. destruct Hh as [[Hf ->] | [Hf ->]]; cbn [reloads]; rewrite ?Hr.
    + split; [lia | tauto].
    + destruct (hasSitePluginsLoaded l); cbn [reloads]; rewrite ?Hr.
      * split; [lia | tauto].
      * split; [intros _ [[=] | ?]; tauto | done].
Qed.

End LoadFacts.

Example login_example :
  let l := onLogin example_env example_schema_of VNull nothing_loaded in
  hasSitePluginsLoaded l = true
  /\ triggered l = [("SITE_PLUGINS_LOADED", "site1")]
  /\ registrations (trace (helper l))
     = [(CourseModuleDelegate,
         ModuleHandler "mod_certificate_view" "certificate" module_schema);
        (CourseModulePrefetchDelegate,
         ModulePrefetchHandler "mod_certificate" "mod_certificate_view"
           "certificate" module_schema)]
  /\ reloads (onLogout l) = 1%nat.
Proof. vm_compute. repeat split. Qed.

Example login_broken_example :
  let l := onLogin broken_env example_schema_of VNull nothing_loaded in
  fst (fetchSitePlugins broken_env (Some "site1") initial)
  = Some [set_parsedHandlers (VObj [("view", VNull)]) broken]
  /\ hasSitePluginsLoaded l = true
  /\ triggered l = []
  /\ registrations (trace (helper l)) = []
  /\ reloads (onLogout l) = 1%nat.
Proof. vm_compute. repeat split. Qed.

End SitePluginsMoreProofs.

(* ===================================================================== *)
(** * More on the signup page *)
(* ===================================================================== *)

Module SignupMoreProofs.
Import JS Signup SignupTraces SignupProofs.

Section MorePageFacts.

Variable E : Env.

(** ** The loading modal *)

(** X18: In [create] and in [verifyAge] the requests are made under the loading
    modal, and the modal is always dismissed: whatever the web service
    answers, a run that showed the modal ends by dismissing it, and a run
    that did not show it made no request. *)
Theorem modal_always_dismissed (p : Page) :
  under_modal (create E p) /\ under_modal (snd (verifyAge E p)).
Proof.
  split.
  - unfold create. destruct (form_rejected p).
    + left. by destruct (scrollToInputError E).
    + right. exists [PreventDefault; StopPropagation], "core.sending".
      eexists (CallAjax _ _ _ :: _).
      split; [|split; [done|]].
      * cbn [app]. reflexivity.
      * cbn [forallb is_modal negb andb].
        destruct (signupUser E (signup_params E p)) as [r|]; [|done].
        destruct (success r); [done|]. by destruct (warnings r).
  - unfold verifyAge. destruct (ageVerificationForm_valid p); cbn [negb].
    + right. cbv zeta.
      destruct (isMinorStatus E _) as [status|].
      * destruct status; cbn [negb].
        -- exists [PreventDefault; StopPropagation], "core.sending".
           by eexists [CallAjax _ _ _; _].
        -- destruct (truthy _); [destruct (signUpCountryControl _)|];
             exists [PreventDefault; StopPropagation], "core.sending".
           ++ by eexists [CallAjax _ _ _; _].
           ++ by eexists [CallAjax _ _ _; _; _].
           ++ by eexists [CallAjax _ _ _; _].
      * exists [PreventDefault; StopPropagation], "core.sending".
        by eexists [CallAjax _ _ _; _].
    + by left.
Qed.

(** ** How a signup ends *)

(** X19: [create] goes back to the previous page exactly when the form may be
    submitted and the web service answers that the user was created; it
    then shows the alert of the confirmation and no error.  In every other
    case it stays on the page and puts exactly one error in front of the
    user. *)
Theorem create_outcome (p : Page) :
  let done := In NavPop (create E p) in
  (done <-> may_submit p /\ created (signupUser E (signup_params E p)) = true)
  /\ (done ->
      List.filter shows_error (create E p) = []
      /\ In (ShowAlert (instant E "core.success" None)
               (instant E "core.login.emailconfirmsent"
                  (Some (trim E (email (signupForm_value p))))))
           (create E p))
  /\ (~ done ->
      (exists e, List.filter shows_error (create E p) = [e])
      /\ forall title message, ~ In (ShowAlert title message) (create E p)).
Proof.
  cbv zeta. rewrite <- form_rejected_spec. unfold create, created.
  destruct (form_rejected p).
  - assert (Hno : forall e, In e ([PreventDefault; StopPropagation]
                   ++ ScrollToInputError (scrollToInputError E)
                      :: (if negb (scrollToInputError E)
                          then [ShowErrorModal "core.errorinvalidform" true]
                          else [])) ->
                 e <> NavPop /\ forall t m, e <> ShowAlert t m).
    { intros e. destruct (scrollToInputError E); simpl; intuition (subst; discriminate). }
    split; [|split].
    + split; [intros H; by destruct (Hno _ H) | by intros [[=] _]].
    + intros H. by destruct (Hno _ H).
    + intros _. split.
      * destruct (scrollToInputError E); simpl; eauto.
      * intros t m H. destruct (Hno _ H) as [_ H']. by apply (H' t m).
  - destruct (signupUser E (signup_params E p)) as [r|].
    + destruct (success r).
      * split; [|split].
        -- split; [done|]. intros _. simpl. tauto.
        -- intros _. split; [done|]. simpl. tauto.
        -- intros H. destruct H. simpl. tauto.
      * assert (Hno : forall e,
                   In e ([PreventDefault; StopPropagation]
                         ++ ([ShowModalLoading "core.sending";
                              CallAjax "auth_email_signup_user" (signup_params E p)
                                (siteUrl p)]
                             ++ match warnings r with
                                | [] => [ShowErrorModal "core.login.usernotaddederror" true]
                                | w :: _ =>
                                    [ShowErrorModal
                                       (if (w =? "incorrect-captcha-sol")%string
                                        then instant E "core.login.recaptchaincorrect" None
                                        else w) false]
                                end) ++ [DismissModal]) ->
                   e <> NavPop /\ forall t m, e <> ShowAlert t m).
        { intros e. destruct (warnings r); simpl; intuition (subst; discriminate). }
        split; [|split].
        -- split; [intros H; by destruct (Hno _ H) | by intros [_ [=]]].
        -- intros H. by destruct (Hno _ H).
        -- intros _. split.
           ++ destruct (warnings r); simpl; eauto.
           ++ intros t m H. destruct (Hno _ H) as [_ H']. by apply (H' t m).
    + split; [|split].
      * split; [simpl; intuition discriminate | by intros [_ [=]]].
      * simpl; intuition discriminate.
      * intros _. split; [simpl; eauto|]. intros t m. simpl. intuition discriminate.
Qed.

(** ** The request of a signup *)

Lemma create_request (p : Page) wsName params site :
  In (CallAjax wsName params site) (create E p) ->
  form_rejected p = false
  /\ wsName = "auth_email_signup_user" /\ params = signup_params E p /\ site = siteUrl p.
Proof.
  unfold create. destruct (form_rejected p).
  - destruct (scrollToInputError E); simpl; intuition discriminate.
  - destruct (signupUser E (signup_params E p)) as [r|];
      [destruct (success r); [|destruct (warnings r)]|];
      simpl; intuition (try discriminate); congruence.
Qed.

(** X20: A request that [create] sends is the signup request, to the site of the
    page, and its parameters name each key once.  On a site whose settings
    declare a recaptcha public key it carries the answer of the captcha,
    which is not empty; on another site it carries none.  It carries a
    [redirect] exactly when the public configuration has a launch URL that
    is not empty.  The user name goes trimmed and in lower case. *)
Theorem create_request_params (p : Page) wsName params site :
  In (CallAjax wsName params site) (create E p) ->
  wsName = "auth_email_signup_user"
  /\ site = siteUrl p
  /\ NoDup (map fst params)
  /\ (recaptcha_declared p = true ->
      captcha_recaptcharesponse p <> ""
      /\ param "recaptcharesponse" params = Some (VStr (captcha_recaptcharesponse p)))
  /\ (recaptcha_declared p = false -> param "recaptcharesponse" params = None)
  /\ (is_Some (param "redirect" params)
      <-> exists cfg l, siteConfig p = Some cfg /\ launchurl cfg = Some l /\ l <> "")
  /\ param "username" params
     = Some (VStr (toLowerCase E (trim E (username (signupForm_value p))))).
Proof.
  intros Hin. apply create_request in Hin as (Hr & -> & -> & ->).
  apply form_rejected_spec in Hr as [_ Hc].
  split; [done|]. split; [done|].
  assert (Hredirect :
    (exists cfg l, siteConfig p = Some cfg /\ launchurl cfg = Some l /\ l <> "")
    \/ ~ (exists cfg l, siteConfig p = Some cfg /\ launchurl cfg = Some l /\ l <> "")).
  { destruct (siteConfig p) as [cfg|]; [|right; by intros (? & ? & [=] & _)].
    destruct (launchurl cfg) as [l|] eqn:El; [|right; intros (? & ? & [= <-] & ? & _); congruence].
    destruct (String.eqb_spec l "") as [-> | Hl].
    - right. intros (? & ? & [= <-] & ? & ?). congruence.
    - left. by exists cfg, l. }
  unfold signup_params.
  destruct (recaptcha_declared p) eqn:Ed.
  - specialize (Hc eq_refl). cbn [truthy andb].
    destruct (String.eqb_spec (captcha_recaptcharesponse p) "") as [He | _]; [done|].
    cbn [negb].
    destruct (siteConfig p) as [cfg|];
      [destruct (launchurl cfg) as [l|] eqn:El;
       [cbn [truthy_str]; destruct (String.eqb_spec l "") as [-> | Hl]; cbn [negb]|]|].
    all: split; [vm_compute; repeat (apply NoDup_cons_2;
                   [rewrite ?elem_of_cons, elem_of_nil; intuition discriminate|]);
                 apply NoDup_nil_2|].
    all: split; [intros _; split; [done | reflexivity]|].
    all: split; [done|].
    all: split; [|reflexivity].
    all: split; [intros H | intros H'].
    all: try (by destruct H as [? [=]]).
    all: try (exfalso; destruct H' as (? & ? & [= <-] & ? & ?); congruence).
    all: try (by destruct H' as (? & ? & [=] & _)).
    all: by exists cfg, l.
  - cbn [andb].
    destruct (siteConfig p) as [cfg|];
      [destruct (launchurl cfg) as [l|] eqn:El;
       [cbn [truthy_str]; destruct (String.eqb_spec l "") as [-> | Hl]; cbn [negb]|]|].
    all: split; [vm_compute; repeat (apply NoDup_cons_2;
                   [rewrite ?elem_of_cons, elem_of_nil; intuition discriminate|]);
                 apply NoDup_nil_2|].
    all: split; [done|].
    all: split; [intros _; reflexivity|].
    all: split; [|reflexivity].
    all: split; [intros H | intros H'].
    all: try (by destruct H as [? [=]]).
    all: try (exfalso; destruct H' as (? & ? & [= <-] & ? & ?); congruence).
    all: try (by destruct H' as (? & ? & [=] & _)).
    all: by exists cfg, l.
Qed.

(** ** The age verification *)


(** X22: When the site answers that the user is not a minor, [verifyAge] goes
    ahead: the age verification is switched off, the country of the signup
    form becomes the country given for the verification when there is one,
    and no error is shown.  It does so provided the country control of the
    signup form exists or no country was given; with a country and without
    that control, it shows the error of the age verification instead and
    the verification stays as it was. *)
Theorem verifyAge_not_minor (p : Page) :
  ageVerificationForm_valid p = true ->
  isMinorStatus E [("age", parseInt E (ageVerificationForm_age p));
                   ("country", VStr (countryControl p))] = Some false ->
  let p' := fst (verifyAge E p) in
  isMinor p' = isMinor p
  /\ (forall c,
        signUpCountryControl p = Some c ->
        ageDigitalConsentVerification p' = Some false
        /\ signUpCountryControl p'
           = Some (if String.eqb (countryControl p) "" then c else countryControl p)
        /\ List.filter shows_error (snd (verifyAge E p)) = [])
  /\ (signUpCountryControl p = None ->
      signUpCountryControl p' = None
      /\ if String.eqb (countryControl p) ""
         then ageDigitalConsentVerification p' = Some false
              /\ List.filter shows_error (snd (verifyAge E p)) = []
         else ageDigitalConsentVerification p' = ageDigitalConsentVerification p
              /\ List.filter shows_error (snd (verifyAge E p))
                 = [ShowErrorModal age_error false]).
Proof.
  intros Hvalid Hstatus. cbv zeta. unfold verifyAge. rewrite Hvalid. cbn [negb].
  cbv zeta. cbn [ageVerificationForm_age countryControl set_age siteUrl].
  rewrite Hstatus. cbn [negb truthy signUpCountryControl set_age].
  destruct (countryControl p =? "")%string; cbn [negb].
  - split; [done|]. split; [intros c Hc | intros Hc]; by rewrite ?Hc.
  - destruct (signUpCountryControl p) as [c0|] eqn:Es.
    + split; [done|]. split; [|done]. by intros c [= <-].
    + split; [done|]. split; [done|]. intros _. cbn. by rewrite Es.
Qed.

End MorePageFacts.

Example create_request_example :
  In (CallAjax "auth_email_signup_user" (signup_params example_env answered_page)
        "https://school.example")
    (create example_env answered_page).
Proof. simpl. tauto. Qed.

Lemma create_request_params_witness :
  In (CallAjax "auth_email_signup_user" (signup_params example_env answered_page)
        "https://school.example")
    (create example_env answered_page)
  /\ param "recaptcharesponse" (signup_params example_env answered_page)
     = Some (VStr "03AGdBq2").
Proof.
  split; [exact create_request_example|].
  destruct (create_request_params example_env answered_page _ _ _ create_request_example)
    as (_ & _ & _ & H & _).
  exact (proj2 (H eq_refl)).
Defined.

Example verifyAge_adult_example :
  verifyAge adult_env example_page
  = (set_ageDigitalConsentVerification false
       (set_signUpCountryControl "GB" (set_age (VNum 12) example_page)),
     [PreventDefault; StopPropagation; ShowModalLoading "core.sending";
      CallAjax "core_auth_is_minor" [("age", VNum 12); ("country", VStr "GB")]
        "https://school.example";
      TriggerFormSubmitted "ageForm"; DismissModal]).
Proof. reflexivity. Qed.

Example verifyAge_country_example :
  signUpCountryControl (fst (verifyAge adult_env spanish_page)) = Some "GB"
  /\ country (signupForm_value (fst (verifyAge adult_env spanish_page))) = "GB"
  /\ param "country" (signup_params adult_env (fst (verifyAge adult_env spanish_page)))
     = Some (VStr "GB")
  /\ param "country" (signup_params adult_env spanish_page) = Some (VStr "ES").
Proof. by vm_compute. Qed.

Example verifyAge_incomplete_example :
  verifyAge adult_env incomplete_page
  = (set_age (VNum 12) incomplete_page,
     [PreventDefault; StopPropagation; ShowModalLoading "core.sending";
      CallAjax "core_auth_is_minor" [("age", VNum 12); ("country", VStr "GB")]
        "https://school.example";
      TriggerFormSubmitted "ageForm"; ShowErrorModal age_error false; DismissModal]).
Proof. reflexivity. Qed.

Lemma verifyAge_not_minor_witness :
  ageVerificationForm_valid example_page = true
  /\ isMinorStatus adult_env
       [("age", parseInt adult_env (ageVerificationForm_age example_page));
        ("country", VStr (countryControl example_page))] = Some false
  /\ ageDigitalConsentVerification (fst (verifyAge adult_env example_page)) = Some false
  /\ signUpCountryControl (fst (verifyAge adult_env example_page)) = Some "GB".
Proof.
  split; [reflexivity | split; [reflexivity|]].
  destruct (verifyAge_not_minor adult_env example_page eq_refl eq_refl)
    as (_ & H & _).
  destruct (H "GB" eq_refl) as (H1 & H2 & _).
  split; [exact H1 | exact H2].
Defined.

End SignupMoreProofs.

(* ===================================================================== *)
(** * Loading the signup page *)
(* ===================================================================== *)

Module SignupLoadProofs.
Import JS SignupLoad.

Ltac proj :=
  cbn [siteUrl siteConfig siteName authInstructions settings countries categories
       settingsLoaded allRequiredSupported signupUrl captcha_recaptcharesponse
       countryControl signUpCountryControl isMinor ageDigitalConsentVerification
       supportName supportEmail namefieldsErrors fst snd].

(** The runs of [fetchData], one by one. *)
Ltac fetch_cases E l :=
  unfold fetchData;
  let cfg := fresh "cfg" in
  let Eg := fresh "Eg" in
  destruct (getSitePublicConfig E (siteUrl l)) as [?error | cfg] eqn:Eg;
  [ unfold caught; proj
  | unfold treatSiteConfig; proj;
    let Ee := fresh "Ee" in
    destruct (email_signup_offered E cfg) eqn:Ee;
    [ let Ea := fresh "Ea" in
      destruct (agedigitalconsentverification cfg) as [?b|] eqn:Ea;
      unfold getSignupSettings; cbv zeta; proj;
      (let Es := fresh "Es" in
       destruct (getSignupSettingsWS E (siteUrl l)) as [?error | ?s] eqn:Es;
       [ unfold caught; proj
       | let Ec := fresh "Ec" in
         destruct (getCountryListSorted E) as [?error | ?cs] eqn:Ec;
         unfold completeFormGroup, caught; proj ])
    | unfold completeFormGroup; proj ] ];
  cbn [app].

Section LoadFacts.

Variable E : Env.

Lemma email_signup_offered_spec (cfg : PublicConfig) :
  email_signup_offered E cfg = true <-> email_signup E cfg.
Proof.
  unfold email_signup, email_signup_offered. rewrite andb_true_iff, negb_true_iff.
  destruct (registerauth cfg) as [auth|]; [|split; intros [[=] _]].
  destruct (String.eqb_spec auth "email") as [-> | Hne]; [tauto|].
  split; [intros [[=] _] | intros [[= ->] _]; done].
Qed.

Lemma email_signup_not_offered (cfg : PublicConfig) :
  email_signup_offered E cfg = false <-> ~ email_signup E cfg.
Proof.
  rewrite <- email_signup_offered_spec. by destruct (email_signup_offered E cfg).
Qed.

(** What [fetchData] does, in one list. *)
Lemma fetchData_trace (l : Loading) :
  snd (fetchData E l)
  = GetSitePublicConfig (siteUrl l)
    :: match getSitePublicConfig E (siteUrl l) with
       | inl error => caught l error
       | inr cfg =>
           if email_signup_offered E cfg then
             match agedigitalconsentverification cfg with
             | Some _ => []
             | None =>
                 [OfPage (Signup.CallAjax
                            "core_auth_is_age_digital_consent_verification_enabled" []
                            (siteUrl l))]
             end
             ++ OfPage (Signup.CallAjax "auth_email_get_signup_settings" [] (siteUrl l))
                :: match getSignupSettingsWS E (siteUrl l) with
                   | inl error => caught l error
                   | inr s =>
                       GetCountryListSorted
                       :: match getCountryListSorted E with
                          | inl error => caught l error
                          | inr _ => added_controls (Some s)
                          end
                   end
           else
             [OfPage (Signup.ShowErrorModal
                        (instant E "core.login.signupplugindisabled"
                           (Some (instant E "core.login.auth_email" None))) false);
              OfPage Signup.NavPop]
             ++ added_controls (settings l)
       end.
Proof. by fetch_cases E l. Qed.

Lemma existsb_added_controls (q : Effect -> bool) s :
  (forall name value validator, q (AddControl name value validator) = false) ->
  existsb q (added_controls s) = false.
Proof.
  intros Hq. unfold added_controls. rewrite !existsb_app. cbn [existsb].
  rewrite !Hq. cbn [orb].
  replace (existsb q (map _ (default [] (s ≫= namefields)))) with false.
  - destruct (truthy_str _); cbn [existsb orb]; by rewrite ?Hq.
  - symmetry. induction (default [] (s ≫= namefields)) as [|f fs IH]; [done|].
    cbn [map existsb]. by rewrite Hq, IH.
Qed.

Lemma existsb_caught (q : Effect -> bool) l error :
  (forall message translate, q (OfPage (Signup.ShowErrorModal message translate)) = false) ->
  existsb q (caught l error) = false.
Proof.
  intros Hq. unfold caught. destruct (allRequiredSupported l); [|done].
  cbn [existsb]. by rewrite Hq.
Qed.

(** ** Which requests are made *)

(** X23: [fetchData] asks for the signup settings exactly when the public
    configuration is got and the site offers the signup by email; it asks
    whether the age verification is enabled exactly when, besides, the
    configuration does not say; and it leaves the page for the previous one
    exactly when the configuration is got and the site does not offer the
    signup by email. *)
Theorem fetchData_requests (l : Loading) :
  let t := snd (fetchData E l) in
  (existsb (calls "auth_email_get_signup_settings") t = true
   <-> exists cfg, getSitePublicConfig E (siteUrl l) = inr cfg /\ email_signup E cfg)
  /\ (existsb (calls "core_auth_is_age_digital_consent_verification_enabled") t = true
      <-> exists cfg,
            getSitePublicConfig E (siteUrl l) = inr cfg /\ email_signup E cfg
            /\ agedigitalconsentverification cfg = None)
  /\ (existsb goes_back t = true
      <-> exists cfg,
            getSitePublicConfig E (siteUrl l) = inr cfg /\ ~ email_signup E cfg).
Proof.
  cbv zeta. rewrite fetchData_trace.
  destruct (getSitePublicConfig E (siteUrl l)) as [error | cfg] eqn:Eg.
  - cbn [existsb calls goes_back orb]. rewrite !existsb_caught by done.
    split; [|split]; (split; [done | by intros (? & [=] & _)]).
  - destruct (email_signup_offered E cfg) eqn:Ee.
    + pose proof (proj1 (email_signup_offered_spec cfg) Ee) as Hoff.
      cbn [existsb]. rewrite !existsb_app.
      assert (Hrest : forall q,
                 (forall m t, q (OfPage (Signup.ShowErrorModal m t)) = false) ->
                 (forall n v d, q (AddControl n v d) = false) ->
                 q GetCountryListSorted = false ->
                 existsb q
                   match getSignupSettingsWS E (siteUrl l) with
                   | inl error => caught l error
                   | inr s =>
                       GetCountryListSorted
                       :: match getCountryListSorted E with
                          | inl error => caught l error
                          | inr _ => added_controls (Some s)
                          end
                   end = false).
      { intros q H1 H2 H3. destruct (getSignupSettingsWS E (siteUrl l)).
        - by apply existsb_caught.
        - cbn [existsb]. rewrite H3. destruct (getCountryListSorted E).
          + by apply existsb_caught.
          + by apply existsb_added_controls. }
      cbn [existsb]. rewrite !Hrest by done.
      split; [|split].
      * split; [intros _; by exists cfg|]. intros _.
        replace (calls "auth_email_get_signup_settings"
                   (OfPage (Signup.CallAjax "auth_email_get_signup_settings" []
                              (siteUrl l)))) with true by reflexivity.
        by rewrite orb_true_r.
      * destruct (agedigitalconsentverification cfg) as [b|] eqn:Ea.
        -- split; [done|]. intros (? & [= <-] & _ & ?). congruence.
        -- split; [intros _; by exists cfg | done].
      * split; [|intros (? & [= <-] & Hn); by destruct Hn].
        destruct (agedigitalconsentverification cfg); done.
    + pose proof (proj1 (email_signup_not_offered cfg) Ee) as Hoff.
      cbn [existsb app]. rewrite !existsb_added_controls by done.
      split; [|split].
      * split; [done|]. intros (? & [= <-] & ?). by destruct Hoff.
      * split; [done|]. intros (? & [= <-] & ? & _). by destruct Hoff.
      * split; [intros _; by exists cfg | done].
Qed.

(** ** Whether the age is to be verified *)

(** X24: Once [fetchData] got the public configuration of a site that offers the
    signup by email, the page knows whether the age is to be verified,
    also when the settings cannot be got afterwards: the configuration
    decides when it says; otherwise the web service does, and a failure of
    the web service counts as no. *)
Theorem fetchData_consent (l : Loading) (cfg : PublicConfig) :
  getSitePublicConfig E (siteUrl l) = inr cfg ->
  email_signup E cfg ->
  ageDigitalConsentVerification (fst (fetchData E l))
  = Some match agedigitalconsentverification cfg with
         | Some b => b
         | None => default false (isAgeVerificationEnabled E (siteUrl l))
         end.
Proof.
  intros Hcfg Hoff. apply email_signup_offered_spec in Hoff.
  fetch_cases E l; try congruence.
  all: assert (cfg0 = cfg) as -> by congruence.
  all: by rewrite Ea.
Qed.

(** ** The countries *)

(** X25: After [fetchData] got the configuration and the settings of a site that
    offers the signup by email, the country of the age verification is the
    one of the configuration when it has one, else the one of the
    settings, else empty: what it held before is lost.  When the load ends
    well the country of the signup form is the one of the settings. *)
Theorem fetchData_country (l : Loading) (cfg : PublicConfig) (s : SignupSettings) :
  getSitePublicConfig E (siteUrl l) = inr cfg ->
  email_signup E cfg ->
  getSignupSettingsWS E (siteUrl l) = inr s ->
  countryControl (fst (fetchData E l))
  = (if String.eqb (or_empty (country cfg)) "" then or_empty (settings_country s)
     else or_empty (country cfg))
  /\ (resolved (getCountryListSorted E) = true ->
      signUpCountryControl (fst (fetchData E l)) = Some (or_empty (settings_country s))).
Proof.
  intros Hcfg Hoff Hs. apply email_signup_offered_spec in Hoff.
  fetch_cases E l; try congruence.
  all: assert (cfg0 = cfg) as -> by congruence.
  all: assert (s0 = s) as -> by congruence.
  all: cbn [truthy]; destruct (or_empty (country cfg) =? "")%string; cbn [negb].
  all: split; [done|]; try done.
Qed.

(** ** The captcha *)

Lemma fetchData_captcha (l : Loading) (cfg : PublicConfig) (s : SignupSettings) :
  getSitePublicConfig E (siteUrl l) = inr cfg ->
  email_signup E cfg ->
  getSignupSettingsWS E (siteUrl l) = inr s ->
  settings (fst (fetchData E l)) = Some s
  /\ captcha_recaptcharesponse (fst (fetchData E l))
     = if truthy_str (recaptchapublickey s) then ""
       else captcha_recaptcharesponse l.
Proof.
  intros Hcfg Hoff Hs. apply email_signup_offered_spec in Hoff.
  fetch_cases E l; try congruence.
  all: by assert (s0 = s) as -> by congruence.
Qed.

(** X26: Loading resets the captcha: after [fetchData] got the settings of a
    site that declares a recaptcha public key, [create] sends no request,
    whatever the signup form holds, until the captcha is answered again.
    On a site that declares no key the answer is kept. *)
Theorem fetchData_resets_captcha (l : Loading) (cfg : PublicConfig) (s : SignupSettings)
  (P : Signup.Env) valid value ageValid age :
  getSitePublicConfig E (siteUrl l) = inr cfg ->
  email_signup E cfg ->
  getSignupSettingsWS E (siteUrl l) = inr s ->
  (truthy_str (recaptchapublickey s) = true ->
   forall wsName params site,
     ~ In (Signup.CallAjax wsName params site)
         (Signup.create P (page_of (fst (fetchData E l)) valid value ageValid age)))
  /\ (truthy_str (recaptchapublickey s) = false ->
      captcha_recaptcharesponse (fst (fetchData E l)) = captcha_recaptcharesponse l).
Proof.
  intros Hcfg Hoff Hs.
  destruct (fetchData_captcha l cfg s Hcfg Hoff Hs) as [Hset Hcap].
  split; intros Hkey; rewrite Hkey in Hcap; [|done].
  intros wsName params site Hin.
  apply SignupMoreProofs.create_request in Hin as [Hr _].
  unfold Signup.form_rejected, Signup.recaptcha_declared, page_of in Hr.
  cbn [Signup.settings Signup.captcha_recaptcharesponse Signup.signupForm_valid] in Hr.
  rewrite Hset, Hcap in Hr. cbn [option_map Signup.recaptchapublickey] in Hr.
  rewrite Hkey in Hr. cbn in Hr. by rewrite orb_true_r in Hr.
Qed.

(** ** How a load ends *)

(** X27: [fetchData] ends in one of two ways.  Either it completes the form
    group: it adds the controls of the city and of the country to the
    signup form, and the country control of the signup form exists from
    then on.  Or an error is caught: no control is added, the country
    control of the signup form is left as it was, and the error is shown
    exactly when all the required fields are supported.  The second way is
    taken exactly when the configuration cannot be got or, on a site that
    offers the signup by email, the settings or the countries cannot.  In
    both, at most one error is shown. *)
Theorem fetchData_ends (l : Loading) :
  let l' := fst (fetchData E l) in
  let t := snd (fetchData E l) in
  let failed :=
    match getSitePublicConfig E (siteUrl l) with
    | inl _ => true
    | inr cfg =>
        email_signup_offered E cfg
        && negb (resolved (getSignupSettingsWS E (siteUrl l))
                 && resolved (getCountryListSorted E))
    end in
  (failed = false ->
   existsb is_control t = true
   /\ signUpCountryControl l'
      = Some (or_empty (settings l' ≫= settings_country))
   /\ In (AddControl "country" (VStr (or_empty (settings l' ≫= settings_country)))
            NoValidator) t)
  /\ (failed = true ->
      existsb is_control t = false
      /\ signUpCountryControl l' = signUpCountryControl l
      /\ existsb is_error t = allRequiredSupported l)
  /\ (length (List.filter is_error t) <= 1)%nat.
Proof.
  cbv zeta. split; [|split].
  - fetch_cases E l; rewrite ?Es, ?Ec; cbn [resolved andb negb]; try done.
    all: intros _; split; [done|]; split; [done|].
    all: unfold added_controls; cbn [app]; simpl; tauto.
  - rewrite fetchData_trace.
    fetch_cases E l; rewrite ?Es, ?Ec; cbn [resolved andb negb]; try done.
    all: intros _; rewrite ?existsb_app; cbn [existsb is_control is_error orb].
    all: split; [|split; [done|]].
    all: unfold caught; by destruct (allRequiredSupported l).
  - rewrite fetchData_trace.
    assert (Hc : forall s, List.filter is_error (added_controls s) = []).
    { intros s. unfold added_controls. rewrite !List.filter_app. cbn.
      replace (List.filter is_error (map _ (default [] (s ≫= namefields)))) with (@nil Effect).
      - by destruct (truthy_str _).
      - symmetry. by induction (default [] (s ≫= namefields)). }
    assert (Hk : forall error, (length (List.filter is_error (caught l error)) <= 1)%nat).
    { intros error. unfold caught. destruct (allRequiredSupported l); simpl; lia. }
    destruct (getSitePublicConfig E (siteUrl l)) as [error | cfg].
    + cbn. apply Hk.
    + destruct (email_signup_offered E cfg).
      * cbn [List.filter is_error]. rewrite List.filter_app.
        replace (List.filter is_error
                   match agedigitalconsentverification cfg with
                   | Some _ => []
                   | None => _
                   end) with (@nil Effect)
          by (by destruct (agedigitalconsentverification cfg)).
        cbn [app List.filter is_error].
        destruct (getSignupSettingsWS E (siteUrl l)); [apply Hk|].
        cbn [List.filter is_error].
        destruct (getCountryListSorted E); [apply Hk|].
        rewrite Hc. simpl. lia.
      * cbn [app List.filter is_error]. rewrite Hc. simpl. lia.
Qed.

(** ** The age verification after a load that failed *)

(** X28: When the load of a page whose form group was never completed fails, the
    age verification cannot go ahead with a country: although the site
    answers that the user is not a minor, [verifyAge] shows its error and
    leaves the verification as it was. *)
Theorem verifyAge_after_failed_load (l : Loading) (cfg : PublicConfig)
  (P : Signup.Env) valid value age :
  signUpCountryControl l = None ->
  getSitePublicConfig E (siteUrl l) = inr cfg ->
  email_signup E cfg ->
  resolved (getSignupSettingsWS E (siteUrl l)) && resolved (getCountryListSorted E)
  = false ->
  let p := page_of (fst (fetchData E l)) valid value true age in
  Signup.countryControl p <> "" ->
  Signup.isMinorStatus P
    [("age", Signup.parseInt P age); ("country", VStr (Signup.countryControl p))]
  = Some false ->
  Signup.ageDigitalConsentVerification (fst (Signup.verifyAge P p))
  = Signup.ageDigitalConsentVerification p
  /\ In (Signup.ShowErrorModal Signup.age_error false) (snd (Signup.verifyAge P p)).
Proof.
  intros Hnone Hcfg Hoff Hfail p Hcountry Hstatus.
  apply email_signup_offered_spec in Hoff.
  assert (Hs : Signup.signUpCountryControl p = None).
  { subst p. unfold page_of. cbn [Signup.signUpCountryControl].
    fetch_cases E l; rewrite ?Es, ?Ec in Hfail; cbn in Hfail; congruence. }
  assert (Hv : Signup.ageVerificationForm_valid p = true) by reflexivity.
  assert (Ha : Signup.ageVerificationForm_age p = age) by reflexivity.
  clearbody p. unfold Signup.verifyAge. rewrite Hv. cbn [negb]. cbv zeta.
  cbn [Signup.ageVerificationForm_age Signup.countryControl Signup.set_age
       Signup.siteUrl].
  rewrite Ha, Hstatus.
  cbn [negb truthy Signup.signUpCountryControl Signup.set_age].
  destruct (String.eqb_spec (Signup.countryControl p) "") as [He | _]; [done|].
  cbn [negb]. rewrite Hs. cbn. tauto.
Qed.

End LoadFacts.

Example fetchData_example :
  snd (fetchData school_env school_page)
  = [GetSitePublicConfig "https://school.example";
     OfPage (Signup.CallAjax "core_auth_is_age_digital_consent_verification_enabled" []
               "https://school.example");
     OfPage (Signup.CallAjax "auth_email_get_signup_settings" []
               "https://school.example");
     GetCountryListSorted;
     AddControl "city" (VStr "") NoValidator;
     AddControl "country" (VStr "ES") NoValidator;
     AddControl "firstname" (VStr "") Required;
     AddControl "lastname" (VStr "") Required]
  /\ countryControl (fst (fetchData school_env school_page)) = "GB"
  /\ captcha_recaptcharesponse (fst (fetchData school_env school_page)) = "".
Proof. by vm_compute. Qed.

Example fetchData_failed_example :
  snd (fetchData no_settings_env school_page)
  = [GetSitePublicConfig "https://school.example";
     OfPage (Signup.CallAjax "core_auth_is_age_digital_consent_verification_enabled" []
               "https://school.example");
     OfPage (Signup.CallAjax "auth_email_get_signup_settings" []
               "https://school.example");
     OfPage (Signup.ShowErrorModal "Network error" false)]
  /\ ageDigitalConsentVerification (fst (fetchData no_settings_env school_page))
     = Some true.
Proof. by vm_compute. Qed.

Lemma school_offers_signup : email_signup school_env school_config.
Proof. by split. Qed.

Lemma fetchData_consent_witness :
  getSitePublicConfig school_env (siteUrl school_page) = inr school_config
  /\ email_signup school_env school_config
  /\ ageDigitalConsentVerification (fst (fetchData school_env school_page)) = Some true.
Proof.
  split; [reflexivity | split; [exact school_offers_signup|]].
  exact (fetchData_consent school_env school_page school_config eq_refl
           school_offers_signup).
Defined.

Lemma fetchData_country_witness :
  getSitePublicConfig school_env (siteUrl school_page) = inr school_config
  /\ email_signup school_env school_config
  /\ getSignupSettingsWS school_env (siteUrl school_page) = inr school_settings
  /\ countryControl (fst (fetchData school_env school_page)) = "GB"
  /\ signUpCountryControl (fst (fetchData school_env school_page)) = Some "ES".
Proof.
  split; [reflexivity | split; [exact school_offers_signup | split; [reflexivity|]]].
  destruct (fetchData_country school_env school_page school_config school_settings
              eq_refl school_offers_signup eq_refl) as [H1 H2].
  split; [exact H1 | exact (H2 eq_refl)].
Defined.

Lemma fetchData_resets_captcha_witness :
  getSitePublicConfig school_env (siteUrl school_page) = inr school_config
  /\ email_signup school_env school_config
  /\ getSignupSettingsWS school_env (siteUrl school_page) = inr school_settings
  /\ forall wsName params site,
       ~ In (Signup.CallAjax wsName params site)
           (Signup.create Signup.example_env
              (page_of (fst (fetchData school_env school_page)) true
                 (Signup.signupForm_value Signup.example_page) true (VStr "12"))).
Proof.
  split; [reflexivity | split; [exact school_offers_signup | split; [reflexivity|]]].
  destruct (fetchData_resets_captcha school_env school_page school_config
              school_settings Signup.example_env true
              (Signup.signupForm_value Signup.example_page) true (VStr "12")
              eq_refl school_offers_signup eq_refl) as [H _].
  exact (H eq_refl).
Defined.

Lemma verifyAge_after_failed_load_witness :
  signUpCountryControl school_page = None
  /\ getSitePublicConfig no_settings_env (siteUrl school_page) = inr school_config
  /\ email_signup no_settings_env school_config
  /\ In (Signup.ShowErrorModal Signup.age_error false)
       (snd (Signup.verifyAge SignupTraces.adult_env
               (page_of (fst (fetchData no_settings_env school_page)) true
                  (Signup.signupForm_value Signup.example_page) true (VStr "12")))).
Proof.
  split; [reflexivity | split; [reflexivity | split; [exact school_offers_signup|]]].
  refine (proj2 (verifyAge_after_failed_load no_settings_env school_page school_config
                   SignupTraces.adult_env true
                   (Signup.signupForm_value Signup.example_page) (VStr "12")
                   eq_refl eq_refl school_offers_signup eq_refl _ eq_refl)).
  vm_compute. discriminate.
Defined.

End SignupLoadProofs.

(* ===================================================================== *)
(** * Loading the upcoming events *)
(* ===================================================================== *)

Module CalendarLoadProofs.
Import Calendar CalendarLoad.

(** ** The index of the categories *)

Lemma index_fold_lookup (cats : list Category) (m : gmap Z Category) i c :
  fold_left (fun m category => <[category_id category := category]> m) cats m !! i
  = Some c ->
  (In c cats /\ category_id c = i) \/ m !! i = Some c.
Proof.
  revert m. induction cats as [|x cats IH]; intros m H; cbn [fold_left] in H.
  - by right.
  - apply IH in H as [[Hin Hid] | H].
    + left. split; [by right | done].
    + destruct (decide (category_id x = i)) as [<- | Hne].
      * rewrite lookup_insert_eq in H. injection H as <-. left. split; [by left | done].
      * rewrite lookup_insert_ne in H by done. by right.
Qed.

Lemma index_fold_keeps (cats : list Category) (m : gmap Z Category) i :
  is_Some (m !! i) ->
  is_Some (fold_left (fun m category => <[category_id category := category]> m) cats m
           !! i).
Proof.
  revert m. induction cats as [|x cats IH]; intros m H; cbn [fold_left]; [done|].
  apply IH. destruct (decide (category_id x = i)) as [<- | Hne].
  - rewrite lookup_insert_eq. by eexists.
  - by rewrite lookup_insert_ne.
Qed.

Lemma index_fold_fresh (cats : list Category) (m : gmap Z Category) i :
  ~ In i (map category_id cats) ->
  fold_left (fun m category => <[category_id category := category]> m) cats m !! i
  = m !! i.
Proof.
  revert m. induction cats as [|x cats IH]; intros m H; cbn [fold_left]; [done|].
  cbn [map] in H. rewrite IH by (intros ?; apply H; by right).
  apply lookup_insert_ne. intros ?. apply H. by left.
Qed.

Section LoadFacts.

Variable ev_leb : Event -> Event -> bool.
Variable getFilteredEvents : gmap Z Category -> list Event -> list nat -> list nat.
Variable formatEventTime : Event -> option string -> option string.
Variable E : Env.

(** X4: When [loadCategories] gets the categories, the index it builds holds
    exactly the ids of the categories got, each id with a category of that
    id (what the index held before is dropped); when the ids are distinct,
    every category is found under its id. *)
Theorem loadCategories_index (l : Loaded) (cats : list Category) :
  categoriesRetrieved (component l) = false ->
  getCategories E = Some cats ->
  let l' := fst (loadCategories E l) in
  categoriesRetrieved (component l') = true
  /\ (forall i c, categories l' !! i = Some c -> In c cats /\ category_id c = i)
  /\ (forall c, In c cats -> is_Some (categories l' !! category_id c))
  /\ (NoDup (map category_id cats) ->
      forall c, In c cats -> categories l' !! category_id c = Some c).
Proof.
  intros Hr Hc. cbv zeta. unfold loadCategories. rewrite Hr, Hc. cbn [fst].
  cbn [component categories]. split; [done|]. unfold index_by_id. clear Hr Hc.
  split; [|split].
  - intros i c H. apply index_fold_lookup in H as [H | H]; [done|].
    by rewrite lookup_empty in H.
  - intros c Hin. generalize (∅ : gmap Z Category).
    induction cats as [|x cats' IH]; [done|]. intros m. cbn [fold_left].
    destruct Hin as [-> | Hin].
    + apply index_fold_keeps. rewrite lookup_insert_eq. by eexists.
    + by apply IH.
  - intros Hnd c Hin. generalize (∅ : gmap Z Category).
    induction cats as [|x cats' IH]; [done|]. intros m. cbn [fold_left].
    cbn [map] in Hnd. apply NoDup_cons in Hnd as [Hx Hnd].
    destruct Hin as [-> | Hin].
    + rewrite index_fold_fresh; [apply lookup_insert_eq|].
      intros Hin. apply Hx. by apply list_elem_of_In.
    + by apply IH.
Qed.

(** ** What the loads leave *)

Lemma fetchEvents_frame gf upcoming now (c : Component) :
  let c' := fst (fetchEvents ev_leb gf formatEventTime upcoming now c) in
  loaded c' = loaded c
  /\ categoriesRetrieved c' = categoriesRetrieved c
  /\ offlineEvents c' = offlineEvents c
  /\ deletedEvents c' = deletedEvents c
  /\ lookAhead c' = lookAhead c
  /\ timeFormat c' = timeFormat c
  /\ (upcoming = None -> c' = c).
Proof.
  cbv zeta. unfold fetchEvents. destruct upcoming as [evs|]; [|done].
  unfold alloc. destruct (mergeEvents _ _ _) as [merged h]. cbn.
  repeat (split; [done|]). done.
Qed.

Lemma load_offline_ready (c : Component) :
  snd (load_offline ev_leb E c) = true <-> ready E.
Proof.
  unfold load_offline, ready.
  destruct (getAllEditedEvents E), (getAllDeletedEventsIds E),
    (getCalendarLookAhead E), (getCalendarTimeFormat E); cbn.
  all: split; [intros H | intros (H1 & H2 & H3 & H4)]; try done.
  all: try (by destruct H1 as [? [=]]).
  all: try (by destruct H2 as [? [=]]).
  all: try (by destruct H3 as [? [=]]).
  all: try (by destruct H4 as [? [=]]).
  all: by repeat split.
Qed.

Lemma load_offline_fields (c : Component) :
  let c' := fst (load_offline ev_leb E c) in
  loaded c' = loaded c
  /\ categoriesRetrieved c' = categoriesRetrieved c
  /\ events c' = events c
  /\ onlineEvents c' = onlineEvents c
  /\ filteredEvents c' = filteredEvents c
  /\ deletedEvents c' = default (deletedEvents c) (getAllDeletedEventsIds E)
  /\ lookAhead c' = default (lookAhead c) (getCalendarLookAhead E)
  /\ timeFormat c'
     = match getCalendarTimeFormat E with
       | Some value => Some value
       | None => timeFormat c
       end.
Proof.
  cbv zeta. unfold load_offline, alloc.
  by destruct (getAllEditedEvents E), (getAllDeletedEventsIds E),
    (getCalendarLookAhead E), (getCalendarTimeFormat E).
Qed.

Lemma fetchData_unfold (l : Loaded) :
  let l0 := fst (loadCategories E l) in
  let c0 := fst (load_offline ev_leb E (component l0)) in
  (ready E
   /\ fetchData ev_leb getFilteredEvents formatEventTime E l
      = (mkLoaded
           (set_loaded true
              (fst (fetchEvents ev_leb (getFilteredEvents (categories l0))
                      formatEventTime (getUpcomingEvents E) (now E) c0)))
           (categories l0),
         snd (loadCategories E l) ++ [GetUpcomingEvents]))
  \/ (~ ready E
      /\ fetchData ev_leb getFilteredEvents formatEventTime E l
         = (mkLoaded (set_loaded true c0) (categories l0),
            snd (loadCategories E l)
            ++ [ShowErrorModalDefault "addon.calendar.errorloadevents"])).
Proof.
  cbv zeta. unfold fetchData.
  destruct (loadCategories E l) as [l0 t] eqn:El. cbn [fst snd].
  pose proof (load_offline_ready (component l0)) as Hready.
  destruct (load_offline ev_leb E (component l0)) as [c0 all]. cbn [fst snd] in *.
  destruct all.
  - left. split; [by apply Hready | done].
  - right. split; [|done]. intros H. apply Hready in H. discriminate.
Qed.

Lemma loadCategories_fields (l : Loaded) :
  let l0 := fst (loadCategories E l) in
  let t := snd (loadCategories E l) in
  objects (component l0) = objects (component l)
  /\ loaded (component l0) = loaded (component l)
  /\ events (component l0) = events (component l)
  /\ onlineEvents (component l0) = onlineEvents (component l)
  /\ filteredEvents (component l0) = filteredEvents (component l)
  /\ offlineEvents (component l0) = offlineEvents (component l)
  /\ deletedEvents (component l0) = deletedEvents (component l)
  /\ lookAhead (component l0) = lookAhead (component l)
  /\ timeFormat (component l0) = timeFormat (component l)
  /\ (forall e, In e t -> e = GetCategories)
  /\ (In GetCategories t <-> categoriesRetrieved (component l) = false)
  /\ (categoriesRetrieved (component l0) = true
      <-> categoriesRetrieved (component l) = true \/ is_Some (getCategories E))
  /\ (categoriesRetrieved (component l) = true -> l0 = l).
Proof.
  cbv zeta. unfold loadCategories.
  destruct (categoriesRetrieved (component l)) eqn:Er;
    [|destruct (getCategories E) as [cats|]];
    cbn [fst snd component categories set_categoriesRetrieved objects loaded events
         onlineEvents filteredEvents offlineEvents deletedEvents lookAhead timeFormat
         categoriesRetrieved];
    rewrite ?Er; split_and!; try done.
  - split; [by left | done].
  - by intros ? [<- | []].
  - split; [done | by left].
  - split; [intros _; right; by eexists | done].
  - by intros ? [<- | []].
  - split; [done | by left].
  - split; [done | by intros [[=] | [? [=]]]].
Qed.

(** X5: [fetchData] always ends with the component marked as loaded.  It shows
    the error of the events exactly when the offline events, the deleted
    ids, the look-ahead or the time format cannot be got, and asks for the
    upcoming events exactly when all four are got; a failure to get the
    categories or the upcoming events shows nothing.  When the upcoming
    events are not got, the events on display stay as they were.  What one
    load got is stored whatever becomes of the others. *)
Theorem fetchData_loaded (l : Loaded) :
  let l' := fst (fetchData ev_leb getFilteredEvents formatEventTime E l) in
  let t := snd (fetchData ev_leb getFilteredEvents formatEventTime E l) in
  let c := component l in
  let c' := component l' in
  loaded c' = true
  /\ (forall message, In (ShowErrorModalDefault message) t
        <-> message = "addon.calendar.errorloadevents" /\ ~ ready E)
  /\ (In GetUpcomingEvents t <-> ready E)
  /\ (~ ready E \/ getUpcomingEvents E = None ->
      events c' = events c /\ onlineEvents c' = onlineEvents c
      /\ filteredEvents c' = filteredEvents c)
  /\ (forall ids, getAllDeletedEventsIds E = Some ids -> deletedEvents c' = ids)
  /\ (forall value, getCalendarLookAhead E = Some value -> lookAhead c' = value)
  /\ (forall value, getCalendarTimeFormat E = Some value -> timeFormat c' = Some value).
Proof.
  cbv zeta.
  destruct (loadCategories_fields l)
    as (_ & _ & Hev & Hon & Hfi & _ & _ & _ & _ & Hcat & _).
  destruct (load_offline_fields (component (fst (loadCategories E l))))
    as (_ & _ & Hev' & Hon' & Hfi' & Hdel & Hla & Htf).
  destruct (fetchData_unfold l) as [[Hready ->] | [Hnot ->]]; cbn [fst snd component].
  - destruct (fetchEvents_frame (getFilteredEvents (categories (fst (loadCategories E l))))
                (getUpcomingEvents E) (now E)
                (fst (load_offline ev_leb E (component (fst (loadCategories E l))))))
      as (_ & _ & _ & Hdel2 & Hla2 & Htf2 & Hnone).
    split; [done|]. split; [|split; [|split; [|split; [|split]]]].
    + intros message. rewrite in_app_iff. split.
      * intros [H | [[=] | []]]. by apply Hcat in H.
      * by intros [_ H].
    + rewrite in_app_iff. split; [done|]. intros _. right. by left.
    + intros [H | H]; [done|]. rewrite (Hnone H).
      cbn [events onlineEvents filteredEvents set_loaded]. by rewrite Hev', Hon', Hfi'.
    + intros ids H. cbn [deletedEvents set_loaded]. by rewrite Hdel2, Hdel, H.
    + intros v H. cbn [lookAhead set_loaded]. by rewrite Hla2, Hla, H.
    + intros v H. cbn [timeFormat set_loaded]. by rewrite Htf2, Htf, H.
  - split; [done|]. split; [|split; [|split; [|split; [|split]]]].
    + intros message. rewrite in_app_iff. split.
      * intros [H | [[= <-] | []]]; [by apply Hcat in H | done].
      * intros [-> _]. right. by left.
    + rewrite in_app_iff. split; [|done].
      intros [H | [[=] | []]]. by apply Hcat in H.
    + intros _. cbn [events onlineEvents filteredEvents set_loaded].
      by rewrite Hev', Hon', Hfi'.
    + intros ids H. cbn [deletedEvents set_loaded]. by rewrite Hdel, H.
    + intros v H. cbn [lookAhead set_loaded]. by rewrite Hla, H.
    + intros v H. cbn [timeFormat set_loaded]. by rewrite Htf, H.
Qed.

(** ** The categories are got once *)

Lemma fetchData_categories (l : Loaded) :
  let l' := fst (fetchData ev_leb getFilteredEvents formatEventTime E l) in
  let t := snd (fetchData ev_leb getFilteredEvents formatEventTime E l) in
  (In GetCategories t <-> categoriesRetrieved (component l) = false)
  /\ (categoriesRetrieved (component l') = true
      <-> categoriesRetrieved (component l) = true \/ is_Some (getCategories E))
  /\ (categoriesRetrieved (component l) = true -> categories l' = categories l).
Proof.
  cbv zeta.
  destruct (loadCategories_fields l)
    as (_ & _ & _ & _ & _ & _ & _ & _ & _ & _ & Hin & Hret & Hsame).
  destruct (load_offline_fields (component (fst (loadCategories E l))))
    as (_ & Hr & _).
  destruct (fetchData_unfold l) as [[_ ->] | [_ ->]]; cbn [fst snd component categories].
  - destruct (fetchEvents_frame (getFilteredEvents (categories (fst (loadCategories E l))))
                (getUpcomingEvents E) (now E)
                (fst (load_offline ev_leb E (component (fst (loadCategories E l))))))
      as (_ & Hr2 & _).
    split; [|split].
    + rewrite in_app_iff, Hin. split; [intros [H | [[=] | []]]; done | by left].
    + cbn [categoriesRetrieved set_loaded]. by rewrite Hr2, Hr.
    + intros H. by rewrite (Hsame H).
  - split; [|split].
    + rewrite in_app_iff, Hin. split; [intros [H | [[=] | []]]; done | by left].
    + cbn [categoriesRetrieved set_loaded]. by rewrite Hr.
    + intros H. by rewrite (Hsame H).
Qed.

Lemma fetchData_effects (l : Loaded) :
  loaded (component (fst (fetchData ev_leb getFilteredEvents formatEventTime E l)))
  = true
  /\ forall e,
       In e (snd (fetchData ev_leb getFilteredEvents formatEventTime E l)) ->
       e = GetCategories \/ e = GetUpcomingEvents
       \/ e = ShowErrorModalDefault "addon.calendar.errorloadevents".
Proof.
  destruct (loadCategories_fields l)
    as (_ & _ & _ & _ & _ & _ & _ & _ & _ & Hcat & _).
  destruct (fetchData_unfold l) as [[_ ->] | [_ ->]]; cbn [fst snd component].
  all: split; [done|]; intros e; rewrite in_app_iff.
  all: intros [H | [<- | []]]; [left; by apply Hcat | tauto].
Qed.

End LoadFacts.

(** X6: Once the categories were got, [fetchData] does not ask for them again
    and keeps the index, whatever the services answer the next time; as
    long as they were not got, every [fetchData] asks for them. *)
Theorem categories_got_once ev_leb getFilteredEvents formatEventTime (E1 E2 : Env)
  (l : Loaded) :
  let l1 := fst (fetchData ev_leb getFilteredEvents formatEventTime E1 l) in
  let l2 := fst (fetchData ev_leb getFilteredEvents formatEventTime E2 l1) in
  let t2 := snd (fetchData ev_leb getFilteredEvents formatEventTime E2 l1) in
  (categoriesRetrieved (component l) = true \/ is_Some (getCategories E1) ->
   ~ In GetCategories t2 /\ categories l2 = categories l1)
  /\ (categoriesRetrieved (component l) = false -> getCategories E1 = None ->
      In GetCategories t2).
Proof.
  cbv zeta.
  destruct (fetchData_categories ev_leb getFilteredEvents formatEventTime E1 l)
    as (_ & Hret & _).
  destruct (fetchData_categories ev_leb getFilteredEvents formatEventTime E2
              (fst (fetchData ev_leb getFilteredEvents formatEventTime E1 l)))
    as (Hin & _ & Hsame).
  split.
  - intros H. apply Hret in H. split; [|by apply Hsame].
    rewrite Hin, H. discriminate.
  - intros Hl Hnone. apply Hin.
    destruct (categoriesRetrieved
                (component (fst (fetchData ev_leb getFilteredEvents formatEventTime E1 l))))
      eqn:Er; [|done].
    destruct (proj1 Hret eq_refl) as [Er' | [? Er']]; congruence.
Qed.

(** ** Refreshing *)

(** X7: [refreshData] invalidates the upcoming events unless it is called after
    a change, and always the categories, the look-ahead and the time
    format.  When an invalidation fails its promise is rejected and nothing
    is fetched; otherwise it fetches the data, and it asks for the
    categories again even when they had been got.  In both cases the
    categories are no longer held as got before the fetch. *)
Theorem refreshData_refetches ev_leb getFilteredEvents formatEventTime (E : Env)
  (afterChange : bool) (l : Loaded) :
  let r := refreshData ev_leb getFilteredEvents formatEventTime E afterChange l in
  let stale := mkLoaded (set_categoriesRetrieved false (component l)) (categories l) in
  let invalidated :=
    (afterChange = true \/ invalidateAllUpcomingEvents E = true)
    /\ invalidateCategories E = true /\ invalidateLookAhead E = true
    /\ invalidateTimeFormat E = true in
  (In InvalidateAllUpcomingEvents r.1.2 <-> afterChange = false)
  /\ (In InvalidateCategories r.1.2 /\ In InvalidateLookAhead r.1.2
      /\ In InvalidateTimeFormat r.1.2)
  /\ (r.2 = true <-> invalidated)
  /\ (invalidated ->
      r.1.1 = fst (fetchData ev_leb getFilteredEvents formatEventTime E stale)
      /\ In GetCategories r.1.2
      /\ loaded (component r.1.1) = true)
  /\ (~ invalidated ->
      r.1.1 = stale
      /\ ~ In GetCategories r.1.2 /\ ~ In GetUpcomingEvents r.1.2).
Proof.
  cbv zeta.
  assert (Hinv : (afterChange || invalidateAllUpcomingEvents E)
                 && invalidateCategories E && invalidateLookAhead E
                 && invalidateTimeFormat E = true
                 <-> (afterChange = true \/ invalidateAllUpcomingEvents E = true)
                     /\ invalidateCategories E = true /\ invalidateLookAhead E = true
                     /\ invalidateTimeFormat E = true).
  { rewrite !andb_true_iff, orb_true_iff. tauto. }
  destruct (fetchData_categories ev_leb getFilteredEvents formatEventTime E
              (mkLoaded (set_categoriesRetrieved false (component l)) (categories l)))
    as (Hcat & _).
  destruct (fetchData_effects ev_leb getFilteredEvents formatEventTime E
              (mkLoaded (set_categoriesRetrieved false (component l)) (categories l)))
    as (Hloaded & Heff).
  unfold refreshData.
  destruct (fetchData ev_leb getFilteredEvents formatEventTime E _) as [l' t].
  cbn [fst snd component categoriesRetrieved set_categoriesRetrieved] in *.
  destruct (_ && invalidateTimeFormat E) eqn:Eall; cbn [fst snd].
  - split; [|split; [|split; [|split]]].
    + rewrite !in_app_iff. split.
      * intros [[H | H] | H].
        -- by destruct afterChange.
        -- cbn in H. intuition discriminate.
        -- apply Heff in H. intuition discriminate.
      * intros ->. left. left. by left.
    + rewrite !in_app_iff. cbn. tauto.
    + by rewrite <- Hinv.
    + intros _. split; [done|]. split; [|done].
      rewrite in_app_iff. right. by apply Hcat.
    + intros H. exfalso. apply H. by apply Hinv.
  - split; [|split; [|split; [|split]]].
    + rewrite !in_app_iff. split.
      * intros [H | H]; [by destruct afterChange | cbn in H; intuition discriminate].
      * intros ->. left. by left.
    + rewrite !in_app_iff. cbn. tauto.
    + rewrite <- Hinv. by split.
    + intros H. apply Hinv in H. discriminate.
    + intros _. split; [done|].
      rewrite !in_app_iff. destruct afterChange; cbn; intuition discriminate.
Qed.

Example fetchData_offline_example :
  let l := fst (fetchData start_then_duration no_filter (fun _ _ => None)
                  offline_env example_loaded) in
  snd (fetchData start_then_duration no_filter (fun _ _ => None)
         offline_env example_loaded) = [GetUpcomingEvents]
  /\ loaded (component l) = true
  /\ onlineEvents (component l) = [0; 1]%nat
  /\ lookAhead (component l) = 7.
Proof. by vm_compute. Qed.

Example refreshData_example :
  (refreshData start_then_duration no_filter (fun _ _ => None)
     offline_env false example_loaded).1.2
  = [InvalidateAllUpcomingEvents; InvalidateCategories; InvalidateLookAhead;
     InvalidateTimeFormat; GetCategories; GetUpcomingEvents].
Proof. by vm_compute. Qed.

Lemma loadCategories_index_witness :
  categoriesRetrieved (component stale_loaded) = false
  /\ getCategories offline_env
     = Some [mkCategory 1 "Science"; mkCategory 2 "Arts"; mkCategory 1 "Sciences"]
  /\ forall i c,
       categories (fst (loadCategories offline_env stale_loaded)) !! i = Some c ->
       category_id c = i.
Proof.
  split; [reflexivity | split; [reflexivity|]].
  intros i c H.
  exact (proj2 (proj1 (proj2 (loadCategories_index offline_env stale_loaded _
                                eq_refl eq_refl)) i c H)).
Defined.

Example loadCategories_example :
  categories (fst (loadCategories offline_env stale_loaded)) !! 1
  = Some (mkCategory 1 "Sciences").
Proof. by vm_compute. Qed.

End CalendarLoadProofs.
